(** * solrad.climate.pvgis_tmy: TMY normalisation and daily interpolation

    A shallow embedding of [src/solrad/climate/pvgis_tmy.py].

    - Floating-point numbers are read as exact rationals ([Q]).
    - A pandas [Timestamp] is its integer nanosecond value together with
      the UTC offset of its time zone at that instant; the calendar fields
      ([month], [day], [hour], ...) are computed from it.
    - A pandas [DataFrame] is a list of column labels and a list of rows,
      each row carrying its index label.
    - Python exceptions are an explicit error type; the local dictionary
      [climate_data] is threaded through a small state-and-error monad.
    - [scipy.interpolate.interp1d] is an external collaborator: the
      interpolator is a section variable, and what a statement needs of it
      is a hypothesis of that statement.  A reference instance (scipy's
      piecewise-linear formula, for the kind ['linear'] only) runs the model
      on sample inputs.
    - Column lookups read the first column that carries a label.  pandas
      does the same when the labels of a frame are distinct, which is the
      case for every frame the fetcher produces from a PVGIS response;
      statements about the outcome of a whole call assume distinct labels. *)

From Stdlib Require Import String Bool ZArith QArith Lqa Lia List.
From Stdlib Require Import Permutation Sorted.
Import ListNotations.

Local Open Scope Z_scope.

(* ===================================================================== *)
(** * Exceptions and results *)
(* ===================================================================== *)

(** The label carried by a Python [KeyError]: a tuple of integers (a row
    key) or a string (a column label). *)
Inductive label : Type :=
| LTuple (l : list Z)
| LStr (s : string).

Inductive exn : Type :=
| KeyError (k : label)
| ValueError.

Inductive result (A : Type) : Type :=
| Ok (a : A)
| Raise (e : exn).

Arguments Ok {A} a.
Arguments Raise {A} e.

Definition rbind {A B} (c : result A) (k : A -> result B) : result B :=
  match c with
  | Ok a => k a
  | Raise e => Raise e
  end.

(** [try: c  except KeyError: h] *)
Definition try_except_KeyError {A} (c : result A) (h : result A) : result A :=
  match c with
  | Raise (KeyError _) => h
  | other => other
  end.

(** [try: c  except Exception as m: raise(m)] *)
Definition try_except_reraise {A} (c : result A) : result A :=
  match c with
  | Raise m => Raise m
  | Ok a => Ok a
  end.

Fixpoint mapM {A B} (f : A -> result B) (l : list A) : result (list B) :=
  match l with
  | [] => Ok []
  | a :: l' => rbind (f a) (fun b => rbind (mapM f l') (fun bs => Ok (b :: bs)))
  end.

Definition result_map {A B} (f : A -> B) (c : result A) : result B :=
  rbind c (fun a => Ok (f a)).

Definition of_option {A} (o : option A) (e : exn) : result A :=
  match o with
  | Some a => Ok a
  | None => Raise e
  end.

(* ===================================================================== *)
(** * Timestamps (pandas.Timestamp) *)
(* ===================================================================== *)

Record Timestamp : Type := {
  ts_value : Z;       (** nanoseconds since 1970-01-01T00:00:00 UTC *)
  ts_utcoffset : Z    (** UTC offset of the time zone at that instant, in seconds *)
}.

Definition ns_per_second : Z := 1000000000.

(** Wall-clock nanoseconds in the timestamp's own time zone. *)
Definition local_ns (t : Timestamp) : Z :=
  ts_value t + ts_utcoffset t * ns_per_second.

(** Proleptic Gregorian calendar: civil date of a day number counted from
    1970-01-01. *)
Definition civil_from_days (z0 : Z) : Z * Z * Z :=
  let z := z0 + 719468 in
  let era := z / 146097 in
  let doe := z - era * 146097 in
  let yoe := (doe - doe / 1460 + doe / 36524 - doe / 146096) / 365 in
  let y := yoe + era * 400 in
  let doy := doe - (365 * yoe + yoe / 4 - yoe / 100) in
  let mp := (5 * doy + 2) / 153 in
  let d := doy - (153 * mp + 2) / 5 + 1 in
  let m := if mp <? 10 then mp + 3 else mp - 9 in
  (if m <=? 2 then y + 1 else y, m, d).

Definition days_from_civil (y0 m d : Z) : Z :=
  let y := if m <=? 2 then y0 - 1 else y0 in
  let era := y / 400 in
  let yoe := y - era * 400 in
  let doy := (153 * (if 2 <? m then m - 3 else m + 9) + 2) / 5 + d - 1 in
  let doe := yoe * 365 + yoe / 4 - yoe / 100 + doy in
  era * 146097 + doe - 719468.

Definition ts_date (t : Timestamp) : Z * Z * Z :=
  civil_from_days (local_ns t / (86400 * ns_per_second)).

Definition ts_month (t : Timestamp) : Z := snd (fst (ts_date t)).
Definition ts_day (t : Timestamp) : Z := snd (ts_date t).
Definition ts_hour (t : Timestamp) : Z := (local_ns t / (3600 * ns_per_second)) mod 24.
Definition ts_minute (t : Timestamp) : Z := (local_ns t / (60 * ns_per_second)) mod 60.
Definition ts_second (t : Timestamp) : Z := (local_ns t / ns_per_second) mod 60.

(** A time zone maps a UTC instant (in nanoseconds) to its UTC offset in
    seconds: constant for a fixed offset such as ["-05:00"], piecewise
    constant for a named zone with daylight saving time. *)
Definition TimeZone : Type := Z -> Z.

Definition fixed_offset (seconds : Z) : TimeZone := fun _ => seconds.

(** [DatetimeIndex.tz_convert(tz)]: same instants, relabelled. *)
Definition tz_convert (tz : TimeZone) (index : list Timestamp) : list Timestamp :=
  map (fun t => {| ts_value := ts_value t; ts_utcoffset := tz (ts_value t) |}) index.

(** Building a timestamp from civil fields and a UTC offset. *)
Definition mk_timestamp (y m d hh mm ss off : Z) : Timestamp :=
  {| ts_value := (days_from_civil y m d * 86400 + hh * 3600 + mm * 60 + ss - off)
                 * ns_per_second;
     ts_utcoffset := off |}.

(* ===================================================================== *)
(** * Data frames *)
(* ===================================================================== *)

Record DataFrame (I : Type) : Type := {
  df_columns : list string;
  df_rows : list (I * list Q)
}.

Arguments df_columns {I} d.
Arguments df_rows {I} d.

Definition df_index {I} (df : DataFrame I) : list I := map fst (df_rows df).

(** The position of the first column that carries the label [c].  A lookup
    by label reads that column; pandas does so when no other column carries
    the label. *)
Fixpoint col_pos (cols : list string) (c : string) : option nat :=
  match cols with
  | [] => None
  | c' :: cols' =>
      if String.eqb c' c then Some O
      else option_map S (col_pos cols' c)
  end.

Definition cell_at (j : nat) (vals : list Q) : Q := nth j vals 0%Q.

(** The (month, day, hour) key of the normalised TMY table. *)
Definition mdh : Type := (Z * Z * Z)%type.

Definition mdh_eqb (a b : mdh) : bool :=
  let '(m1, d1, h1) := a in
  let '(m2, d2, h2) := b in
  (m1 =? m2) && (d1 =? d2) && (h1 =? h2).

Definition day_eqb (m d : Z) (k : mdh) : bool :=
  let '(m', d', _) := k in (m' =? m) && (d' =? d).

Definition TMY : Type := DataFrame mdh.

(** The result of a fully keyed [.loc]: a scalar when the key labels one
    row, a Series when it labels several (the model agrees with pandas on
    uniquely keyed tables, which is the TMY table's invariant). *)
Inductive cell : Type :=
| Scalar (v : Q)
| SeriesCell (vs : list Q).

(** [list(tmy_data.loc[(month, day_), col])] *)
Definition loc_day (tmy : TMY) (month day_ : Z) (col : string) : result (list Q) :=
  match col_pos (df_columns tmy) col with
  | None => Raise (KeyError (LStr col))
  | Some j =>
      match filter (fun r => day_eqb month day_ (fst r)) (df_rows tmy) with
      | [] => Raise (KeyError (LTuple [month; day_]))
      | rs => Ok (map (fun r => cell_at j (snd r)) rs)
      end
  end.

(** [tmy_data.loc[(month, day, hour), col]] *)
Definition loc_hour (tmy : TMY) (k : mdh) (col : string) : result cell :=
  match col_pos (df_columns tmy) col with
  | None => Raise (KeyError (LStr col))
  | Some j =>
      match filter (fun r => mdh_eqb k (fst r)) (df_rows tmy) with
      | [] => let '(m, d, h) := k in Raise (KeyError (LTuple [m; d; h]))
      | [r] => Ok (Scalar (cell_at j (snd r)))
      | rs => Ok (SeriesCell (map (fun r => cell_at j (snd r)) rs))
      end
  end.

(* ===================================================================== *)
(** * The TMY fetcher / normaliser: [get_pvgis_tmy_dataframe] *)
(* ===================================================================== *)

(** The frame returned by [pv.iotools.get_pvgis_tmy(...)[0]]: rows indexed
    by UTC timestamps.  The remote request itself is outside the model; the
    response is the input. *)
Definition Response : Type := DataFrame Timestamp.

Fixpoint has_duplicates (l : list Z) : bool :=
  match l with
  | [] => false
  | x :: l' => existsb (Z.eqb x) l' || has_duplicates l'
  end.

(** A row without values stands for the all-NaN row pandas inserts for a
    label that the old index does not contain. *)
Definition nan_row : list Q := [].

(** [DataFrame.reindex(new_index)]: rows are looked up by instant (two
    tz-aware labels are the same label when they denote the same instant);
    a frame whose index repeats a label cannot be reindexed. *)
Definition reindex (df : Response) (new_index : list Timestamp) : result Response :=
  if has_duplicates (map ts_value (df_index df)) then Raise ValueError
  else Ok {| df_columns := df_columns df;
             df_rows :=
               map (fun lbl =>
                      (lbl,
                       match find (fun r => ts_value (fst r) =? ts_value lbl) (df_rows df) with
                       | Some r => snd r
                       | None => nan_row
                       end))
                   new_index |}.

(** The helper columns ["Month"], ["Day"], ["Hour"] derived from ["Date"]. *)
Definition ts_mdh (t : Timestamp) : mdh := (ts_month t, ts_day t, ts_hour t).

Definition mdh_leb (a b : mdh) : bool :=
  let '(m1, d1, h1) := a in
  let '(m2, d2, h2) := b in
  (m1 <? m2) || ((m1 =? m2) && ((d1 <? d2) || ((d1 =? d2) && (h1 <=? h2)))).

Definition mdh_ltb (a b : mdh) : bool :=
  let '(m1, d1, h1) := a in
  let '(m2, d2, h2) := b in
  (m1 <? m2) || ((m1 =? m2) && ((d1 <? d2) || ((d1 =? d2) && (h1 <? h2)))).

(** A row together with its three helper columns. *)
Definition keyed_row : Type := (mdh * (Timestamp * list Q))%type.

(** A row goes in front of the first row whose key is not below its own. *)
Fixpoint insert_row (x : keyed_row) (l : list keyed_row) : list keyed_row :=
  match l with
  | [] => [x]
  | y :: l' => if mdh_leb (fst x) (fst y) then x :: y :: l' else y :: insert_row x l'
  end.

(** [tmy_data.sort_values(by=["Month", "Day", "Hour"])]: ascending in the
    three helper columns; rows that agree on all three keep the order they
    had in the frame. *)
Definition sort_values (rows : list keyed_row) : list keyed_row :=
  fold_right insert_row [] rows.

(** [tmy_data.set_index(["Month", "Day", "Hour"])], after ["Date"] was
    dropped: the helper columns become the index. *)
Definition set_index (rows : list keyed_row) : list (mdh * list Q) :=
  map (fun kr => (fst kr, snd (snd kr))) rows.

Definition new_cols_dict : list (string * string) :=
  [ ("temp_air", "T2m"); ("relative_humidity", "RH"); ("ghi", "G(h)");
    ("dni", "Gb(n)"); ("dhi", "Gd(h)"); ("wind_speed", "WS10m");
    ("wind_direction", "WD10m"); ("pressure", "SP") ]%string.

Fixpoint dict_lookup_str (d : list (string * string)) (c : string) : option string :=
  match d with
  | [] => None
  | (k, v) :: d' => if String.eqb k c then Some v else dict_lookup_str d' c
  end.

(** [DataFrame.rename(columns=new_cols_dict)]: labels absent from the
    dictionary are kept. *)
Definition rename_column (c : string) : string :=
  match dict_lookup_str new_cols_dict c with
  | Some c' => c'
  | None => c
  end.

Definition get_pvgis_tmy_dataframe (response : Response) (tz : TimeZone) : result TMY :=
  let new_tmy_index := tz_convert tz (df_index response) in
  rbind (reindex response new_tmy_index) (fun tmy_data =>
  let keyed := map (fun r => (ts_mdh (fst r), r)) (df_rows tmy_data) in
  let sorted := sort_values keyed in
  Ok {| df_columns := map rename_column (df_columns tmy_data);
        df_rows := set_index sorted |}).

(** The nine columns of the returned frame, as the docstring lists them. *)
Definition documented_columns : list string :=
  [ "T2m"; "RH"; "G(h)"; "Gb(n)"; "Gd(h)"; "IR(h)"; "WS10m"; "WD10m"; "SP" ]%string.

(** The labels of the same columns before renaming. *)
Definition response_columns : list string :=
  [ "temp_air"; "relative_humidity"; "ghi"; "dni"; "dhi"; "IR(h)";
    "wind_speed"; "wind_direction"; "pressure" ]%string.

(** ** The non-leap (month, day, hour) calendar *)

Definition zrange (a : Z) (n : nat) : list Z :=
  map (fun i => a + Z.of_nat i) (seq 0 n).

Definition days_in_month (m : Z) : Z :=
  match m with
  | 1 | 3 | 5 | 7 | 8 | 10 | 12 => 31
  | 4 | 6 | 9 | 11 => 30
  | 2 => 28
  | _ => 0
  end.

Definition valid_mdh (k : mdh) : Prop :=
  let '(m, d, h) := k in
  1 <= m <= 12 /\ 1 <= d <= days_in_month m /\ 0 <= h <= 23.

Definition valid_mdhb (k : mdh) : bool :=
  let '(m, d, h) := k in
  (1 <=? m) && (m <=? 12) && (1 <=? d) && (d <=? days_in_month m)
  && (0 <=? h) && (h <=? 23).

Definition day_keys (m d : Z) : list mdh := map (fun h => (m, d, h)) (zrange 0 24).

Definition month_keys (m : Z) : list mdh :=
  flat_map (day_keys m) (zrange 1 (Z.to_nat (days_in_month m))).

Definition canonical_keys : list mdh := flat_map month_keys (zrange 1 12).

(* ===================================================================== *)
(** * The daily interpolator: [climate_data_from_pvgis_tmy_dataframe] *)
(* ===================================================================== *)

(** ** Output tables and the [climate_data] dictionary *)

(** A column of a freshly created frame holds NaN in every row until an
    array is assigned to it. *)
Inductive column : Type :=
| NaNColumn
| Values (vs : list Q).

Record DayTable : Type := {
  dt_index : list Timestamp;
  dt_columns : list (string * column)
}.

(** [pd.DataFrame(index = index, columns = columns)] *)
Definition new_DataFrame (index : list Timestamp) (columns : list string) : DayTable :=
  {| dt_index := index; dt_columns := map (fun c => (c, NaNColumn)) columns |}.

(** [frame[c] = data]: every column labelled [c] receives the array; a new
    column is appended when there is none.  The frames built by the
    interpolator carry each label once when the labels of the TMY frame are
    distinct and differ from ["hms_float"]. *)
Definition set_column (tbl : DayTable) (c : string) (data : list Q) : DayTable :=
  if existsb (fun p => String.eqb (fst p) c) (dt_columns tbl)
  then {| dt_index := dt_index tbl;
          dt_columns := map (fun p => if String.eqb (fst p) c then (fst p, Values data) else p)
                            (dt_columns tbl) |}
  else {| dt_index := dt_index tbl;
          dt_columns := dt_columns tbl ++ [(c, Values data)] |}.

Fixpoint get_column (cols : list (string * column)) (c : string) : option column :=
  match cols with
  | [] => None
  | (c', v) :: cols' => if String.eqb c' c then Some v else get_column cols' c
  end.

Definition dt_nrows (tbl : DayTable) : nat := length (dt_index tbl).
Definition dt_ncols (tbl : DayTable) : nat := length (dt_columns tbl).

(** The (year, month, day) key of a target group. *)
Definition date_key : Type := (Z * Z * Z)%type.

Definition date_key_eqb (a b : date_key) : bool :=
  let '(y1, m1, d1) := a in
  let '(y2, m2, d2) := b in
  (y1 =? y2) && (m1 =? m2) && (d1 =? d2).

(** A Python dictionary keyed by dates, in insertion order. *)
Definition dict (V : Type) : Type := list (date_key * V).

Fixpoint dict_get {V} (k : date_key) (d : dict V) : option V :=
  match d with
  | [] => None
  | (k', v) :: d' => if date_key_eqb k' k then Some v else dict_get k d'
  end.

Fixpoint dict_set {V} (k : date_key) (v : V) (d : dict V) : dict V :=
  match d with
  | [] => [(k, v)]
  | (k', v') :: d' =>
      if date_key_eqb k' k then (k', v) :: d' else (k', v') :: dict_set k v d'
  end.

Definition dict_keys {V} (d : dict V) : list date_key := map fst d.

(** ** State-and-error monad over the local [climate_data] *)

Definition M (A : Type) : Type := dict DayTable -> result (A * dict DayTable).

Definition ret {A} (a : A) : M A := fun cd => Ok (a, cd).

Definition bind {A B} (c : M A) (k : A -> M B) : M B :=
  fun cd =>
    match c cd with
    | Ok (a, cd') => k a cd'
    | Raise e => Raise e
    end.

Definition lift {A} (c : result A) : M A :=
  fun cd =>
    match c with
    | Ok a => Ok (a, cd)
    | Raise e => Raise e
    end.

Declare Scope monad_scope.
Delimit Scope monad_scope with monad.
Notation "x <- c1 ;; c2" := (bind c1 (fun x => c2))
  (at level 61, c1 at next level, right associativity) : monad_scope.
Notation "c1 ;; c2" := (bind c1 (fun _ => c2))
  (at level 61, right associativity) : monad_scope.
Notation "x <~ c1 ;; c2" := (rbind c1 (fun x => c2))
  (at level 61, c1 at next level, right associativity) : monad_scope.

Local Open Scope monad_scope.

Fixpoint for_each {A} (l : list A) (body : A -> M unit) : M unit :=
  match l with
  | [] => ret tt
  | a :: l' => body a ;; for_each l' body
  end.

(** [climate_data[key] = tbl] *)
Definition set_item (key : date_key) (tbl : DayTable) : M unit :=
  fun cd => Ok (tt, dict_set key tbl cd).

(** [climate_data[key][c] = data]: the frame stored under [key] is the
    object that is updated. *)
Definition set_item_column (key : date_key) (c : string) (data : list Q) : M unit :=
  fun cd =>
    match dict_get key cd with
    | Some tbl => Ok (tt, dict_set key (set_column tbl c data) cd)
    | None => let '(y, m, d) := key in Raise (KeyError (LTuple [y; m; d]))
    end.

(** ** Interpolation nodes *)

(** [np.arange(n)] *)
Definition arange (n : nat) : list Q := map (fun i => inject_Z (Z.of_nat i)) (seq 0 n).

Definition x_interp : list Q := arange 25.

(** [hour + minute/60 + second/3600] of one timestamp. *)
Definition hms_float_of (t : Timestamp) : Q :=
  (inject_Z (ts_hour t) + inject_Z (ts_minute t) / 60 + inject_Z (ts_second t) / 3600)%Q.

(** [day_ = day; if (month, day) == (2, 29): day_ = 28] *)
Definition lookup_day (month day : Z) : Z :=
  if (month =? 2) && (day =? 29) then 28 else day.

(** The value appended to [y_interp] by the nested [try]/[except] blocks. *)
Definition closing_node (tmy : TMY) (month day_ : Z) (col : string) : result cell :=
  try_except_KeyError (loc_hour tmy (month, day_ + 1, 0) col)
    (try_except_KeyError (loc_hour tmy (month + 1, 1, 0) col)
       (try_except_reraise (loc_hour tmy (1, 1, 0) col))).

Inductive interp_kind : Type := linear | quadratic | cubic.

Definition dt_names (tbl : DayTable) : list string := map fst (dt_columns tbl).

Section Interpolator.

(** [interp1d(x, y, kind)] either raises [ValueError] or returns a
    function, whose call at a point either raises [ValueError] or returns
    a number. *)
Variable interp1d : interp_kind -> list Q -> list cell -> option (Q -> option Q).

(** The array assigned to column [col]: lines 252 to 269, right-hand side. *)
Definition interp_column (tmy : TMY) (interp_method : interp_kind)
    (month day_ : Z) (hms_float : list Q) (col : string) : result (list Q) :=
  y_day <~ loc_day tmy month day_ col ;;
  closing <~ closing_node tmy month day_ col ;;
  let y_interp := map Scalar y_day ++ [closing] in
  interp_func <~ of_option (interp1d interp_method x_interp y_interp) ValueError ;;
  mapM (fun x => of_option (interp_func x) ValueError) hms_float.

(** The body of the loop over [time_data.items()]. *)
Definition group_body (tmy : TMY) (interp_method : interp_kind)
    (item : date_key * list Timestamp) : M unit :=
  let '((year, month, day), DatetimeIndex_obj) := item in
  let hms_float := map hms_float_of DatetimeIndex_obj in
  set_item (year, month, day)
    (new_DataFrame DatetimeIndex_obj ("hms_float"%string :: df_columns tmy)) ;;
  set_item_column (year, month, day) "hms_float" hms_float ;;
  let day_ := lookup_day month day in
  for_each (df_columns tmy) (fun col =>
    vals <- lift (interp_column tmy interp_method month day_ hms_float col) ;;
    set_item_column (year, month, day) col vals).

Definition climate_data_from_pvgis_tmy_dataframe
    (time_data : dict (list Timestamp)) (tmy_data : TMY)
    (interp_method : interp_kind) : result (dict DayTable) :=
  result_map snd (for_each time_data (group_body tmy_data interp_method) []).

(** The frame a group starts from: all labels present, ["hms_float"] set. *)
Definition initial_table (tmy : TMY) (ts : list Timestamp) : DayTable :=
  set_column (new_DataFrame ts ("hms_float"%string :: df_columns tmy))
             "hms_float" (map hms_float_of ts).

(** The frame of one group after the loop over the columns [cols],
    started from [tbl]. *)
Fixpoint fill_columns (tmy : TMY) (kind : interp_kind) (month day_ : Z)
    (hms_float : list Q) (cols : list string) (tbl : DayTable) : result DayTable :=
  match cols with
  | [] => Ok tbl
  | col :: cols' =>
      vals <~ interp_column tmy kind month day_ hms_float col ;;
      fill_columns tmy kind month day_ hms_float cols' (set_column tbl col vals)
  end.

(** The frame stored under one key once its group has been processed. *)
Definition group_table (tmy : TMY) (kind : interp_kind)
    (key : date_key) (DatetimeIndex_obj : list Timestamp) : result DayTable :=
  let '(year, month, day) := key in
  let hms_float := map hms_float_of DatetimeIndex_obj in
  fill_columns tmy kind month (lookup_day month day) hms_float (df_columns tmy)
    (initial_table tmy DatetimeIndex_obj).

(** The dictionary after the groups [items], started from [cd]. *)
Fixpoint build (tmy : TMY) (kind : interp_kind)
    (items : dict (list Timestamp)) (cd : dict DayTable) : result (dict DayTable) :=
  match items with
  | [] => Ok cd
  | (key, ts) :: items' =>
      tbl <~ group_table tmy kind key ts ;;
      build tmy kind items' (dict_set key tbl cd)
  end.

End Interpolator.

(* ===================================================================== *)
(** * A reference interpolator *)
(* ===================================================================== *)

(** scipy's piecewise-linear evaluation ([interp1d._call_linear]) over exact
    rationals, as an instance of [interp1d] for the kind ['linear'].  The
    spline kinds have no model here: the instance has no interpolant for
    them, and every sample run below asks for ['linear']. *)

Fixpoint scalars (ys : list cell) : option (list Q) :=
  match ys with
  | [] => Some []
  | Scalar v :: ys' => option_map (cons v) (scalars ys')
  | SeriesCell _ :: _ => None
  end.

(** [np.searchsorted(xs, x)] on an ascending array: the first position
    whose element is not below [x]. *)
Fixpoint searchsorted (xs : list Q) (x : Q) : nat :=
  match xs with
  | [] => O
  | a :: xs' => if Qle_bool x a then O else S (searchsorted xs' x)
  end.

Definition clip (lo hi n : nat) : nat := Nat.max lo (Nat.min hi n).

Definition call_linear (xs ys : list Q) (x_new : Q) : Q :=
  let i := clip 1 (length xs - 1) (searchsorted xs x_new) in
  let lo := (i - 1)%nat in
  let hi := i in
  let x_lo := nth lo xs 0%Q in
  let x_hi := nth hi xs 0%Q in
  let y_lo := nth lo ys 0%Q in
  let y_hi := nth hi ys 0%Q in
  let slope := ((y_hi - y_lo) / (x_hi - x_lo))%Q in
  (slope * (x_new - x_lo) + y_lo)%Q.

(** Evaluating the interpolant: [ValueError] outside the range of the
    nodes. *)
Definition reference_call (xs ys : list Q) (x_new : Q) : option Q :=
  if Qle_bool (hd 0%Q xs) x_new && Qle_bool x_new (last xs 0%Q)
  then Some (Qred (call_linear xs ys x_new))
  else None.

Definition reference_interp1d (kind : interp_kind) (xs : list Q) (ys : list cell)
    : option (Q -> option Q) :=
  match kind with
  | linear =>
      match scalars ys with
      | None => None
      | Some ys' =>
          if (length xs =? length ys')%nat && (1 <? length xs)%nat
          then Some (reference_call xs ys')
          else None
      end
  | quadratic | cubic => None
  end.

(* ===================================================================== *)
(** * Sample data *)
(* ===================================================================== *)

(** A response of 8760 consecutive hours starting on 1 January 1990,
    00:00 UTC, with nine value columns.  The value of column [j] at hour
    number [i] of the year is [20 + (i mod 24) + j / 10]. *)
Definition sample_start : Z := days_from_civil 1990 1 1 * 86400.

Definition sample_row (i : Z) : Timestamp * list Q :=
  let hour_of_day := i mod 24 in
  ({| ts_value := (sample_start + i * 3600) * ns_per_second;
      ts_utcoffset := 0 |},
   map (fun j => Qred (inject_Z (20 + hour_of_day) + inject_Z j / 10)%Q)
       [0; 1; 2; 3; 4; 5; 6; 7; 8]).

(** [n] consecutive integers from [start]. *)
Fixpoint zseq (start : Z) (n : nat) : list Z :=
  match n with
  | O => []
  | S n' => start :: zseq (start + 1) n'
  end.

Definition sample_response : Response :=
  {| df_columns := response_columns;
     df_rows := map sample_row (zseq 0 (24 * 365)) |}.

(** An excerpt of the same response: the hours of 1 and 2 January, of
    27 February to 2 March and of 14 to 17 June (UTC). *)
Definition excerpt_response : Response :=
  {| df_columns := response_columns;
     df_rows := map sample_row (zseq 0 48 ++ zseq 1368 96 ++ zseq 3936 96) |}.

(** The time zone of the docstring's example, ["-05:00"]. *)
Definition tz_minus5 : TimeZone := fixed_offset (-18000).

(** A zone with daylight saving time, on the rules in force in central
    Europe in 1990: UTC+1, and UTC+2 from 25 March 01:00 UTC until
    30 September 01:00 UTC. *)
Definition tz_central_europe_1990 : TimeZone :=
  fun instant =>
    let spring := (days_from_civil 1990 3 25 * 86400 + 3600) * ns_per_second in
    let autumn := (days_from_civil 1990 9 30 * 86400 + 3600) * ns_per_second in
    if (spring <=? instant) && (instant <? autumn) then 7200 else 3600.

(* ===================================================================== *)
(** * Derived notions used in the statements *)
(* ===================================================================== *)

(** Whether each element is below its successor. *)
Fixpoint increasingb {A : Type} (ltb : A -> A -> bool) (l : list A) : bool :=
  match l with
  | x :: (y :: _) as l' => ltb x y && increasingb ltb l'
  | _ => true
  end.

(** A timestamp seen in time zone [tz]. *)
Definition in_zone (tz : TimeZone) (t : Timestamp) : Timestamp :=
  {| ts_value := ts_value t; ts_utcoffset := tz (ts_value t) |}.

(** The rows of a response with each index label moved to [tz]. *)
Definition relabel (tz : TimeZone) (rows : list (Timestamp * list Q))
    : list (Timestamp * list Q) :=
  map (fun r => (in_zone tz (fst r), snd r)) rows.

(** The local (month, day, hour) label of every row of a response. *)
Definition local_labels (tz : TimeZone) (response : Response) : list mdh :=
  map (fun r => ts_mdh (in_zone tz (fst r))) (df_rows response).

(** The frame [get_pvgis_tmy_dataframe] returns when reindexing succeeds. *)
Definition normalised (response : Response) (tz : TimeZone) : TMY :=
  {| df_columns := map rename_column (df_columns response);
     df_rows := set_index (sort_values
                  (map (fun r => (ts_mdh (fst r), r)) (relabel tz (df_rows response)))) |}.

(** The rows of a TMY frame stored under one key. *)
Definition rows_keyed (tmy : TMY) (k : mdh) : list (mdh * list Q) :=
  filter (fun r => mdh_eqb k (fst r)) (df_rows tmy).

(** Exactly one row for every valid (month, day, hour) triple of a non-leap
    year, and no row under any other key. *)
Definition one_row_per_valid_mdh (tmy : TMY) : Prop :=
  forall k, length (rows_keyed tmy k) = if valid_mdhb k then 1%nat else 0%nat.

(** Rows in ascending lexicographic order of (month, day, hour). *)
Definition sorted_by_mdh (tmy : TMY) : Prop :=
  StronglySorted (fun a b => mdh_leb a b = true) (df_index tmy).

(** The key that signals that no closing value could be resolved: the
    [KeyError] of the last lookup, re-raised. *)
Definition MissingClosingNode : exn := KeyError (LTuple [1; 1; 0]).

(** The fallback chain in the words of the specification: an ordered list
    of candidate keys, the first one present in the table supplies the
    value, and there is an explicit outcome when none is. *)
Definition closing_candidates (month lookup_day_ : Z) : list mdh :=
  [(month, lookup_day_ + 1, 0); (month + 1, 1, 0); (1, 1, 0)].

Definition key_present (tmy : TMY) (k : mdh) : bool :=
  existsb (mdh_eqb k) (df_index tmy).

Definition closing_value_spec (tmy : TMY) (month lookup_day_ : Z) (col : string)
    : result cell :=
  match find (key_present tmy) (closing_candidates month lookup_day_) with
  | Some k => loc_hour tmy k col
  | None => Raise MissingClosingNode
  end.

(** The time of day the code reads from a timestamp. *)
Definition time_of_day (t : Timestamp) : Z * Z * Z :=
  (ts_hour t, ts_minute t, ts_second t).

(** One column of a TMY frame: the key of every row with the row's value
    in that column. *)
Definition tmy_column (tmy : TMY) (col : string) : option (list (mdh * Q)) :=
  match col_pos (df_columns tmy) col with
  | Some j => Some (map (fun r => (fst r, cell_at j (snd r))) (df_rows tmy))
  | None => None
  end.

(** [interp1d] refuses node arrays of different lengths. *)
Definition rejects_length_mismatch
    (interp1d : interp_kind -> list Q -> list cell -> option (Q -> option Q)) : Prop :=
  forall kind xs ys f, interp1d kind xs ys = Some f -> length xs = length ys.

(** The rows of a TMY frame that belong to one day, in table order. *)
Definition day_rows (tmy : TMY) (month day_ : Z) : list (mdh * list Q) :=
  filter (fun r => day_eqb month day_ (fst r)) (df_rows tmy).

(** A column that holds an array of [n] values. *)
Definition filled (n : nat) (p : string * column) : Prop :=
  exists vs, snd p = Values vs /\ length vs = n.

(** Every column of the table holds an array with one value per row. *)
Definition all_columns_filled (tbl : DayTable) : Prop :=
  Forall (filled (dt_nrows tbl)) (dt_columns tbl).

(** A (month, day) of the non-leap calendar of the TMY table. *)
Definition valid_date (month day : Z) : Prop :=
  1 <= month <= 12 /\ 1 <= day <= days_in_month month.

(** A (month, day) that a target group can carry: a date of the non-leap
    calendar, or 29 February. *)
Definition calendar_date (month day : Z) : Prop :=
  1 <= month <= 12 /\ 1 <= day <= (if month =? 2 then 29 else days_in_month month).

(** Hour 0 of the calendar day after (month, day_), wrapping from
    31 December to 1 January. *)
Definition next_day_key (month day_ : Z) : mdh :=
  if day_ <? days_in_month month then (month, day_ + 1, 0)
  else if month <? 12 then (month + 1, 1, 0)
  else (1, 1, 0).

(** For the given kind, [interp1d] accepts 25 scalar nodes over [x_interp],
    and the interpolant it returns evaluates everywhere between the first
    and the last node. *)
Definition evaluates_on_day
    (interp1d : interp_kind -> list Q -> list cell -> option (Q -> option Q))
    (kind : interp_kind) : Prop :=
  forall ys,
    length ys = 25%nat ->
    exists f,
      interp1d kind x_interp (map Scalar ys) = Some f /\
      forall x, (0 <= x)%Q -> (x <= 24)%Q -> exists v, f x = Some v.

(** The array [vs] is what [interp1d(x_interp, ys, kind = kind)] returns,
    evaluated at the times [hms]. *)
Definition interpolates_nodes
    (interp1d : interp_kind -> list Q -> list cell -> option (Q -> option Q))
    (kind : interp_kind) (ys : list cell) (hms vs : list Q) : Prop :=
  exists interp_func,
    interp1d kind x_interp ys = Some interp_func /\
    mapM (fun x => of_option (interp_func x) ValueError) hms = Ok vs.

(** The column labels of a frame are distinct, and none of them is the
    label of the column of times the interpolator adds. *)
Definition distinct_labels (cols : list string) : Prop :=
  NoDup ("hms_float"%string :: cols).

(** The labels of the columns the fetcher adds to the response and removes
    again: ["Date"] is dropped, the other three become the index. *)
Definition helper_columns : list string := [ "Date"; "Month"; "Day"; "Hour" ]%string.

(* ===================================================================== *)
(** * Sample inputs and runs *)
(* ===================================================================== *)

Definition result_get {A} (default : A) (r : result A) : A :=
  match r with
  | Ok a => a
  | Raise _ => default
  end.

Definition option_get {A} (default : A) (o : option A) : A :=
  match o with
  | Some a => a
  | None => default
  end.

Definition sample_tmy : TMY := normalised sample_response tz_minus5.

(** The excerpt, normalised for the same time zone: it holds the days
    28 February, 15 June and 1 January in full, and hour 0 of the day after
    each of them. *)
Definition excerpt_tmy : TMY := normalised excerpt_response tz_minus5.

(** Timestamps every five minutes from 06:00 to 18:00 local time on
    15 June 2023. *)
Definition sample_grid : list Timestamp :=
  map (fun i => mk_timestamp 2023 6 15 6 (5 * Z.of_nat i) 0 (-18000)) (seq 0 145).

Definition sample_time_data : dict (list Timestamp) := [((2023, 6, 15), sample_grid)].

Definition sample_out : dict DayTable :=
  result_get [] (climate_data_from_pvgis_tmy_dataframe reference_interp1d
                   sample_time_data excerpt_tmy linear).

Definition sample_table : DayTable :=
  option_get (new_DataFrame [] []) (dict_get (2023, 6, 15) sample_out).

(** A frame that holds the rows of 15 June only: no key of the fallback
    chain of that day is present. *)
Definition june15_only : TMY :=
  {| df_columns := df_columns excerpt_tmy;
     df_rows := filter (fun r => day_eqb 6 15 (fst r)) (df_rows excerpt_tmy) |}.

Definition sample_tmy_dst : TMY := normalised sample_response tz_central_europe_1990.

(** The excerpt with every relative-humidity value replaced. *)
Definition excerpt_dry : TMY :=
  {| df_columns := df_columns excerpt_tmy;
     df_rows := map (fun r => (fst r,
                               match snd r with
                               | t2m :: rh :: rest => t2m :: 0%Q :: rest
                               | vals => vals
                               end))
                    (df_rows excerpt_tmy) |}.

(** A leap-day group and a 28 February group with the same times of day. *)
Definition leap_time_data : dict (list Timestamp) :=
  [ ((2024, 2, 29), [mk_timestamp 2024 2 29 10 30 0 (-18000);
                     mk_timestamp 2024 2 29 14 0 0 (-18000)]);
    ((2024, 2, 28), [mk_timestamp 2024 2 28 10 30 0 (-18000);
                     mk_timestamp 2024 2 28 14 0 0 (-18000)]) ].

Definition leap_out : dict DayTable :=
  result_get [] (climate_data_from_pvgis_tmy_dataframe reference_interp1d
                   leap_time_data excerpt_tmy linear).

Definition dry_out : dict DayTable :=
  result_get [] (climate_data_from_pvgis_tmy_dataframe reference_interp1d
                   sample_time_data excerpt_dry linear).

(** A group for 4 July 2023, a day the excerpt does not hold. *)
Definition july4_group : date_key * list Timestamp :=
  ((2023, 7, 4), [mk_timestamp 2023 7 4 12 0 0 (-18000)]).

(** The same times of day on 15 June of two different years. *)
Definition june15_2023 : list Timestamp :=
  [mk_timestamp 2023 6 15 10 30 0 (-18000); mk_timestamp 2023 6 15 14 0 0 (-18000)].

Definition june15_1999 : list Timestamp :=
  [mk_timestamp 1999 6 15 10 30 0 (-18000); mk_timestamp 1999 6 15 14 0 0 (-18000)].

(* ===================================================================== *)
(** * Basic facts: keys, dictionaries, columns *)
(* ===================================================================== *)

Lemma mdh_eqb_eq (a b : mdh) : mdh_eqb a b = true <-> a = b.
Proof.
  destruct a as [[m1 d1] h1], b as [[m2 d2] h2]; unfold mdh_eqb.
  rewrite !andb_true_iff, !Z.eqb_eq. split.
  - intros [[-> ->] ->]; reflexivity.
  - intros E; inversion E; auto.
Qed.

Lemma mdh_eqb_refl (a : mdh) : mdh_eqb a a = true.
Proof. apply mdh_eqb_eq; reflexivity. Qed.

Lemma date_key_eqb_eq (a b : date_key) : date_key_eqb a b = true <-> a = b.
Proof.
  destruct a as [[y1 m1] d1], b as [[y2 m2] d2]; unfold date_key_eqb.
  rewrite !andb_true_iff, !Z.eqb_eq. split.
  - intros [[-> ->] ->]; reflexivity.
  - intros E; inversion E; auto.
Qed.

Lemma date_key_eqb_refl (a : date_key) : date_key_eqb a a = true.
Proof. apply date_key_eqb_eq; reflexivity. Qed.

Lemma date_key_eqb_neq (a b : date_key) : a <> b -> date_key_eqb a b = false.
Proof.
  intros N. destruct (date_key_eqb a b) eqn:E; [|reflexivity].
  apply date_key_eqb_eq in E. contradiction.
Qed.

Section DictFacts.
Context {V : Type}.

Lemma dict_get_set_same (k : date_key) (v : V) (d : dict V) :
  dict_get k (dict_set k v d) = Some v.
Proof.
  induction d as [|[k' v'] d IH]; simpl.
  - now rewrite date_key_eqb_refl.
  - destruct (date_key_eqb k' k) eqn:E; simpl; rewrite E; auto.
Qed.

Lemma dict_get_set_other (k k' : date_key) (v : V) (d : dict V) :
  k <> k' -> dict_get k' (dict_set k v d) = dict_get k' d.
Proof.
  intros N. induction d as [|[k0 v0] d IH]; simpl.
  - now rewrite date_key_eqb_neq.
  - destruct (date_key_eqb k0 k) eqn:E; simpl.
    + apply date_key_eqb_eq in E; subst k0.
      now rewrite date_key_eqb_neq.
    + now rewrite IH.
Qed.

Lemma dict_set_set (k : date_key) (v v' : V) (d : dict V) :
  dict_set k v' (dict_set k v d) = dict_set k v' d.
Proof.
  induction d as [|[k0 v0] d IH]; simpl.
  - now rewrite date_key_eqb_refl.
  - destruct (date_key_eqb k0 k) eqn:E; simpl; rewrite E; [reflexivity|].
    now rewrite IH.
Qed.

Lemma dict_keys_set_new (k : date_key) (v : V) (d : dict V) :
  ~ In k (dict_keys d) -> dict_keys (dict_set k v d) = dict_keys d ++ [k].
Proof.
  induction d as [|[k0 v0] d IH]; simpl; intros N; [reflexivity|].
  rewrite date_key_eqb_neq by (intros ->; apply N; now left).
  simpl. f_equal. apply IH. intros H; apply N; now right.
Qed.
End DictFacts.

Lemma col_pos_In (cols : list string) (c : string) :
  In c cols -> exists j, col_pos cols c = Some j.
Proof.
  induction cols as [|c' cols IH]; simpl; [tauto|].
  intros H. destruct (String.eqb c' c) eqn:E; [eauto|].
  destruct H as [->|H]; [now rewrite String.eqb_refl in E|].
  destruct (IH H) as [j ->]. simpl; eauto.
Qed.

Lemma col_pos_same_name (cols : list string) (c : string) (j : nat) :
  col_pos cols c = Some j -> nth_error cols j = Some c.
Proof.
  revert j. induction cols as [|c' cols IH]; simpl; [discriminate|].
  intros j. destruct (String.eqb_spec c' c) as [->|N].
  - intros [= <-]; reflexivity.
  - destruct (col_pos cols c) as [j'|]; simpl; [|discriminate].
    intros [= <-]. simpl. now apply IH.
Qed.

(** ** Row lookups *)

Lemma filter_nil_iff {A} (f : A -> bool) (l : list A) :
  filter f l = [] <-> forall x, In x l -> f x = false.
Proof.
  induction l as [|a l IH]; simpl.
  - split; [intros _ x []|reflexivity].
  - destruct (f a) eqn:E; split.
    + discriminate.
    + intros H. rewrite (H a) in E by now left. discriminate.
    + intros H x [<-|Hx]; [assumption|]. now apply IH.
    + intros H. apply IH. intros x Hx. apply H. now right.
Qed.

Lemma loc_hour_missing (tmy : TMY) (k : mdh) (col : string) :
  In col (df_columns tmy) -> ~ In k (df_index tmy) ->
  loc_hour tmy k col =
    Raise (KeyError (LTuple [fst (fst k); snd (fst k); snd k])).
Proof.
  intros Hc Hk. unfold loc_hour.
  destruct (col_pos_In _ _ Hc) as [j ->].
  replace (filter _ (df_rows tmy)) with (@nil (mdh * list Q)).
  - destruct k as [[m d] h]; reflexivity.
  - symmetry. apply filter_nil_iff. intros r Hr.
    destruct (mdh_eqb k (fst r)) eqn:E; [|reflexivity].
    apply mdh_eqb_eq in E. exfalso. apply Hk. subst k.
    unfold df_index. now apply in_map.
Qed.

Lemma loc_hour_present (tmy : TMY) (k : mdh) (col : string) :
  In col (df_columns tmy) -> In k (df_index tmy) ->
  exists c, loc_hour tmy k col = Ok c.
Proof.
  intros Hc Hk. unfold loc_hour.
  destruct (col_pos_In _ _ Hc) as [j ->].
  destruct (filter _ (df_rows tmy)) as [|r [|r' rs]] eqn:F; eauto.
  exfalso. unfold df_index in Hk. apply in_map_iff in Hk as [r [<- Hr]].
  rewrite filter_nil_iff in F. specialize (F r Hr).
  now rewrite mdh_eqb_refl in F.
Qed.

Lemma loc_hour_not_KeyError_tuple (tmy : TMY) (k : mdh) (col : string) (l : list Z) :
  In k (df_index tmy) -> loc_hour tmy k col <> Raise (KeyError (LTuple l)).
Proof.
  intros Hk. unfold loc_hour.
  destruct (col_pos (df_columns tmy) col) as [j|]; [|discriminate].
  destruct (filter _ (df_rows tmy)) as [|r [|r' rs]] eqn:F; try discriminate.
  exfalso. unfold df_index in Hk. apply in_map_iff in Hk as [r [<- Hr]].
  rewrite filter_nil_iff in F. specialize (F r Hr).
  now rewrite mdh_eqb_refl in F.
Qed.

(* ===================================================================== *)
(** * The interpolator as a pure function of its inputs *)
(* ===================================================================== *)

Section InterpolatorFacts.

Variable interp1d : interp_kind -> list Q -> list cell -> option (Q -> option Q).

Lemma column_loop_run tmy kind key month day_ hms cols :
  forall tbl cd,
    for_each cols (fun col =>
      vals <- lift (interp_column interp1d tmy kind month day_ hms col) ;;
      set_item_column key col vals) (dict_set key tbl cd)
    = match fill_columns interp1d tmy kind month day_ hms cols tbl with
      | Ok tbl' => Ok (tt, dict_set key tbl' cd)
      | Raise e => Raise e
      end.
Proof.
  induction cols as [|col cols IH]; intros tbl cd; simpl.
  - reflexivity.
  - unfold bind at 1. unfold bind at 1. unfold lift.
    destruct (interp_column interp1d tmy kind month day_ hms col) as [vals|e]; simpl;
      [|reflexivity].
    unfold set_item_column at 1. rewrite dict_get_set_same, dict_set_set.
    apply IH.
Qed.

Lemma group_body_run tmy kind key ts cd :
  group_body interp1d tmy kind (key, ts) cd
  = match group_table interp1d tmy kind key ts with
    | Ok tbl => Ok (tt, dict_set key tbl cd)
    | Raise e => Raise e
    end.
Proof.
  destruct key as [[year month] day]. unfold group_body, group_table.
  unfold bind at 1. unfold set_item at 1.
  unfold bind at 1. unfold set_item_column at 1.
  rewrite dict_get_set_same, dict_set_set.
  apply column_loop_run.
Qed.

Lemma for_each_groups_run tmy kind items :
  forall cd,
    for_each items (group_body interp1d tmy kind) cd
    = match build interp1d tmy kind items cd with
      | Ok cd' => Ok (tt, cd')
      | Raise e => Raise e
      end.
Proof.
  induction items as [|[key ts] items IH]; intros cd; cbn [for_each build];
    [reflexivity|].
  unfold bind. rewrite group_body_run.
  destruct (group_table interp1d tmy kind key ts) as [tbl|e]; simpl; [apply IH|reflexivity].
Qed.

Lemma climate_data_eq_build time_data tmy kind :
  climate_data_from_pvgis_tmy_dataframe interp1d time_data tmy kind
  = build interp1d tmy kind time_data [].
Proof.
  unfold climate_data_from_pvgis_tmy_dataframe. rewrite for_each_groups_run.
  destruct (build interp1d tmy kind time_data []); reflexivity.
Qed.

(** ** What a successful run stores under each key *)

Lemma build_keeps tmy kind items :
  forall cd out k,
    build interp1d tmy kind items cd = Ok out ->
    ~ In k (dict_keys items) ->
    dict_get k out = dict_get k cd.
Proof.
  induction items as [|[key ts] items IH]; intros cd out k; simpl.
  - now intros [= ->].
  - destruct (group_table interp1d tmy kind key ts) as [tbl|e]; simpl; [|discriminate].
    intros Hb Hk. rewrite (IH _ _ _ Hb) by tauto.
    apply dict_get_set_other. tauto.
Qed.

Lemma build_get tmy kind items :
  forall cd out k ts,
    build interp1d tmy kind items cd = Ok out ->
    NoDup (dict_keys items) ->
    In (k, ts) items ->
    exists tbl, group_table interp1d tmy kind k ts = Ok tbl /\ dict_get k out = Some tbl.
Proof.
  induction items as [|[key ts0] items IH]; intros cd out k ts; simpl; [tauto|].
  destruct (group_table interp1d tmy kind key ts0) as [tbl|e] eqn:G; simpl; [|discriminate].
  intros Hb Hnd [E|Hin]; inversion Hnd as [|? ? Hnotin Hnd']; subst.
  - inversion E; subst. exists tbl. split; [assumption|].
    rewrite (build_keeps _ _ _ _ _ _ Hb Hnotin). apply dict_get_set_same.
  - eapply IH; eauto.
Qed.

Lemma build_keys tmy kind items :
  forall cd out,
    build interp1d tmy kind items cd = Ok out ->
    NoDup (dict_keys cd ++ dict_keys items) ->
    dict_keys out = dict_keys cd ++ dict_keys items.
Proof.
  induction items as [|[key ts] items IH]; intros cd out; simpl.
  - intros [= ->] _. now rewrite app_nil_r.
  - destruct (group_table interp1d tmy kind key ts) as [tbl|e]; simpl; [|discriminate].
    intros Hb Hnd.
    assert (Hnew : ~ In key (dict_keys cd)).
    { intros Hin. apply NoDup_remove_2 in Hnd. apply Hnd.
      apply in_or_app. now left. }
    rewrite (IH _ _ Hb); rewrite dict_keys_set_new by assumption.
    + now rewrite <- app_assoc.
    + now rewrite <- app_assoc.
Qed.

Lemma build_raises tmy kind items :
  forall cd k ts e,
    In (k, ts) items ->
    group_table interp1d tmy kind k ts = Raise e ->
    exists e', build interp1d tmy kind items cd = Raise e'.
Proof.
  induction items as [|[key ts0] items IH]; intros cd k ts e; simpl; [tauto|].
  intros [E|Hin] G.
  - inversion E; subst. rewrite G. simpl. eauto.
  - destruct (group_table interp1d tmy kind key ts0) as [tbl|e0]; simpl; eauto.
Qed.

End InterpolatorFacts.

(* ===================================================================== *)
(** * Columns of a day table *)
(* ===================================================================== *)

Lemma existsb_name_In (cols : list (string * column)) (c : string) :
  existsb (fun p => String.eqb (fst p) c) cols = true <-> In c (map fst cols).
Proof.
  rewrite existsb_exists, in_map_iff. split.
  - intros [p [Hp E]]. apply String.eqb_eq in E. eauto.
  - intros [p [E Hp]]. exists p. split; [assumption|]. now apply String.eqb_eq.
Qed.

Lemma set_column_index tbl c data : dt_index (set_column tbl c data) = dt_index tbl.
Proof. unfold set_column. destruct (existsb _ _); reflexivity. Qed.

Lemma set_column_names tbl c data :
  In c (dt_names tbl) -> dt_names (set_column tbl c data) = dt_names tbl.
Proof.
  intros H. unfold set_column, dt_names in *.
  apply existsb_name_In in H. rewrite H. simpl.
  rewrite map_map. apply map_ext. intros [c' v]; simpl.
  destruct (String.eqb c' c); reflexivity.
Qed.

Lemma get_set_column_same tbl c data :
  In c (dt_names tbl) ->
  get_column (dt_columns (set_column tbl c data)) c = Some (Values data).
Proof.
  intros H. unfold set_column, dt_names in *.
  pose proof H as H'. apply existsb_name_In in H'. rewrite H'. simpl.
  induction (dt_columns tbl) as [|[c' v] cols IH]; simpl in *; [tauto|].
  destruct (String.eqb_spec c' c) as [->|N]; simpl.
  - now rewrite String.eqb_refl.
  - apply String.eqb_neq in N. rewrite N.
    destruct H as [E|H]; [apply String.eqb_neq in N; contradiction|].
    apply IH; [assumption|]. now apply existsb_name_In.
Qed.

Lemma get_set_column_other tbl c c' data :
  c <> c' ->
  In c (dt_names tbl) ->
  get_column (dt_columns (set_column tbl c data)) c' = get_column (dt_columns tbl) c'.
Proof.
  intros N H. unfold set_column, dt_names in *.
  apply existsb_name_In in H. rewrite H. simpl. clear H.
  induction (dt_columns tbl) as [|[c0 v] cols IH]; simpl; [reflexivity|].
  destruct (String.eqb_spec c0 c) as [->|N0]; simpl.
  - apply String.eqb_neq in N. now rewrite N.
  - destruct (String.eqb c0 c'); [reflexivity|apply IH].
Qed.

Section GroupTableFacts.

Variable interp1d : interp_kind -> list Q -> list cell -> option (Q -> option Q).

Lemma fill_columns_shape tmy kind month day_ hms cols :
  forall tbl tbl',
    fill_columns interp1d tmy kind month day_ hms cols tbl = Ok tbl' ->
    incl cols (dt_names tbl) ->
    dt_index tbl' = dt_index tbl /\ dt_names tbl' = dt_names tbl.
Proof.
  induction cols as [|col cols IH]; intros tbl tbl'; simpl.
  - intros [= ->] _. auto.
  - destruct (interp_column interp1d tmy kind month day_ hms col) as [vals|e];
      simpl; [|discriminate].
    intros Hf Hincl.
    assert (Hcol : In col (dt_names tbl)) by (apply Hincl; now left).
    destruct (IH _ _ Hf) as [Hi Hn].
    + rewrite set_column_names by assumption.
      intros c Hc. apply Hincl. now right.
    + rewrite Hi, Hn, set_column_index, set_column_names by assumption. auto.
Qed.

Lemma fill_columns_keeps tmy kind month day_ hms cols c vs :
  forall tbl tbl',
    fill_columns interp1d tmy kind month day_ hms cols tbl = Ok tbl' ->
    incl cols (dt_names tbl) ->
    get_column (dt_columns tbl) c = Some (Values vs) ->
    (In c cols -> interp_column interp1d tmy kind month day_ hms c = Ok vs) ->
    get_column (dt_columns tbl') c = Some (Values vs).
Proof.
  induction cols as [|col cols IH]; intros tbl tbl'; simpl.
  - now intros [= ->].
  - destruct (interp_column interp1d tmy kind month day_ hms col) as [vals|e] eqn:E;
      simpl; [|discriminate].
    intros Hf Hincl Hget Hc.
    assert (Hcol : In col (dt_names tbl)) by (apply Hincl; now left).
    apply (IH _ _ Hf).
    + rewrite set_column_names by assumption.
      intros c' Hc'. apply Hincl. now right.
    + destruct (String.eqb_spec col c) as [->|N].
      * rewrite get_set_column_same by assumption.
        rewrite Hc in E by now left. now inversion E.
      * now rewrite get_set_column_other.
    + intros H. apply Hc. now right.
Qed.

Lemma fill_columns_sets tmy kind month day_ hms cols c :
  forall tbl tbl',
    fill_columns interp1d tmy kind month day_ hms cols tbl = Ok tbl' ->
    incl cols (dt_names tbl) ->
    In c cols ->
    exists vs,
      interp_column interp1d tmy kind month day_ hms c = Ok vs /\
      get_column (dt_columns tbl') c = Some (Values vs).
Proof.
  induction cols as [|col cols IH]; intros tbl tbl'; simpl; [tauto|].
  destruct (interp_column interp1d tmy kind month day_ hms col) as [vals|e] eqn:E;
    simpl; [|discriminate].
  intros Hf Hincl Hc.
  assert (Hcol : In col (dt_names tbl)) by (apply Hincl; now left).
  assert (Hincl' : incl cols (dt_names (set_column tbl col vals))).
  { rewrite set_column_names by assumption.
    intros c' Hc'. apply Hincl. now right. }
  destruct (String.eqb_spec col c) as [->|N].
  - exists vals. split; [assumption|].
    apply (fill_columns_keeps _ _ _ _ _ _ _ _ _ _ Hf Hincl').
    + now apply get_set_column_same.
    + intros _. assumption.
  - destruct Hc as [Hc|Hc]; [contradiction|].
    apply (IH _ _ Hf Hincl' Hc).
Qed.

Lemma fill_columns_raises tmy kind month day_ hms cols c e :
  forall tbl,
    In c cols ->
    interp_column interp1d tmy kind month day_ hms c = Raise e ->
    exists e', fill_columns interp1d tmy kind month day_ hms cols tbl = Raise e'.
Proof.
  induction cols as [|col cols IH]; intros tbl; simpl; [tauto|].
  intros [->|Hc] E.
  - rewrite E. simpl. eauto.
  - destruct (interp_column interp1d tmy kind month day_ hms col); simpl; eauto.
Qed.

Lemma fill_columns_error_source tmy kind month day_ hms cols e :
  forall tbl,
    fill_columns interp1d tmy kind month day_ hms cols tbl = Raise e ->
    exists c, In c cols /\ interp_column interp1d tmy kind month day_ hms c = Raise e.
Proof.
  induction cols as [|col cols IH]; intros tbl; simpl; [discriminate|].
  destruct (interp_column interp1d tmy kind month day_ hms col) as [vals|e0] eqn:E; simpl.
  - intros Hf. destruct (IH _ Hf) as [c [Hc Hr]]. exists c. auto.
  - intros [= ->]. exists col. auto.
Qed.

Lemma initial_table_names tmy ts :
  dt_names (initial_table tmy ts) = "hms_float"%string :: df_columns tmy.
Proof.
  unfold initial_table. rewrite set_column_names.
  - unfold dt_names, new_DataFrame; simpl. f_equal.
    rewrite map_map. simpl. apply map_id.
  - unfold dt_names, new_DataFrame; simpl. now left.
Qed.

Lemma initial_table_hms tmy ts :
  get_column (dt_columns (initial_table tmy ts)) "hms_float"
  = Some (Values (map hms_float_of ts)).
Proof.
  unfold initial_table. apply get_set_column_same.
  unfold dt_names, new_DataFrame; simpl. now left.
Qed.

Lemma group_table_unfold tmy kind year month day ts :
  group_table interp1d tmy kind (year, month, day) ts
  = fill_columns interp1d tmy kind month (lookup_day month day)
      (map hms_float_of ts) (df_columns tmy) (initial_table tmy ts).
Proof. reflexivity. Qed.

Lemma group_table_shape tmy kind key ts tbl :
  group_table interp1d tmy kind key ts = Ok tbl ->
  dt_index tbl = ts /\ dt_names tbl = "hms_float"%string :: df_columns tmy.
Proof.
  destruct key as [[year month] day]. rewrite group_table_unfold. intros Hf.
  apply fill_columns_shape in Hf.
  - destruct Hf as [Hi Hn]. rewrite Hi, Hn, initial_table_names.
    split; [|reflexivity].
    unfold initial_table. now rewrite set_column_index.
  - rewrite initial_table_names. intros c Hc. now right.
Qed.

Lemma build_get_any tmy kind items :
  forall cd out k tbl,
    build interp1d tmy kind items cd = Ok out ->
    dict_get k out = Some tbl ->
    dict_get k cd = Some tbl \/
    exists ts, In (k, ts) items /\ group_table interp1d tmy kind k ts = Ok tbl.
Proof.
  induction items as [|[key ts0] items IH]; intros cd out k tbl; simpl.
  - intros [= ->]. auto.
  - destruct (group_table interp1d tmy kind key ts0) as [tbl0|e] eqn:G; simpl;
      [|discriminate].
    intros Hb Hget. destruct (IH _ _ _ _ Hb Hget) as [Hcd|[ts [Hin Hg]]].
    + destruct (date_key_eqb key k) eqn:E.
      * apply date_key_eqb_eq in E; subst k.
        rewrite dict_get_set_same in Hcd. inversion Hcd; subst.
        right. exists ts0. auto.
      * left. rewrite dict_get_set_other in Hcd; [assumption|].
        intros ->. now rewrite date_key_eqb_refl in E.
    + right. exists ts. auto.
Qed.

End GroupTableFacts.

(* ===================================================================== *)
(** * Strictly increasing lists *)
(* ===================================================================== *)

Section Increasing.

Context {A : Type} (ltb : A -> A -> bool).
Hypothesis ltb_trans : forall a b c, ltb a b = true -> ltb b c = true -> ltb a c = true.
Hypothesis ltb_irrefl : forall a, ltb a a = false.

Lemma increasingb_tail x l : increasingb ltb (x :: l) = true -> increasingb ltb l = true.
Proof.
  destruct l as [|y l]; [reflexivity|]. simpl.
  intros H. apply andb_true_iff in H. tauto.
Qed.

Lemma increasingb_Forall l :
  forall x, increasingb ltb (x :: l) = true -> Forall (fun y => ltb x y = true) l.
Proof.
  induction l as [|y l IH]; intros x H; constructor.
  - simpl in H. apply andb_true_iff in H. tauto.
  - simpl in H. apply andb_true_iff in H as [Hxy Hl].
    eapply Forall_impl; [|apply (IH y Hl)].
    intros z Hyz. eapply ltb_trans; eauto.
Qed.

Lemma increasingb_NoDup l : increasingb ltb l = true -> NoDup l.
Proof.
  induction l as [|x l IH]; intros H; constructor.
  - intros Hin. apply increasingb_Forall in H.
    rewrite Forall_forall in H. specialize (H x Hin).
    now rewrite ltb_irrefl in H.
  - apply IH. eapply increasingb_tail; eauto.
Qed.
End Increasing.

Lemma has_duplicates_NoDup (l : list Z) : NoDup l -> has_duplicates l = false.
Proof.
  induction 1 as [|x l Hx Hnd IH]; simpl; [reflexivity|].
  rewrite IH, orb_false_r.
  destruct (existsb (Z.eqb x) l) eqn:E; [|reflexivity].
  apply existsb_exists in E as [y [Hy E]]. apply Z.eqb_eq in E. now subst.
Qed.

Lemma increasing_no_duplicates (l : list Z) :
  increasingb Z.ltb l = true -> has_duplicates l = false.
Proof.
  intros H. apply has_duplicates_NoDup.
  apply (increasingb_NoDup Z.ltb); [| |assumption].
  - intros a b c. rewrite !Z.ltb_lt. lia.
  - intros a. apply Z.ltb_irrefl.
Qed.

(* ===================================================================== *)
(** * The (month, day, hour) order and the non-leap calendar *)
(* ===================================================================== *)

Lemma mdh_leb_spec (a b : mdh) :
  mdh_leb a b = true <->
  let '(m1, d1, h1) := a in
  let '(m2, d2, h2) := b in
  m1 < m2 \/ (m1 = m2 /\ (d1 < d2 \/ (d1 = d2 /\ h1 <= h2))).
Proof.
  destruct a as [[m1 d1] h1], b as [[m2 d2] h2]. unfold mdh_leb.
  rewrite !orb_true_iff, !andb_true_iff, !orb_true_iff, !andb_true_iff,
    !Z.ltb_lt, !Z.eqb_eq, Z.leb_le.
  reflexivity.
Qed.

Lemma mdh_ltb_spec (a b : mdh) :
  mdh_ltb a b = true <->
  let '(m1, d1, h1) := a in
  let '(m2, d2, h2) := b in
  m1 < m2 \/ (m1 = m2 /\ (d1 < d2 \/ (d1 = d2 /\ h1 < h2))).
Proof.
  destruct a as [[m1 d1] h1], b as [[m2 d2] h2]. unfold mdh_ltb.
  rewrite !orb_true_iff, !andb_true_iff, !orb_true_iff, !andb_true_iff,
    !Z.ltb_lt, !Z.eqb_eq.
  reflexivity.
Qed.

Lemma mdh_leb_trans (a b c : mdh) :
  mdh_leb a b = true -> mdh_leb b c = true -> mdh_leb a c = true.
Proof.
  rewrite !mdh_leb_spec.
  destruct a as [[m1 d1] h1], b as [[m2 d2] h2], c as [[m3 d3] h3]. lia.
Qed.

Lemma mdh_ltb_trans (a b c : mdh) :
  mdh_ltb a b = true -> mdh_ltb b c = true -> mdh_ltb a c = true.
Proof.
  rewrite !mdh_ltb_spec.
  destruct a as [[m1 d1] h1], b as [[m2 d2] h2], c as [[m3 d3] h3]. lia.
Qed.

Lemma mdh_ltb_irrefl (a : mdh) : mdh_ltb a a = false.
Proof.
  destruct (mdh_ltb a a) eqn:E; [|reflexivity].
  apply mdh_ltb_spec in E. destruct a as [[m d] h]. lia.
Qed.

Lemma valid_mdhb_spec (k : mdh) : valid_mdhb k = true <-> valid_mdh k.
Proof.
  destruct k as [[m d] h]. unfold valid_mdhb, valid_mdh.
  rewrite !andb_true_iff, !Z.leb_le. tauto.
Qed.

Lemma in_zrange (a x : Z) (n : nat) :
  In x (zrange a n) <-> a <= x < a + Z.of_nat n.
Proof.
  unfold zrange. rewrite in_map_iff. split.
  - intros [i [<- Hi]]. apply in_seq in Hi. lia.
  - intros H. exists (Z.to_nat (x - a)). split; [lia|].
    apply in_seq. lia.
Qed.

Lemma valid_in_canonical (k : mdh) : valid_mdh k -> In k canonical_keys.
Proof.
  destruct k as [[m d] h]. intros (Hm & Hd & Hh).
  unfold canonical_keys. apply in_flat_map. exists m. split.
  - apply in_zrange. simpl. lia.
  - unfold month_keys. apply in_flat_map. exists d. split.
    + apply in_zrange.
      assert (0 <= days_in_month m) by lia. lia.
    + unfold day_keys. apply in_map_iff. exists h. split; [reflexivity|].
      apply in_zrange. simpl. lia.
Qed.

Lemma canonical_keys_length : length canonical_keys = (24 * 365)%nat.
Proof. vm_compute. reflexivity. Qed.

(* ===================================================================== *)
(** * Facts about the normaliser *)
(* ===================================================================== *)

Lemma has_duplicates_false (l : list Z) : has_duplicates l = false -> NoDup l.
Proof.
  induction l as [|x l IH]; simpl; intros H; constructor.
  - apply orb_false_iff in H as [H _]. intros Hin.
    assert (existsb (Z.eqb x) l = true); [|congruence].
    apply existsb_exists. exists x. split; [assumption|apply Z.eqb_refl].
  - apply IH. apply orb_false_iff in H. tauto.
Qed.

Lemma find_by_instant (rows : list (Timestamp * list Q)) (r : Timestamp * list Q) :
  NoDup (map (fun r' => ts_value (fst r')) rows) ->
  In r rows ->
  find (fun r' => ts_value (fst r') =? ts_value (fst r)) rows = Some r.
Proof.
  induction rows as [|r0 rows IH]; simpl; [tauto|].
  intros Hnd [->|Hin].
  - now rewrite Z.eqb_refl.
  - inversion Hnd as [|? ? Hnotin Hnd']; subst.
    destruct (Z.eqb_spec (ts_value (fst r0)) (ts_value (fst r))) as [E|N].
    + exfalso. apply Hnotin. rewrite E.
      apply (in_map (fun r' => ts_value (fst r'))) in Hin. exact Hin.
    + now apply IH.
Qed.

Lemma reindex_tz_convert (response : Response) (tz : TimeZone) :
  has_duplicates (map ts_value (df_index response)) = false ->
  reindex response (tz_convert tz (df_index response))
  = Ok {| df_columns := df_columns response;
          df_rows := relabel tz (df_rows response) |}.
Proof.
  intros H. unfold reindex. rewrite H. do 2 f_equal.
  apply has_duplicates_false in H.
  unfold df_index in *. rewrite map_map in H.
  unfold tz_convert, relabel. rewrite !map_map.
  apply map_ext_in. intros r Hr. simpl.
  now rewrite (find_by_instant _ _ H Hr).
Qed.

Lemma get_pvgis_tmy_dataframe_normalised (response : Response) (tz : TimeZone) :
  has_duplicates (map ts_value (df_index response)) = false ->
  get_pvgis_tmy_dataframe response tz = Ok (normalised response tz).
Proof.
  intros H. unfold get_pvgis_tmy_dataframe. rewrite (reindex_tz_convert _ _ H).
  reflexivity.
Qed.

(** ** The sort: a permutation, ascending, and stable *)

Lemma mdh_leb_total (a b : mdh) : mdh_leb a b = false -> mdh_leb b a = true.
Proof.
  intros H. destruct (mdh_leb b a) eqn:E; [reflexivity|].
  assert (N1 : ~ mdh_leb a b = true) by congruence.
  assert (N2 : ~ mdh_leb b a = true) by congruence.
  rewrite mdh_leb_spec in N1, N2.
  destruct a as [[m1 d1] h1], b as [[m2 d2] h2]. lia.
Qed.

Lemma insert_row_Permutation (x : keyed_row) (l : list keyed_row) :
  Permutation (insert_row x l) (x :: l).
Proof.
  induction l as [|y l IH]; simpl; [apply Permutation_refl|].
  destruct (mdh_leb (fst x) (fst y)); [apply Permutation_refl|].
  etransitivity; [apply perm_skip, IH | apply perm_swap].
Qed.

Lemma sort_values_Permutation (rows : list keyed_row) :
  Permutation (sort_values rows) rows.
Proof.
  induction rows as [|x l IH]; simpl; [constructor|].
  etransitivity; [apply insert_row_Permutation | apply perm_skip, IH].
Qed.

Lemma insert_row_sorted (x : keyed_row) (l : list keyed_row) :
  StronglySorted (fun a b => mdh_leb (fst a) (fst b) = true) l ->
  StronglySorted (fun a b => mdh_leb (fst a) (fst b) = true) (insert_row x l).
Proof.
  induction 1 as [|y l Hs IH Hf]; simpl.
  - constructor; constructor.
  - destruct (mdh_leb (fst x) (fst y)) eqn:E.
    + constructor; [constructor; assumption|].
      constructor; [assumption|].
      rewrite Forall_forall in *. intros z Hz.
      apply (mdh_leb_trans _ (fst y)); auto.
    + constructor; [assumption|].
      rewrite Forall_forall in *. intros z Hz.
      apply (Permutation_in _ (insert_row_Permutation x l)) in Hz.
      destruct Hz as [<-|Hz]; [apply mdh_leb_total; assumption | auto].
Qed.

Lemma sort_values_sorted (rows : list keyed_row) :
  StronglySorted (fun a b => mdh_leb (fst a) (fst b) = true) (sort_values rows).
Proof.
  induction rows as [|x l IH]; simpl; [constructor|].
  apply insert_row_sorted, IH.
Qed.

Lemma mdh_leb_refl (a : mdh) : mdh_leb a a = true.
Proof. apply mdh_leb_spec. destruct a as [[m d] h]. lia. Qed.

Lemma insert_row_stable (k : mdh) (x : keyed_row) (l : list keyed_row) :
  filter (fun r => mdh_eqb k (fst r)) (insert_row x l)
  = filter (fun r => mdh_eqb k (fst r)) (x :: l).
Proof.
  induction l as [|y l IH]; [reflexivity|].
  cbn [insert_row]. destruct (mdh_leb (fst x) (fst y)) eqn:E; [reflexivity|].
  cbn [filter] in *. rewrite IH.
  destruct (mdh_eqb k (fst x)) eqn:Ex, (mdh_eqb k (fst y)) eqn:Ey; try reflexivity.
  apply mdh_eqb_eq in Ex, Ey. rewrite <- Ex, <- Ey, mdh_leb_refl in E. discriminate.
Qed.

(** Rows that carry the same (month, day, hour) leave the sort in the order
    in which they entered it. *)
Lemma sort_values_stable (k : mdh) (rows : list keyed_row) :
  filter (fun r => mdh_eqb k (fst r)) (sort_values rows)
  = filter (fun r => mdh_eqb k (fst r)) rows.
Proof.
  induction rows as [|x l IH]; [reflexivity|].
  cbn [sort_values fold_right]. rewrite insert_row_stable.
  cbn [filter]. fold (sort_values l). rewrite IH. reflexivity.
Qed.

Lemma normalised_rows_Permutation (response : Response) (tz : TimeZone) :
  Permutation (df_rows (normalised response tz))
              (map (fun r => (ts_mdh (in_zone tz (fst r)), snd r)) (df_rows response)).
Proof.
  unfold normalised, set_index; simpl.
  etransitivity.
  { apply Permutation_map. apply sort_values_Permutation. }
  unfold relabel. rewrite !map_map. simpl. apply Permutation_refl.
Qed.

Lemma normalised_index_Permutation (response : Response) (tz : TimeZone) :
  Permutation (df_index (normalised response tz)) (local_labels tz response).
Proof.
  unfold df_index. etransitivity.
  - apply Permutation_map. apply normalised_rows_Permutation.
  - unfold local_labels. rewrite map_map. simpl. apply Permutation_refl.
Qed.

Lemma normalised_values_Permutation (response : Response) (tz : TimeZone) :
  Permutation (map snd (df_rows (normalised response tz)))
              (map snd (df_rows response)).
Proof.
  etransitivity.
  - apply Permutation_map. apply normalised_rows_Permutation.
  - rewrite map_map. simpl. apply Permutation_refl.
Qed.

Lemma normalised_nrows (response : Response) (tz : TimeZone) :
  length (df_rows (normalised response tz)) = length (df_rows response).
Proof.
  rewrite (Permutation_length (normalised_rows_Permutation response tz)).
  apply length_map.
Qed.

Lemma StronglySorted_map {A B} (f : A -> B) (R : B -> B -> Prop) (l : list A) :
  StronglySorted (fun a b => R (f a) (f b)) l -> StronglySorted R (map f l).
Proof.
  induction 1 as [|a l Hs IH Hf]; simpl; constructor; [assumption|].
  rewrite Forall_forall in *. intros b Hb.
  apply in_map_iff in Hb as [a' [<- Ha']]. auto.
Qed.

Lemma normalised_sorted (response : Response) (tz : TimeZone) :
  sorted_by_mdh (normalised response tz).
Proof.
  unfold sorted_by_mdh, df_index, normalised, set_index; simpl.
  rewrite map_map; simpl.
  apply (StronglySorted_map fst (fun a b => mdh_leb a b = true)).
  apply sort_values_sorted.
Qed.

(** ** Counting the rows stored under a key *)

Lemma rows_keyed_absent (tmy : TMY) (k : mdh) :
  ~ In k (df_index tmy) -> rows_keyed tmy k = [].
Proof.
  intros H. apply filter_nil_iff. intros r Hr.
  destruct (mdh_eqb k (fst r)) eqn:E; [|reflexivity].
  apply mdh_eqb_eq in E. exfalso. apply H. subst k.
  unfold df_index. now apply in_map.
Qed.

Lemma rows_keyed_unique (tmy : TMY) (k : mdh) :
  NoDup (df_index tmy) -> In k (df_index tmy) -> length (rows_keyed tmy k) = 1%nat.
Proof.
  unfold df_index, rows_keyed.
  induction (df_rows tmy) as [|r rows IH]; simpl; [tauto|].
  intros Hnd Hin. inversion Hnd as [|? ? Hnotin Hnd']; subst.
  destruct (mdh_eqb k (fst r)) eqn:E.
  - apply mdh_eqb_eq in E; subst k. simpl. f_equal.
    replace (filter _ rows) with (@nil (mdh * list Q)); [reflexivity|].
    symmetry. apply filter_nil_iff. intros r' Hr'.
    destruct (mdh_eqb (fst r) (fst r')) eqn:E'; [|reflexivity].
    apply mdh_eqb_eq in E'. exfalso. apply Hnotin. rewrite E'. now apply in_map.
  - destruct Hin as [Hk|Hin]; [|now apply IH].
    subst k. now rewrite mdh_eqb_refl in E.
Qed.

Lemma one_row_of_labels (tmy : TMY) (labels : list mdh) :
  Permutation (df_index tmy) labels ->
  NoDup labels ->
  Forall valid_mdh labels ->
  length labels = (24 * 365)%nat ->
  one_row_per_valid_mdh tmy.
Proof.
  intros Hperm Hnd Hvalid Hlen k.
  assert (Hcover : incl canonical_keys labels).
  { apply NoDup_length_incl; [assumption| |].
    - rewrite canonical_keys_length, Hlen. apply le_n.
    - intros x Hx. apply valid_in_canonical.
      rewrite Forall_forall in Hvalid. auto. }
  destruct (valid_mdhb k) eqn:V.
  - apply rows_keyed_unique.
    + eapply Permutation_NoDup; [symmetry; eassumption|assumption].
    + eapply Permutation_in; [symmetry; eassumption|].
      apply Hcover. apply valid_in_canonical. now apply valid_mdhb_spec.
  - rewrite rows_keyed_absent; [reflexivity|].
    intros Hin. apply (Permutation_in _ Hperm) in Hin.
    rewrite Forall_forall in Hvalid. apply Hvalid in Hin.
    apply valid_mdhb_spec in Hin. congruence.
Qed.

(* ===================================================================== *)
(** * The sample table *)
(* ===================================================================== *)

Lemma sample_response_no_duplicates :
  has_duplicates (map ts_value (df_index sample_response)) = false.
Proof. apply increasing_no_duplicates. vm_compute. reflexivity. Qed.

Lemma sample_tmy_fetched :
  get_pvgis_tmy_dataframe sample_response tz_minus5 = Ok sample_tmy.
Proof. apply get_pvgis_tmy_dataframe_normalised, sample_response_no_duplicates. Qed.

Lemma excerpt_tmy_fetched :
  get_pvgis_tmy_dataframe excerpt_response tz_minus5 = Ok excerpt_tmy.
Proof.
  apply get_pvgis_tmy_dataframe_normalised. vm_compute. reflexivity.
Qed.

Lemma canonical_keys_NoDup : NoDup canonical_keys.
Proof.
  apply (increasingb_NoDup mdh_ltb mdh_ltb_trans mdh_ltb_irrefl).
  vm_compute. reflexivity.
Qed.

Lemma canonical_keys_valid : Forall valid_mdh canonical_keys.
Proof.
  apply Forall_forall. intros k Hk. apply valid_mdhb_spec.
  assert (H : forallb valid_mdhb canonical_keys = true) by (vm_compute; reflexivity).
  rewrite forallb_forall in H. auto.
Qed.

(** The index of the sample table is the calendar itself. *)
Lemma sample_tmy_index : df_index sample_tmy = canonical_keys.
Proof. vm_compute. reflexivity. Qed.

Lemma sample_labels_Permutation :
  Permutation canonical_keys (local_labels tz_minus5 sample_response).
Proof.
  rewrite <- sample_tmy_index. apply normalised_index_Permutation.
Qed.

Lemma sample_labels_NoDup : NoDup (local_labels tz_minus5 sample_response).
Proof.
  eapply Permutation_NoDup; [apply sample_labels_Permutation|apply canonical_keys_NoDup].
Qed.

Lemma sample_labels_valid : Forall valid_mdh (local_labels tz_minus5 sample_response).
Proof.
  eapply Permutation_Forall; [apply sample_labels_Permutation|apply canonical_keys_valid].
Qed.

Lemma sample_tmy_one_row : one_row_per_valid_mdh sample_tmy.
Proof.
  apply (one_row_of_labels _ canonical_keys).
  - rewrite sample_tmy_index. apply Permutation_refl.
  - apply canonical_keys_NoDup.
  - apply canonical_keys_valid.
  - apply canonical_keys_length.
Qed.

Lemma sample_tmy_columns : df_columns sample_tmy = documented_columns.
Proof. reflexivity. Qed.

(* ===================================================================== *)
(** * The closing node *)
(* ===================================================================== *)

Lemma key_present_In (tmy : TMY) (k : mdh) :
  key_present tmy k = true <-> In k (df_index tmy).
Proof.
  unfold key_present. rewrite existsb_exists. split.
  - intros [k' [Hin E]]. apply mdh_eqb_eq in E. now subst.
  - intros H. exists k. split; [assumption|apply mdh_eqb_refl].
Qed.

Lemma key_absent_not_In (tmy : TMY) (k : mdh) :
  key_present tmy k = false -> ~ In k (df_index tmy).
Proof. intros E H. apply key_present_In in H. congruence. Qed.

Lemma closing_node_unresolved (tmy : TMY) (month day_ : Z) (col : string) :
  In col (df_columns tmy) ->
  ~ In (month, day_ + 1, 0) (df_index tmy) ->
  ~ In (month + 1, 1, 0) (df_index tmy) ->
  ~ In (1, 1, 0) (df_index tmy) ->
  closing_node tmy month day_ col = Raise MissingClosingNode.
Proof.
  intros Hc H1 H2 H3. unfold closing_node.
  rewrite (loc_hour_missing _ _ _ Hc H1), (loc_hour_missing _ _ _ Hc H2),
    (loc_hour_missing _ _ _ Hc H3).
  reflexivity.
Qed.

Lemma closing_node_no_tuple_error (tmy : TMY) (month day_ : Z) (col : string) (l : list Z) :
  In (1, 1, 0) (df_index tmy) ->
  closing_node tmy month day_ col <> Raise (KeyError (LTuple l)).
Proof.
  intros H. unfold closing_node.
  destruct (loc_hour tmy (month, day_ + 1, 0) col) as [c|[k|]]; simpl; try discriminate.
  destruct (loc_hour tmy (month + 1, 1, 0) col) as [c|[k'|]]; simpl; try discriminate.
  pose proof (loc_hour_not_KeyError_tuple tmy (1, 1, 0) col l H) as N.
  destruct (loc_hour tmy (1, 1, 0) col) as [c|e]; simpl; [discriminate|assumption].
Qed.

Lemma closing_node_resolved (tmy : TMY) (month day_ : Z) (col : string) :
  In col (df_columns tmy) ->
  In (1, 1, 0) (df_index tmy) ->
  exists c, closing_node tmy month day_ col = Ok c.
Proof.
  intros Hc H. unfold closing_node.
  destruct (loc_hour tmy (month, day_ + 1, 0) col) as [c|[k|]] eqn:E1; simpl; eauto.
  - destruct (loc_hour tmy (month + 1, 1, 0) col) as [c|[k'|]] eqn:E2; simpl; eauto.
    + destruct (loc_hour_present tmy (1, 1, 0) col Hc H) as [c ->]. simpl. eauto.
    + exfalso. unfold loc_hour in E2.
      destruct (col_pos (df_columns tmy) col); [|discriminate].
      destruct (filter _ (df_rows tmy)) as [|? [|? ?]]; discriminate.
  - exfalso. unfold loc_hour in E1.
    destruct (col_pos (df_columns tmy) col); [|discriminate].
    destruct (filter _ (df_rows tmy)) as [|? [|? ?]]; discriminate.
Qed.

Section ErrorSources.

Variable interp1d : interp_kind -> list Q -> list cell -> option (Q -> option Q).

Lemma mapM_of_option_error {A B} (f : A -> option B) (l : list A) (e : exn) :
  mapM (fun x => of_option (f x) ValueError) l = Raise e -> e = ValueError.
Proof.
  induction l as [|a l IH]; simpl; [discriminate|].
  destruct (f a) as [b|]; simpl.
  - destruct (mapM _ l) as [bs|e']; simpl; [discriminate|].
    intros [= <-]. now apply IH.
  - now intros [= <-].
Qed.

Lemma interp_column_tuple_error tmy kind month day_ hms col l :
  interp_column interp1d tmy kind month day_ hms col = Raise (KeyError (LTuple l)) ->
  l = [month; day_] \/ closing_node tmy month day_ col = Raise (KeyError (LTuple l)).
Proof.
  unfold interp_column.
  destruct (loc_day tmy month day_ col) as [y_day|e] eqn:E1; simpl.
  - destruct (closing_node tmy month day_ col) as [c|e] eqn:E2; simpl.
    + destruct (interp1d kind x_interp _) as [f|]; simpl; [|discriminate].
      intros H. apply mapM_of_option_error in H. discriminate.
    + intros [= ->]. now right.
  - intros [= ->]. left. unfold loc_day in E1.
    destruct (col_pos (df_columns tmy) col); [|discriminate].
    destruct (filter _ (df_rows tmy)); [|discriminate].
    now inversion E1.
Qed.

Lemma build_error_source tmy kind items :
  forall cd e,
    build interp1d tmy kind items cd = Raise e ->
    exists k ts, In (k, ts) items /\ group_table interp1d tmy kind k ts = Raise e.
Proof.
  induction items as [|[key ts0] items IH]; intros cd e; simpl; [discriminate|].
  destruct (group_table interp1d tmy kind key ts0) as [tbl|e0] eqn:G; simpl.
  - intros Hb. destruct (IH _ _ Hb) as [k [ts [Hin Hg]]]. exists k, ts. auto.
  - intros [= ->]. exists key, ts0. auto.
Qed.

Lemma never_missing_closing_node tmy time_data kind :
  In (1, 1, 0) (df_index tmy) ->
  climate_data_from_pvgis_tmy_dataframe interp1d time_data tmy kind
  <> Raise MissingClosingNode.
Proof.
  intros H E. rewrite climate_data_eq_build in E.
  apply build_error_source in E as [[[year month] day] [ts [_ G]]].
  rewrite group_table_unfold in G.
  apply fill_columns_error_source in G as [c [_ G]].
  apply interp_column_tuple_error in G as [G|G]; [discriminate|].
  revert G. now apply closing_node_no_tuple_error.
Qed.

Lemma group_raises tmy time_data kind year month day ts col e :
  In ((year, month, day), ts) time_data ->
  In col (df_columns tmy) ->
  interp_column interp1d tmy kind month (lookup_day month day)
    (map hms_float_of ts) col = Raise e ->
  exists e', climate_data_from_pvgis_tmy_dataframe interp1d time_data tmy kind = Raise e'.
Proof.
  intros Hin Hc E. rewrite climate_data_eq_build.
  destruct (fill_columns_raises interp1d tmy kind month (lookup_day month day)
              (map hms_float_of ts) (df_columns tmy) col e
              (initial_table tmy ts) Hc E) as [e' G].
  rewrite <- (group_table_unfold interp1d tmy kind year month day ts) in G.
  eapply build_raises; eauto.
Qed.

End ErrorSources.

(* ===================================================================== *)
(** * Lookups on uniquely keyed tables *)
(* ===================================================================== *)

Lemma rows_keyed_nil_not_In (tmy : TMY) (k : mdh) :
  rows_keyed tmy k = [] -> ~ In k (df_index tmy).
Proof.
  intros H Hin. unfold rows_keyed in H. rewrite filter_nil_iff in H.
  unfold df_index in Hin. apply in_map_iff in Hin as [r [<- Hr]].
  specialize (H r Hr). now rewrite mdh_eqb_refl in H.
Qed.

Lemma rows_keyed_cons_In (tmy : TMY) (k : mdh) r rs :
  rows_keyed tmy k = r :: rs -> In k (df_index tmy).
Proof.
  intros H.
  assert (Hr : In r (rows_keyed tmy k)) by (rewrite H; now left).
  unfold rows_keyed in Hr. apply filter_In in Hr as [Hr E].
  apply mdh_eqb_eq in E. subst k. unfold df_index. now apply in_map.
Qed.

Lemma loc_hour_single (tmy : TMY) (k : mdh) (col : string) (j : nat) r :
  col_pos (df_columns tmy) col = Some j ->
  rows_keyed tmy k = [r] ->
  loc_hour tmy k col = Ok (Scalar (cell_at j (snd r))).
Proof.
  intros Hc Hr. unfold loc_hour. rewrite Hc.
  change (filter (fun r0 => mdh_eqb k (fst r0)) (df_rows tmy)) with (rows_keyed tmy k).
  now rewrite Hr.
Qed.

Lemma one_row_invalid_absent (tmy : TMY) (k : mdh) :
  one_row_per_valid_mdh tmy -> valid_mdhb k = false -> ~ In k (df_index tmy).
Proof.
  intros H V. specialize (H k). rewrite V in H.
  apply rows_keyed_nil_not_In. now apply length_zero_iff_nil.
Qed.

Lemma one_row_valid_single (tmy : TMY) (k : mdh) :
  one_row_per_valid_mdh tmy -> valid_mdhb k = true -> exists r, rows_keyed tmy k = [r].
Proof.
  intros H V. specialize (H k). rewrite V in H.
  destruct (rows_keyed tmy k) as [|r [|r' rs]]; try discriminate. eauto.
Qed.

(* ===================================================================== *)
(** * Claims about the closing node and its errors *)
(* ===================================================================== *)

(** ** The nodes handed to the interpolator *)

Lemma interp_column_nodes
    (interp1d : interp_kind -> list Q -> list cell -> option (Q -> option Q))
    (tmy : TMY) (kind : interp_kind) (month day_ : Z) (hms : list Q) (col : string)
    (vs : list Q) :
  interp_column interp1d tmy kind month day_ hms col = Ok vs ->
  exists y_day closing,
    loc_day tmy month day_ col = Ok y_day
    /\ closing_node tmy month day_ col = Ok closing
    /\ interpolates_nodes interp1d kind (map Scalar y_day ++ [closing]) hms vs.
Proof.
  unfold interp_column. intros H.
  destruct (loc_day tmy month day_ col) as [y_day|e]; [|discriminate].
  cbn [rbind] in H.
  destruct (closing_node tmy month day_ col) as [closing|e]; [|discriminate].
  cbn [rbind] in H.
  destruct (interp1d kind x_interp (map Scalar y_day ++ [closing])) as [f|] eqn:Hf;
    [|discriminate].
  cbn [of_option rbind] in H.
  exists y_day, closing. split; [reflexivity|]. split; [reflexivity|].
  exists f. split; assumption.
Qed.

Lemma interp_column_closing_error
    (interp1d : interp_kind -> list Q -> list cell -> option (Q -> option Q))
    (tmy : TMY) (kind : interp_kind) (month day_ : Z) (hms : list Q) (col : string)
    (y_day : list Q) (e : exn) :
  loc_day tmy month day_ col = Ok y_day ->
  closing_node tmy month day_ col = Raise e ->
  interp_column interp1d tmy kind month day_ hms col = Raise e.
Proof. intros Hy Hc. unfold interp_column. rewrite Hy, Hc. reflexivity. Qed.

Lemma run_column_nodes
    (interp1d : interp_kind -> list Q -> list cell -> option (Q -> option Q))
    (time_data : dict (list Timestamp)) (tmy : TMY) (kind : interp_kind)
    (out : dict DayTable) (year month day : Z) (ts : list Timestamp) (col : string) :
  climate_data_from_pvgis_tmy_dataframe interp1d time_data tmy kind = Ok out ->
  NoDup (dict_keys time_data) ->
  In ((year, month, day), ts) time_data ->
  In col (df_columns tmy) ->
  exists tbl vs y_day closing,
    dict_get (year, month, day) out = Some tbl
    /\ get_column (dt_columns tbl) col = Some (Values vs)
    /\ loc_day tmy month (lookup_day month day) col = Ok y_day
    /\ closing_node tmy month (lookup_day month day) col = Ok closing
    /\ interpolates_nodes interp1d kind (map Scalar y_day ++ [closing])
         (map hms_float_of ts) vs.
Proof.
  intros Hrun Hnd Hin Hc.
  rewrite climate_data_eq_build in Hrun.
  destruct (build_get interp1d tmy kind time_data [] out _ _ Hrun Hnd Hin)
    as [tbl [Hg Hget]].
  rewrite group_table_unfold in Hg.
  destruct (fill_columns_sets interp1d _ _ _ _ _ _ col _ _ Hg) as [vs [Hcol Hvs]];
    [rewrite initial_table_names; intros c Hc'; now right|assumption|].
  destruct (interp_column_nodes _ _ _ _ _ _ _ _ Hcol) as [y_day [closing [Hy [Hcl Hn]]]].
  exists tbl, vs, y_day, closing. auto.
Qed.

Lemma closing_node_spec (tmy : TMY) (month day_ : Z) (col : string) :
  In col (df_columns tmy) ->
  closing_node tmy month day_ col = closing_value_spec tmy month day_ col.
Proof.
  intros Hc.
  unfold closing_value_spec, closing_candidates, closing_node. simpl find.
  destruct (key_present tmy (month, day_ + 1, 0)) eqn:K1.
  - apply key_present_In in K1.
    destruct (loc_hour_present _ _ _ Hc K1) as [c ->]. reflexivity.
  - apply key_absent_not_In in K1. rewrite (loc_hour_missing _ _ _ Hc K1). simpl.
    destruct (key_present tmy (month + 1, 1, 0)) eqn:K2.
    + apply key_present_In in K2.
      destruct (loc_hour_present _ _ _ Hc K2) as [c ->]. reflexivity.
    + apply key_absent_not_In in K2. rewrite (loc_hour_missing _ _ _ Hc K2). simpl.
      destruct (key_present tmy (1, 1, 0)) eqn:K3.
      * destruct (loc_hour tmy (1, 1, 0) col); reflexivity.
      * apply key_absent_not_In in K3. rewrite (loc_hour_missing _ _ _ Hc K3).
        reflexivity.
Qed.

Lemma closing_is_node_24 (y_day : list Q) (closing : cell) :
  length y_day = 24%nat ->
  nth_error (map Scalar y_day ++ [closing]) 24 = Some closing.
Proof.
  intros Hlen. rewrite nth_error_app2 by (rewrite length_map; lia).
  rewrite length_map, Hlen. reflexivity.
Qed.

(** C2. For every (year, month, day) group and every TMY column, the value
    appended as the node at x = 24 is found by trying hour 0 of (month,
    lookup day + 1), then hour 0 of day 1 of the next month, then hour 0 of
    (1, 1): the first of these keys present in the table supplies it.  The
    nested [try]/[except] of the code computes the same result as the
    ordered candidate list of the specification; that result is the last
    element of the node list the code hands to [interp1d] together with
    [x_interp], at position 24, where [x_interp] is 24; the column stored
    in the output is that interpolant evaluated at the group's times; and
    when the candidate list yields no value the column raises its error. *)
Theorem closing_node_first_present_key
    (interp1d : interp_kind -> list Q -> list cell -> option (Q -> option Q))
    (tmy : TMY) (kind : interp_kind) (year month day : Z) (col : string) :
  In col (df_columns tmy) ->
  closing_node tmy month (lookup_day month day) col
  = closing_value_spec tmy month (lookup_day month day) col
  /\ nth_error x_interp 24 = Some (inject_Z 24)
  /\ (forall (y_day : list Q) (closing : cell),
        length y_day = 24%nat ->
        nth_error (map Scalar y_day ++ [closing]) 24 = Some closing)
  /\ (forall (hms vs : list Q),
        interp_column interp1d tmy kind month (lookup_day month day) hms col = Ok vs ->
        exists y_day closing,
          loc_day tmy month (lookup_day month day) col = Ok y_day
          /\ closing_value_spec tmy month (lookup_day month day) col = Ok closing
          /\ interpolates_nodes interp1d kind (map Scalar y_day ++ [closing]) hms vs
          /\ last (map Scalar y_day ++ [closing]) (Scalar 0) = closing)
  /\ (forall (hms y_day : list Q) (e : exn),
        loc_day tmy month (lookup_day month day) col = Ok y_day ->
        closing_value_spec tmy month (lookup_day month day) col = Raise e ->
        interp_column interp1d tmy kind month (lookup_day month day) hms col = Raise e)
  /\ (forall (time_data : dict (list Timestamp)) (out : dict DayTable)
             (ts : list Timestamp),
        climate_data_from_pvgis_tmy_dataframe interp1d time_data tmy kind = Ok out ->
        NoDup (dict_keys time_data) ->
        In ((year, month, day), ts) time_data ->
        exists tbl vs y_day closing,
          dict_get (year, month, day) out = Some tbl
          /\ get_column (dt_columns tbl) col = Some (Values vs)
          /\ loc_day tmy month (lookup_day month day) col = Ok y_day
          /\ closing_value_spec tmy month (lookup_day month day) col = Ok closing
          /\ interpolates_nodes interp1d kind (map Scalar y_day ++ [closing])
               (map hms_float_of ts) vs).
Proof.
  intros Hc.
  pose proof (closing_node_spec tmy month (lookup_day month day) col Hc) as Hspec.
  split; [exact Hspec|]. split; [reflexivity|].
  split; [exact closing_is_node_24|]. split; [|split].
  - intros hms vs H.
    destruct (interp_column_nodes _ _ _ _ _ _ _ _ H) as [y_day [closing [Hy [Hcl Hn]]]].
    exists y_day, closing. rewrite <- Hspec.
    split; [exact Hy|]. split; [exact Hcl|]. split; [exact Hn|].
    apply last_last.
  - intros hms y_day e Hy He. rewrite <- Hspec in He.
    now apply (interp_column_closing_error interp1d tmy kind _ _ hms col y_day).
  - intros time_data out ts Hrun Hnd Hin.
    destruct (run_column_nodes interp1d time_data tmy kind out year month day ts col
                Hrun Hnd Hin Hc) as [tbl [vs [y_day [closing [H1 [H2 [H3 [H4 H5]]]]]]]].
    exists tbl, vs, y_day, closing. rewrite <- Hspec. auto.
Qed.

Lemma closing_node_first_present_key_witness :
  In "T2m"%string (df_columns excerpt_tmy)
  /\ closing_node excerpt_tmy 6 (lookup_day 6 15) "T2m"
     = closing_value_spec excerpt_tmy 6 (lookup_day 6 15) "T2m"
  /\ exists tbl vs y_day closing,
       dict_get (2023, 6, 15) sample_out = Some tbl
       /\ get_column (dt_columns tbl) "T2m" = Some (Values vs)
       /\ loc_day excerpt_tmy 6 (lookup_day 6 15) "T2m" = Ok y_day
       /\ closing_value_spec excerpt_tmy 6 (lookup_day 6 15) "T2m" = Ok closing
       /\ interpolates_nodes reference_interp1d linear (map Scalar y_day ++ [closing])
            (map hms_float_of sample_grid) vs.
Proof.
  assert (H : In "T2m"%string (df_columns excerpt_tmy)) by (simpl; auto).
  assert (H1 : climate_data_from_pvgis_tmy_dataframe reference_interp1d
                 sample_time_data excerpt_tmy linear = Ok sample_out)
    by (vm_compute; reflexivity).
  assert (H2 : NoDup (dict_keys sample_time_data)).
  { simpl. constructor; [intros []|constructor]. }
  pose proof (closing_node_first_present_key reference_interp1d excerpt_tmy linear
                2023 6 15 "T2m" H) as T.
  split; [exact H|]. split; [exact (proj1 T)|].
  exact (proj2 (proj2 (proj2 (proj2 (proj2 T)))) sample_time_data sample_out sample_grid
           H1 H2 (or_introl eq_refl)).
Defined.

(** C5. On a table with one row per valid non-leap (month, day, hour)
    triple, a group for 31 December takes its closing node from the row
    keyed (1, 1, 0): that row's value is the last element of the node list
    the code hands to [interp1d] for every column of the group, in every
    year, and the column stored in the output is that interpolant evaluated
    at the group's times.  No run raises the closing-node error. *)
Theorem december_31_wraps_to_january_1 (tmy : TMY) (col : string) :
  one_row_per_valid_mdh tmy ->
  In col (df_columns tmy) ->
  (exists v,
      loc_hour tmy (1, 1, 0) col = Ok (Scalar v) /\
      closing_node tmy 12 (lookup_day 12 31) col = Ok (Scalar v))
  /\ (forall interp1d time_data kind,
        climate_data_from_pvgis_tmy_dataframe interp1d time_data tmy kind
        <> Raise MissingClosingNode)
  /\ (forall interp1d kind (hms vs : list Q),
        interp_column interp1d tmy kind 12 (lookup_day 12 31) hms col = Ok vs ->
        exists y_day v,
          loc_day tmy 12 31 col = Ok y_day
          /\ loc_hour tmy (1, 1, 0) col = Ok (Scalar v)
          /\ interpolates_nodes interp1d kind (map Scalar y_day ++ [Scalar v]) hms vs)
  /\ (forall interp1d (time_data : dict (list Timestamp)) kind (out : dict DayTable)
             (year : Z) (ts : list Timestamp),
        climate_data_from_pvgis_tmy_dataframe interp1d time_data tmy kind = Ok out ->
        NoDup (dict_keys time_data) ->
        In ((year, 12, 31), ts) time_data ->
        exists tbl vs y_day v,
          dict_get (year, 12, 31) out = Some tbl
          /\ get_column (dt_columns tbl) col = Some (Values vs)
          /\ loc_day tmy 12 31 col = Ok y_day
          /\ loc_hour tmy (1, 1, 0) col = Ok (Scalar v)
          /\ interpolates_nodes interp1d kind (map Scalar y_day ++ [Scalar v])
               (map hms_float_of ts) vs).
Proof.
  intros Hw Hc.
  destruct (one_row_valid_single tmy (1, 1, 0) Hw eq_refl) as [r Hr].
  destruct (col_pos_In _ _ Hc) as [j Hj].
  pose proof (loc_hour_single tmy (1, 1, 0) col j r Hj Hr) as H3.
  assert (Hcl : closing_node tmy 12 (lookup_day 12 31) col
                = Ok (Scalar (cell_at j (snd r)))).
  { unfold closing_node. change (lookup_day 12 31 + 1) with 32.
    rewrite (loc_hour_missing tmy (12, 32, 0) col Hc
               (one_row_invalid_absent tmy (12, 32, 0) Hw eq_refl)).
    change (12 + 1) with 13.
    rewrite (loc_hour_missing tmy (13, 1, 0) col Hc
               (one_row_invalid_absent tmy (13, 1, 0) Hw eq_refl)).
    simpl. now rewrite H3. }
  split; [|split; [|split]].
  - exists (cell_at j (snd r)). split; assumption.
  - intros interp1d time_data kind.
    apply never_missing_closing_node. eapply rows_keyed_cons_In; eauto.
  - intros interp1d kind hms vs H.
    destruct (interp_column_nodes _ _ _ _ _ _ _ _ H) as [y_day [closing [Hy [Hcl' Hn]]]].
    rewrite Hcl in Hcl'. injection Hcl' as <-.
    exists y_day, (cell_at j (snd r)). auto.
  - intros interp1d time_data kind out year ts Hrun Hnd Hin.
    destruct (run_column_nodes interp1d time_data tmy kind out year 12 31 ts col
                Hrun Hnd Hin Hc) as [tbl [vs [y_day [closing [G1 [G2 [G3 [G4 G5]]]]]]]].
    rewrite Hcl in G4. injection G4 as <-.
    exists tbl, vs, y_day, (cell_at j (snd r)). auto.
Qed.

Lemma december_31_wraps_to_january_1_witness :
  one_row_per_valid_mdh sample_tmy
  /\ In "SP"%string (df_columns sample_tmy)
  /\ exists v,
       loc_hour sample_tmy (1, 1, 0) "SP" = Ok (Scalar v) /\
       closing_node sample_tmy 12 (lookup_day 12 31) "SP" = Ok (Scalar v).
Proof.
  assert (H : In "SP"%string (df_columns sample_tmy)) by (simpl; tauto).
  split; [exact sample_tmy_one_row|]. split; [exact H|].
  exact (proj1 (december_31_wraps_to_january_1 sample_tmy "SP" sample_tmy_one_row H)).
Defined.

(** C6. When none of the three fallback keys is present for a (day,
    column) pair, the lookup raises the closing-node error at once, before
    any interpolant is built for that column, and the call returns no
    dictionary at all: there is no partial table for the offending day. *)
Theorem missing_closing_node_aborts
    (interp1d : interp_kind -> list Q -> list cell -> option (Q -> option Q))
    (time_data : dict (list Timestamp)) (tmy : TMY) (kind : interp_kind)
    (year month day : Z) (ts : list Timestamp) (col : string) :
  In ((year, month, day), ts) time_data ->
  In col (df_columns tmy) ->
  ~ In (month, lookup_day month day + 1, 0) (df_index tmy) ->
  ~ In (month + 1, 1, 0) (df_index tmy) ->
  ~ In (1, 1, 0) (df_index tmy) ->
  closing_node tmy month (lookup_day month day) col = Raise MissingClosingNode
  /\ (forall y_day,
        loc_day tmy month (lookup_day month day) col = Ok y_day ->
        interp_column interp1d tmy kind month (lookup_day month day)
          (map hms_float_of ts) col = Raise MissingClosingNode)
  /\ (exists e,
        climate_data_from_pvgis_tmy_dataframe interp1d time_data tmy kind = Raise e)
  /\ (forall out,
        climate_data_from_pvgis_tmy_dataframe interp1d time_data tmy kind <> Ok out).
Proof.
  intros Hin Hc H1 H2 H3.
  pose proof (closing_node_unresolved tmy month _ col Hc H1 H2 H3) as Hcl.
  assert (Hraise : exists e,
             interp_column interp1d tmy kind month (lookup_day month day)
               (map hms_float_of ts) col = Raise e).
  { unfold interp_column.
    destruct (loc_day tmy month (lookup_day month day) col); simpl; eauto.
    rewrite Hcl. simpl. eauto. }
  destruct Hraise as [e He].
  destruct (group_raises interp1d tmy time_data kind year month day ts col e Hin Hc He)
    as [e' He'].
  repeat split.
  - assumption.
  - intros y_day Hy. unfold interp_column. rewrite Hy. simpl. rewrite Hcl. reflexivity.
  - eauto.
  - intros out. rewrite He'. discriminate.
Qed.

Lemma missing_closing_node_aborts_witness :
  exists e,
    climate_data_from_pvgis_tmy_dataframe reference_interp1d
      sample_time_data june15_only linear = Raise e.
Proof.
  refine (proj1 (proj2 (proj2
    (missing_closing_node_aborts reference_interp1d sample_time_data june15_only linear
       2023 6 15 sample_grid "T2m" _ _ _ _ _)))).
  - simpl. auto.
  - simpl. auto.
  - apply key_absent_not_In. vm_compute. reflexivity.
  - apply key_absent_not_In. vm_compute. reflexivity.
  - apply key_absent_not_In. vm_compute. reflexivity.
Defined.

(** C10. When the table has a row keyed (1, 1, 0), the fallback chain
    yields a value for every (group, column) pair, so the re-raise after
    the third lookup is never taken and no run fails with the closing-node
    error. *)
Theorem january_1_row_resolves_every_closing_node (tmy : TMY) :
  In (1, 1, 0) (df_index tmy) ->
  (forall month day_ col,
      In col (df_columns tmy) -> exists c, closing_node tmy month day_ col = Ok c)
  /\ (forall month day_ col l,
        closing_node tmy month day_ col <> Raise (KeyError (LTuple l)))
  /\ (forall interp1d time_data kind,
        climate_data_from_pvgis_tmy_dataframe interp1d time_data tmy kind
        <> Raise MissingClosingNode).
Proof.
  intros H. repeat split.
  - intros month day_ col Hc. now apply closing_node_resolved.
  - intros month day_ col l. now apply closing_node_no_tuple_error.
  - intros interp1d time_data kind. now apply never_missing_closing_node.
Qed.

Lemma january_1_row_resolves_every_closing_node_witness :
  In (1, 1, 0) (df_index excerpt_tmy)
  /\ climate_data_from_pvgis_tmy_dataframe reference_interp1d
       sample_time_data excerpt_tmy linear <> Raise MissingClosingNode.
Proof.
  assert (H : In (1, 1, 0) (df_index excerpt_tmy)).
  { apply (proj1 (key_present_In excerpt_tmy (1, 1, 0))). vm_compute. reflexivity. }
  split; [exact H|].
  exact (proj2 (proj2 (january_1_row_resolves_every_closing_node excerpt_tmy H))
           reference_interp1d sample_time_data linear).
Defined.

(* ===================================================================== *)
(** * Claims about the shape of the output *)
(* ===================================================================== *)

Lemma hms_float_range (t : Timestamp) : (0 <= hms_float_of t /\ hms_float_of t < 24)%Q.
Proof.
  unfold hms_float_of.
  assert (Hh : 0 <= ts_hour t <= 23).
  { unfold ts_hour.
    pose proof (Z.mod_pos_bound (local_ns t / (3600 * ns_per_second)) 24). lia. }
  assert (Hm : 0 <= ts_minute t <= 59).
  { unfold ts_minute.
    pose proof (Z.mod_pos_bound (local_ns t / (60 * ns_per_second)) 60). lia. }
  assert (Hs : 0 <= ts_second t <= 59).
  { unfold ts_second.
    pose proof (Z.mod_pos_bound (local_ns t / ns_per_second) 60). lia. }
  destruct Hh as [Hh1 Hh2], Hm as [Hm1 Hm2], Hs as [Hs1 Hs2].
  rewrite Zle_Qle in Hh1, Hh2, Hm1, Hm2, Hs1, Hs2.
  generalize dependent (inject_Z (ts_hour t)).
  generalize dependent (inject_Z (ts_minute t)).
  generalize dependent (inject_Z (ts_second t)).
  intros qs Hs1 Hs2 qm Hm1 Hm2 qh Hh1 Hh2.
  unfold inject_Z in *. unfold Qdiv.
  change (/ 60)%Q with (1 # 60)%Q. change (/ 3600)%Q with (1 # 3600)%Q.
  split; lra.
Qed.

(** C1 (as the code has it).  Every table of a successful run has one
    column for the fractional hour plus one column per column of the TMY
    table, whatever their number; for a table with the nine columns that
    [get_pvgis_tmy_dataframe] documents, that is ten columns. *)
Theorem day_table_column_count
    (interp1d : interp_kind -> list Q -> list cell -> option (Q -> option Q))
    (time_data : dict (list Timestamp)) (tmy : TMY) (kind : interp_kind)
    (out : dict DayTable) (key : date_key) (tbl : DayTable) :
  climate_data_from_pvgis_tmy_dataframe interp1d time_data tmy kind = Ok out ->
  dict_get key out = Some tbl ->
  dt_ncols tbl = (1 + length (df_columns tmy))%nat
  /\ dt_names tbl = "hms_float"%string :: df_columns tmy
  /\ (df_columns tmy = documented_columns -> dt_ncols tbl = (1 + 9)%nat).
Proof.
  intros Hrun Hget. rewrite climate_data_eq_build in Hrun.
  destruct (build_get_any interp1d tmy kind time_data [] out key tbl Hrun Hget)
    as [Habs|[ts [_ Hg]]]; [discriminate|].
  apply group_table_shape in Hg as [_ Hn].
  assert (Hcount : dt_ncols tbl = (1 + length (df_columns tmy))%nat).
  { unfold dt_ncols. rewrite <- (length_map fst). fold (dt_names tbl).
    rewrite Hn. reflexivity. }
  repeat split; try assumption.
  intros Hdoc. rewrite Hcount, Hdoc. reflexivity.
Qed.

Lemma day_table_column_count_witness :
  climate_data_from_pvgis_tmy_dataframe reference_interp1d
    sample_time_data excerpt_tmy linear = Ok sample_out
  /\ dict_get (2023, 6, 15) sample_out = Some sample_table
  /\ dt_ncols sample_table = (1 + length (df_columns excerpt_tmy))%nat.
Proof.
  assert (H1 : climate_data_from_pvgis_tmy_dataframe reference_interp1d
                 sample_time_data excerpt_tmy linear = Ok sample_out)
    by (vm_compute; reflexivity).
  assert (H2 : dict_get (2023, 6, 15) sample_out = Some sample_table)
    by (vm_compute; reflexivity).
  split; [exact H1|]. split; [exact H2|].
  exact (proj1 (day_table_column_count reference_interp1d sample_time_data excerpt_tmy
                  linear sample_out (2023, 6, 15) sample_table H1 H2)).
Defined.

(** C1 as stated fails: the table fetched for the excerpt of the sample
    response has the nine documented columns, and the day table built from it has ten
    columns, not 1 + 8. *)
Lemma day_table_column_count_counterexample :
  get_pvgis_tmy_dataframe excerpt_response tz_minus5 = Ok excerpt_tmy
  /\ df_columns excerpt_tmy = documented_columns
  /\ climate_data_from_pvgis_tmy_dataframe reference_interp1d
       sample_time_data excerpt_tmy linear = Ok sample_out
  /\ dict_get (2023, 6, 15) sample_out = Some sample_table
  /\ dt_nrows sample_table = 145%nat
  /\ dt_ncols sample_table = 10%nat
  /\ dt_ncols sample_table <> (1 + 8)%nat.
Proof.
  split; [exact excerpt_tmy_fetched|].
  split; [reflexivity|].
  split; [vm_compute; reflexivity|].
  split; [vm_compute; reflexivity|].
  split; [vm_compute; reflexivity|].
  split; [vm_compute; reflexivity|].
  vm_compute. discriminate.
Qed.

(** C8. A successful run returns one entry per input group under the same
    key; each table is indexed by the group's timestamps, has as many rows
    as the group has timestamps, and its fractional-hour column holds
    hour + minute/60 + second/3600 of each timestamp, a value in [0, 24). *)
Theorem output_mirrors_input
    (interp1d : interp_kind -> list Q -> list cell -> option (Q -> option Q))
    (time_data : dict (list Timestamp)) (tmy : TMY) (kind : interp_kind)
    (out : dict DayTable) :
  climate_data_from_pvgis_tmy_dataframe interp1d time_data tmy kind = Ok out ->
  NoDup (dict_keys time_data) ->
  ~ In "hms_float"%string (df_columns tmy) ->
  dict_keys out = dict_keys time_data
  /\ forall key ts,
       In (key, ts) time_data ->
       exists tbl,
         dict_get key out = Some tbl
         /\ dt_index tbl = ts
         /\ dt_nrows tbl = length ts
         /\ get_column (dt_columns tbl) "hms_float"
            = Some (Values (map (fun t => inject_Z (ts_hour t)
                                          + inject_Z (ts_minute t) / 60
                                          + inject_Z (ts_second t) / 3600)%Q ts))
         /\ Forall (fun x => 0 <= x /\ x < 24)%Q (map hms_float_of ts).
Proof.
  intros Hrun Hnd Hname. rewrite climate_data_eq_build in Hrun. split.
  - apply (build_keys interp1d tmy kind time_data [] out Hrun). exact Hnd.
  - intros key ts Hin.
    destruct (build_get interp1d tmy kind time_data [] out key ts Hrun Hnd Hin)
      as [tbl [Hg Hget]].
    exists tbl. split; [assumption|].
    destruct (group_table_shape interp1d tmy kind key ts tbl Hg) as [Hi Hn].
    split; [assumption|]. split; [unfold dt_nrows; now rewrite Hi|]. split.
    + destruct key as [[year month] day]. rewrite group_table_unfold in Hg.
      apply (fill_columns_keeps interp1d _ _ _ _ _ _ _ _ _ _ Hg).
      * rewrite initial_table_names. intros c Hc. now right.
      * apply initial_table_hms.
      * intros Habs. contradiction.
    + apply Forall_forall. intros x Hx.
      apply in_map_iff in Hx as [t [<- _]]. apply hms_float_range.
Qed.

Lemma output_mirrors_input_witness :
  climate_data_from_pvgis_tmy_dataframe reference_interp1d
    sample_time_data excerpt_tmy linear = Ok sample_out
  /\ NoDup (dict_keys sample_time_data)
  /\ ~ In "hms_float"%string (df_columns excerpt_tmy)
  /\ dict_keys sample_out = dict_keys sample_time_data.
Proof.
  assert (H1 : climate_data_from_pvgis_tmy_dataframe reference_interp1d
                 sample_time_data excerpt_tmy linear = Ok sample_out)
    by (vm_compute; reflexivity).
  assert (H2 : NoDup (dict_keys sample_time_data)).
  { simpl. constructor; [intros []|constructor]. }
  assert (H3 : ~ In "hms_float"%string (df_columns excerpt_tmy)).
  { simpl. intros H. repeat (destruct H as [H|H]; [discriminate|]). exact H. }
  split; [exact H1|]. split; [exact H2|]. split; [exact H3|].
  exact (proj1 (output_mirrors_input reference_interp1d sample_time_data excerpt_tmy
                  linear sample_out H1 H2 H3)).
Defined.

(* ===================================================================== *)
(** * Claims about the normalised table *)
(* ===================================================================== *)

(** C7 (as the code has it).  For a response of 8760 rows at pairwise
    distinct instants, the time-zone conversion keeps every row and its
    values and only replaces its label; the returned table has 8760 rows in
    ascending (month, day, hour) order, and its rows are the response's
    rows under their local labels.  It has exactly one row for every valid
    non-leap (month, day, hour) triple when the local labels of the
    response are pairwise distinct valid triples. *)
Theorem normalised_table_rows (response : Response) (tz : TimeZone) :
  length (df_rows response) = (24 * 365)%nat ->
  NoDup (map ts_value (df_index response)) ->
  reindex response (tz_convert tz (df_index response))
  = Ok {| df_columns := df_columns response; df_rows := relabel tz (df_rows response) |}
  /\ length (relabel tz (df_rows response)) = length (df_rows response)
  /\ map snd (relabel tz (df_rows response)) = map snd (df_rows response)
  /\ exists tmy,
       get_pvgis_tmy_dataframe response tz = Ok tmy
       /\ length (df_rows tmy) = (24 * 365)%nat
       /\ sorted_by_mdh tmy
       /\ Permutation (df_rows tmy)
            (map (fun r => (ts_mdh (in_zone tz (fst r)), snd r)) (df_rows response))
       /\ (NoDup (local_labels tz response) ->
           Forall valid_mdh (local_labels tz response) ->
           one_row_per_valid_mdh tmy).
Proof.
  intros Hlen Hnd. apply has_duplicates_NoDup in Hnd.
  split; [now apply reindex_tz_convert|].
  split; [apply length_map|].
  split; [unfold relabel; rewrite map_map; reflexivity|].
  exists (normalised response tz).
  split; [now apply get_pvgis_tmy_dataframe_normalised|].
  split; [now rewrite normalised_nrows|].
  split; [apply normalised_sorted|].
  split; [apply normalised_rows_Permutation|].
  intros Hl Hv. apply (one_row_of_labels _ (local_labels tz response)); auto.
  - apply normalised_index_Permutation.
  - unfold local_labels. now rewrite length_map.
Qed.

Lemma normalised_table_rows_witness :
  length (df_rows sample_response) = (24 * 365)%nat
  /\ NoDup (map ts_value (df_index sample_response))
  /\ exists tmy,
       get_pvgis_tmy_dataframe sample_response tz_minus5 = Ok tmy
       /\ length (df_rows tmy) = (24 * 365)%nat
       /\ one_row_per_valid_mdh tmy.
Proof.
  assert (H1 : length (df_rows sample_response) = (24 * 365)%nat)
    by (vm_compute; reflexivity).
  assert (H2 : NoDup (map ts_value (df_index sample_response)))
    by (apply has_duplicates_false, sample_response_no_duplicates).
  split; [exact H1|]. split; [exact H2|].
  destruct (normalised_table_rows sample_response tz_minus5 H1 H2)
    as (_ & _ & _ & tmy & Hf & Hn & _ & _ & Hone).
  exists tmy. split; [exact Hf|]. split; [exact Hn|].
  exact (Hone sample_labels_NoDup sample_labels_valid).
Defined.

(** C7 as stated fails under a zone with daylight saving time: the
    response is the same 8760 hourly rows, yet the returned table has no
    row for 25 March, 02:00 and two rows for 30 September, 02:00. *)
Lemma normalised_table_rows_counterexample :
  length (df_rows sample_response) = (24 * 365)%nat
  /\ get_pvgis_tmy_dataframe sample_response tz_central_europe_1990 = Ok sample_tmy_dst
  /\ length (df_rows sample_tmy_dst) = (24 * 365)%nat
  /\ valid_mdh (3, 25, 2)
  /\ length (rows_keyed sample_tmy_dst (3, 25, 2)) = 0%nat
  /\ valid_mdh (9, 30, 2)
  /\ length (rows_keyed sample_tmy_dst (9, 30, 2)) = 2%nat
  /\ ~ one_row_per_valid_mdh sample_tmy_dst.
Proof.
  assert (Hlen : length (df_rows sample_response) = (24 * 365)%nat)
    by (vm_compute; reflexivity).
  assert (E1 : length (rows_keyed sample_tmy_dst (3, 25, 2)) = 0%nat)
    by (vm_compute; reflexivity).
  assert (E2 : length (rows_keyed sample_tmy_dst (9, 30, 2)) = 2%nat)
    by (vm_compute; reflexivity).
  split; [exact Hlen|].
  split; [apply get_pvgis_tmy_dataframe_normalised, sample_response_no_duplicates|].
  split; [unfold sample_tmy_dst; rewrite normalised_nrows; exact Hlen|].
  split; [unfold valid_mdh; simpl; lia|].
  split; [exact E1|].
  split; [unfold valid_mdh; simpl; lia|].
  split; [exact E2|].
  intros H. pose proof (H (3, 25, 2)) as H1.
  assert (V : valid_mdhb (3, 25, 2) = true) by reflexivity.
  rewrite V in H1. rewrite E1 in H1. discriminate H1.
Qed.

(* ===================================================================== *)
(** * Claims about the lookup day and the columns *)
(* ===================================================================== *)

Lemma hms_float_of_time_of_day (ts1 ts2 : list Timestamp) :
  map time_of_day ts1 = map time_of_day ts2 ->
  map hms_float_of ts1 = map hms_float_of ts2.
Proof.
  revert ts2. induction ts1 as [|t1 ts1 IH]; intros [|t2 ts2]; simpl;
    try discriminate; [reflexivity|].
  intros E. inversion E as [[Hh Hm Hs Hrest]].
  unfold hms_float_of. rewrite Hh, Hm, Hs. f_equal. now apply IH.
Qed.

Lemma set_column_columns_ext tbl1 tbl2 c data :
  dt_columns tbl1 = dt_columns tbl2 ->
  dt_columns (set_column tbl1 c data) = dt_columns (set_column tbl2 c data).
Proof.
  intros E. unfold set_column. rewrite E.
  destruct (existsb _ (dt_columns tbl2)); reflexivity.
Qed.

Lemma NoDup_keys_functional {V} (d : dict V) (k : date_key) (v1 v2 : V) :
  NoDup (dict_keys d) -> In (k, v1) d -> In (k, v2) d -> v1 = v2.
Proof.
  induction d as [|[k0 v0] d IH]; simpl; [tauto|].
  intros Hnd H1 H2. inversion Hnd as [|? ? Hnotin Hnd']; subst.
  destruct H1 as [E1|H1], H2 as [E2|H2].
  - congruence.
  - inversion E1; subst. exfalso. apply Hnotin.
    apply (in_map fst) in H2. exact H2.
  - inversion E2; subst. exfalso. apply Hnotin.
    apply (in_map fst) in H1. exact H1.
  - now apply IH.
Qed.

Lemma col_pos_Some_In (cols : list string) (c : string) (j : nat) :
  col_pos cols c = Some j -> In c cols.
Proof.
  intros H. apply col_pos_same_name in H. eapply nth_error_In; eauto.
Qed.

Lemma loc_day_of_column (tmy : TMY) (month day_ : Z) (col : string) :
  loc_day tmy month day_ col
  = match tmy_column tmy col with
    | None => Raise (KeyError (LStr col))
    | Some kvs =>
        match filter (fun kv => day_eqb month day_ (fst kv)) kvs with
        | [] => Raise (KeyError (LTuple [month; day_]))
        | rs => Ok (map snd rs)
        end
    end.
Proof.
  unfold loc_day, tmy_column.
  destruct (col_pos (df_columns tmy) col) as [j|]; [|reflexivity].
  set (g := fun r : mdh * list Q => (fst r, cell_at j (snd r))).
  assert (F : filter (fun kv => day_eqb month day_ (fst kv)) (map g (df_rows tmy))
              = map g (filter (fun r => day_eqb month day_ (fst r)) (df_rows tmy))).
  { induction (df_rows tmy) as [|r rows IH]; simpl; [reflexivity|].
    destruct (day_eqb month day_ (fst r)); simpl; now rewrite IH. }
  rewrite F.
  destruct (filter (fun r => day_eqb month day_ (fst r)) (df_rows tmy)) as [|r rs];
    simpl; [reflexivity|].
  now rewrite map_map.
Qed.

Lemma loc_hour_of_column (tmy : TMY) (k : mdh) (col : string) :
  loc_hour tmy k col
  = match tmy_column tmy col with
    | None => Raise (KeyError (LStr col))
    | Some kvs =>
        match filter (fun kv => mdh_eqb k (fst kv)) kvs with
        | [] => let '(m, d, h) := k in Raise (KeyError (LTuple [m; d; h]))
        | [kv] => Ok (Scalar (snd kv))
        | rs => Ok (SeriesCell (map snd rs))
        end
    end.
Proof.
  unfold loc_hour, tmy_column.
  destruct (col_pos (df_columns tmy) col) as [j|]; [|reflexivity].
  set (g := fun r : mdh * list Q => (fst r, cell_at j (snd r))).
  assert (F : filter (fun kv => mdh_eqb k (fst kv)) (map g (df_rows tmy))
              = map g (filter (fun r => mdh_eqb k (fst r)) (df_rows tmy))).
  { induction (df_rows tmy) as [|r rows IH]; simpl; [reflexivity|].
    destruct (mdh_eqb k (fst r)); simpl; now rewrite IH. }
  rewrite F.
  destruct (filter (fun r => mdh_eqb k (fst r)) (df_rows tmy)) as [|r [|r' rs]];
    simpl; try reflexivity.
  now rewrite map_map.
Qed.

Section ColumnIndependence.

Variable interp1d : interp_kind -> list Q -> list cell -> option (Q -> option Q).

Lemma fill_columns_columns_ext tmy kind month day_ hms cols :
  forall tbl1 tbl2,
    dt_columns tbl1 = dt_columns tbl2 ->
    result_map dt_columns (fill_columns interp1d tmy kind month day_ hms cols tbl1)
    = result_map dt_columns (fill_columns interp1d tmy kind month day_ hms cols tbl2).
Proof.
  induction cols as [|col cols IH]; intros tbl1 tbl2 E; simpl.
  - now rewrite E.
  - destruct (interp_column interp1d tmy kind month day_ hms col) as [vals|e];
      simpl; [|reflexivity].
    apply IH. now apply set_column_columns_ext.
Qed.

Lemma interp_column_of_column tmy1 tmy2 kind month day_ hms col :
  tmy_column tmy1 col = tmy_column tmy2 col ->
  interp_column interp1d tmy1 kind month day_ hms col
  = interp_column interp1d tmy2 kind month day_ hms col.
Proof.
  intros E. unfold interp_column, closing_node.
  rewrite !loc_day_of_column, !loc_hour_of_column, E. reflexivity.
Qed.

End ColumnIndependence.

(** C4. For every interpolation method and every TMY table, a group keyed
    (year, 2, 29) and a group keyed (year, 2, 28) with the same times of
    day receive the same columns: the leap day looks up day 28, every other
    date looks up its own day. *)
Theorem leap_day_uses_february_28
    (interp1d : interp_kind -> list Q -> list cell -> option (Q -> option Q))
    (tmy : TMY) (kind : interp_kind) (year : Z) (ts29 ts28 : list Timestamp) :
  map time_of_day ts29 = map time_of_day ts28 ->
  lookup_day 2 29 = 28
  /\ (forall month day, ~ (month = 2 /\ day = 29) -> lookup_day month day = day)
  /\ result_map dt_columns (group_table interp1d tmy kind (year, 2, 29) ts29)
     = result_map dt_columns (group_table interp1d tmy kind (year, 2, 28) ts28)
  /\ forall td29 td28 out29 out28,
       climate_data_from_pvgis_tmy_dataframe interp1d td29 tmy kind = Ok out29 ->
       climate_data_from_pvgis_tmy_dataframe interp1d td28 tmy kind = Ok out28 ->
       NoDup (dict_keys td29) ->
       NoDup (dict_keys td28) ->
       In ((year, 2, 29), ts29) td29 ->
       In ((year, 2, 28), ts28) td28 ->
       exists t29 t28,
         dict_get (year, 2, 29) out29 = Some t29
         /\ dict_get (year, 2, 28) out28 = Some t28
         /\ dt_index t29 = ts29
         /\ dt_index t28 = ts28
         /\ dt_columns t29 = dt_columns t28.
Proof.
  intros Htod.
  assert (Hgroup :
    result_map dt_columns (group_table interp1d tmy kind (year, 2, 29) ts29)
    = result_map dt_columns (group_table interp1d tmy kind (year, 2, 28) ts28)).
  { rewrite !group_table_unfold.
    change (lookup_day 2 29) with 28. change (lookup_day 2 28) with 28.
    unfold initial_table. rewrite (hms_float_of_time_of_day _ _ Htod).
    apply fill_columns_columns_ext.
    apply set_column_columns_ext. reflexivity. }
  split; [reflexivity|]. split; [|split; [exact Hgroup|]].
  - intros month day N. unfold lookup_day.
    destruct (Z.eqb_spec month 2), (Z.eqb_spec day 29); simpl; try reflexivity.
    exfalso. apply N. auto.
  - intros td29 td28 out29 out28 H29 H28 Hnd29 Hnd28 Hin29 Hin28.
    rewrite climate_data_eq_build in H29, H28.
    destruct (build_get interp1d tmy kind td29 [] out29 _ _ H29 Hnd29 Hin29)
      as [t29 [G29 D29]].
    destruct (build_get interp1d tmy kind td28 [] out28 _ _ H28 Hnd28 Hin28)
      as [t28 [G28 D28]].
    exists t29, t28. rewrite G29, G28 in Hgroup. simpl in Hgroup.
    repeat split; try assumption.
    + apply (group_table_shape interp1d tmy kind _ _ _ G29).
    + apply (group_table_shape interp1d tmy kind _ _ _ G28).
    + now inversion Hgroup.
Qed.

Lemma leap_day_uses_february_28_witness :
  map time_of_day [mk_timestamp 2024 2 29 10 30 0 (-18000);
                   mk_timestamp 2024 2 29 14 0 0 (-18000)]
  = map time_of_day [mk_timestamp 2024 2 28 10 30 0 (-18000);
                     mk_timestamp 2024 2 28 14 0 0 (-18000)]
  /\ climate_data_from_pvgis_tmy_dataframe reference_interp1d
       leap_time_data excerpt_tmy linear = Ok leap_out
  /\ exists t29 t28,
       dict_get (2024, 2, 29) leap_out = Some t29
       /\ dict_get (2024, 2, 28) leap_out = Some t28
       /\ dt_columns t29 = dt_columns t28.
Proof.
  assert (H1 : map time_of_day [mk_timestamp 2024 2 29 10 30 0 (-18000);
                                mk_timestamp 2024 2 29 14 0 0 (-18000)]
               = map time_of_day [mk_timestamp 2024 2 28 10 30 0 (-18000);
                                  mk_timestamp 2024 2 28 14 0 0 (-18000)])
    by (vm_compute; reflexivity).
  assert (H2 : climate_data_from_pvgis_tmy_dataframe reference_interp1d
                 leap_time_data excerpt_tmy linear = Ok leap_out)
    by (vm_compute; reflexivity).
  assert (H3 : NoDup (dict_keys leap_time_data)).
  { simpl. constructor; [|constructor; [intros []|constructor]].
    intros [H|[]]. discriminate H. }
  split; [exact H1|]. split; [exact H2|].
  destruct (proj2 (proj2 (proj2
              (leap_day_uses_february_28 reference_interp1d excerpt_tmy linear 2024
                 _ _ H1)))
              leap_time_data leap_time_data leap_out leap_out H2 H2 H3 H3
              (or_introl eq_refl) (or_intror (or_introl eq_refl)))
    as (t29 & t28 & D29 & D28 & _ & _ & Hcols).
  exists t29, t28. auto.
Defined.

(** C9. The array assigned to a column is a function of that column of the
    TMY table, the method and the target times alone: two tables that
    agree on the column (same keys in the same order, same values) give the
    same array, whatever their other columns hold. *)
Theorem column_independence
    (interp1d : interp_kind -> list Q -> list cell -> option (Q -> option Q))
    (tmy1 tmy2 : TMY) (kind : interp_kind) (col : string) :
  tmy_column tmy1 col = tmy_column tmy2 col ->
  In col (df_columns tmy1) ->
  (forall month day_ hms,
      interp_column interp1d tmy1 kind month day_ hms col
      = interp_column interp1d tmy2 kind month day_ hms col)
  /\ forall time_data out1 out2 key tbl1 tbl2,
       NoDup (dict_keys time_data) ->
       climate_data_from_pvgis_tmy_dataframe interp1d time_data tmy1 kind = Ok out1 ->
       climate_data_from_pvgis_tmy_dataframe interp1d time_data tmy2 kind = Ok out2 ->
       dict_get key out1 = Some tbl1 ->
       dict_get key out2 = Some tbl2 ->
       get_column (dt_columns tbl1) col = get_column (dt_columns tbl2) col
       /\ exists vs, get_column (dt_columns tbl1) col = Some (Values vs).
Proof.
  intros Hcol Hin1.
  assert (Hin2 : In col (df_columns tmy2)).
  { destruct (col_pos_In _ _ Hin1) as [j Hj].
    unfold tmy_column in Hcol. rewrite Hj in Hcol.
    destruct (col_pos (df_columns tmy2) col) as [j2|] eqn:E; [|discriminate].
    eapply col_pos_Some_In; eauto. }
  split.
  - intros month day_ hms. now apply interp_column_of_column.
  - intros time_data out1 out2 key tbl1 tbl2 Hnd H1 H2 D1 D2.
    rewrite climate_data_eq_build in H1, H2.
    destruct (build_get_any interp1d tmy1 kind time_data [] out1 key tbl1 H1 D1)
      as [Habs|[ts1 [I1 G1]]]; [discriminate|].
    destruct (build_get_any interp1d tmy2 kind time_data [] out2 key tbl2 H2 D2)
      as [Habs|[ts2 [I2 G2]]]; [discriminate|].
    assert (ts1 = ts2) by (eapply NoDup_keys_functional; eauto). subst ts2.
    destruct key as [[year month] day]. rewrite group_table_unfold in G1, G2.
    destruct (fill_columns_sets interp1d _ _ _ _ _ _ col _ _ G1) as [vs1 [E1 C1]];
      [rewrite initial_table_names; intros c Hc; now right|assumption|].
    destruct (fill_columns_sets interp1d _ _ _ _ _ _ col _ _ G2) as [vs2 [E2 C2]];
      [rewrite initial_table_names; intros c Hc; now right|assumption|].
    rewrite (interp_column_of_column interp1d tmy1 tmy2 _ _ _ _ _ Hcol) in E1.
    rewrite E1 in E2. inversion E2; subst vs2.
    split; [now rewrite C1, C2|eauto].
Qed.

Lemma column_independence_witness :
  tmy_column excerpt_tmy "T2m" = tmy_column excerpt_dry "T2m"
  /\ In "T2m"%string (df_columns excerpt_tmy)
  /\ get_column (dt_columns sample_table) "T2m"
     = get_column (dt_columns (option_get (new_DataFrame [] [])
                                 (dict_get (2023, 6, 15) dry_out))) "T2m".
Proof.
  assert (H1 : tmy_column excerpt_tmy "T2m" = tmy_column excerpt_dry "T2m")
    by (vm_compute; reflexivity).
  assert (H2 : In "T2m"%string (df_columns excerpt_tmy)) by (simpl; auto).
  assert (H3 : NoDup (dict_keys sample_time_data)).
  { simpl. constructor; [intros []|constructor]. }
  assert (R1 : climate_data_from_pvgis_tmy_dataframe reference_interp1d
                 sample_time_data excerpt_tmy linear = Ok sample_out)
    by (vm_compute; reflexivity).
  assert (R2 : climate_data_from_pvgis_tmy_dataframe reference_interp1d
                 sample_time_data excerpt_dry linear = Ok dry_out)
    by (vm_compute; reflexivity).
  assert (D1 : dict_get (2023, 6, 15) sample_out = Some sample_table)
    by (vm_compute; reflexivity).
  assert (D2 : dict_get (2023, 6, 15) dry_out
               = Some (option_get (new_DataFrame [] [])
                         (dict_get (2023, 6, 15) dry_out)))
    by (vm_compute; reflexivity).
  split; [exact H1|]. split; [exact H2|].
  exact (proj1 (proj2 (column_independence reference_interp1d excerpt_tmy excerpt_dry
                         linear "T2m" H1 H2)
                  sample_time_data sample_out dry_out (2023, 6, 15) _ _ H3 R1 R2 D1 D2)).
Defined.

(* ===================================================================== *)
(** * Exactness at the hour marks *)
(* ===================================================================== *)

Lemma scalars_length ys ys' : scalars ys = Some ys' -> length ys' = length ys.
Proof.
  revert ys'. induction ys as [|[v|vs] ys IH]; intros ys'; simpl.
  - now intros [= <-].
  - destruct (scalars ys) as [l|]; simpl; [|discriminate].
    intros [= <-]. simpl. f_equal. now apply IH.
  - discriminate.
Qed.

Lemma scalars_nth_error ys ys' i yi :
  scalars ys = Some ys' -> nth_error ys i = Some (Scalar yi) -> nth_error ys' i = Some yi.
Proof.
  revert ys' i. induction ys as [|[v|vs] ys IH]; intros ys' i; simpl.
  - destruct i; discriminate.
  - destruct (scalars ys) as [l|]; simpl; [|discriminate].
    intros [= <-]. destruct i as [|i]; simpl.
    + now intros [= ->].
    + now apply IH.
  - discriminate.
Qed.

Lemma searchsorted_consecutive (n : nat) :
  forall (s k : nat) (x : Q),
    (x == inject_Z (Z.of_nat (s + k)))%Q ->
    (k < n)%nat ->
    searchsorted (map (fun i => inject_Z (Z.of_nat i)) (seq s n)) x = k.
Proof.
  induction n as [|n IH]; intros s k x Hx Hk; [lia|]. simpl.
  destruct k as [|k].
  - replace (Qle_bool x (inject_Z (Z.of_nat s))) with true; [reflexivity|].
    symmetry. apply Qle_bool_iff. rewrite Hx, Nat.add_0_r. apply Qle_refl.
  - replace (Qle_bool x (inject_Z (Z.of_nat s))) with false.
    + f_equal. apply IH; [|lia]. rewrite Hx. now replace (S s + k)%nat with (s + S k)%nat by lia.
    + symmetry. destruct (Qle_bool x (inject_Z (Z.of_nat s))) eqn:E; [|reflexivity].
      apply Qle_bool_iff in E. rewrite Hx in E. rewrite <- Zle_Qle in E. lia.
Qed.

Lemma nth_arange (n i : nat) :
  (i < n)%nat -> nth i (arange n) 0%Q = inject_Z (Z.of_nat i).
Proof.
  intros H. unfold arange.
  change 0%Q with ((fun j => inject_Z (Z.of_nat j)) O).
  rewrite map_nth. now rewrite seq_nth.
Qed.

Lemma call_linear_at_node (ys : list Q) (i : nat) (yi x : Q) :
  length ys = 25%nat ->
  nth_error ys i = Some yi ->
  (x == inject_Z (Z.of_nat i))%Q ->
  (call_linear x_interp ys x == yi)%Q.
Proof.
  intros Hlen Hy Hx.
  assert (Hi : (i < 25)%nat).
  { rewrite <- Hlen. apply nth_error_Some. congruence. }
  unfold call_linear.
  replace (searchsorted x_interp x) with i
    by (symmetry; apply (searchsorted_consecutive 25 0 i x); [exact Hx|exact Hi]).
  change (length x_interp - 1)%nat with 24%nat.
  destruct i as [|i].
  - change (clip 1 24 0) with 1%nat. simpl Nat.sub.
    rewrite (nth_error_nth _ _ _ Hy).
    change (nth 0 x_interp 0%Q) with 0%Q. change (nth 1 x_interp 0%Q) with 1%Q.
    rewrite Hx. simpl inject_Z. field.
  - replace (clip 1 24 (S i)) with (S i) by (unfold clip; lia).
    replace (S i - 1)%nat with i by lia.
    rewrite (nth_error_nth _ _ _ Hy).
    unfold x_interp. rewrite !nth_arange by lia.
    rewrite Hx. rewrite Nat2Z.inj_succ. unfold Z.succ. rewrite inject_Z_plus.
    simpl (inject_Z 1).
    generalize (inject_Z (Z.of_nat i)) (nth i ys 0%Q). intros a b.
    field. intros N. apply (Qeq_bool_neq 1 0); [reflexivity|]. 
    setoid_replace (a + 1 - a)%Q with 1%Q in N by ring. exact N.
Qed.

Lemma reference_passes_through_nodes
    (ys : list cell) (f : Q -> option Q) (i : nat) (yi x v : Q) :
  reference_interp1d linear x_interp ys = Some f ->
  nth_error ys i = Some (Scalar yi) ->
  (x == inject_Z (Z.of_nat i))%Q ->
  f x = Some v ->
  (v == yi)%Q.
Proof.
  intros Hf Hy Hx Hv.
  unfold reference_interp1d in Hf.
  destruct (scalars ys) as [ys'|] eqn:S; [|discriminate].
  destruct ((length x_interp =? length ys')%nat && (1 <? length x_interp)%nat)
    eqn:C; [|discriminate].
  injection Hf as <-. unfold reference_call in Hv.
  destruct (Qle_bool (hd 0%Q x_interp) x && Qle_bool x (last x_interp 0%Q));
    [|discriminate].
  assert (Hv' : v = Qred (call_linear x_interp ys' x)) by congruence.
  rewrite Hv'. clear Hv Hv'.
  apply (Qeq_trans _ (call_linear x_interp ys' x)); [apply Qred_correct|].
  apply (call_linear_at_node ys' i yi x); [| |exact Hx].
  - apply andb_true_iff in C as [C _]. apply Nat.eqb_eq in C. now rewrite <- C.
  - eapply scalars_nth_error; eauto.
Qed.

Lemma mapM_nth_error {A B} (g : A -> result B) (l : list A) :
  forall vs i x,
    mapM g l = Ok vs ->
    nth_error l i = Some x ->
    exists v, nth_error vs i = Some v /\ g x = Ok v.
Proof.
  induction l as [|a l IH]; intros vs i x; simpl.
  - destruct i; discriminate.
  - destruct (g a) as [b|e] eqn:Ga; simpl; [|discriminate].
    destruct (mapM g l) as [bs|e] eqn:Gl; simpl; [|discriminate].
    intros [= <-]. destruct i as [|i]; simpl.
    + intros [= <-]. eauto.
    + apply IH. reflexivity.
Qed.

Lemma hms_integer_hour (t : Timestamp) (h : Z) :
  (hms_float_of t == inject_Z h)%Q -> h = ts_hour t.
Proof.
  intros E.
  pose proof (hms_float_range t) as [_ Hlt].
  assert (Hh : 0 <= ts_hour t <= 23).
  { unfold ts_hour.
    pose proof (Z.mod_pos_bound (local_ns t / (3600 * ns_per_second)) 24). lia. }
  assert (Hm : 0 <= ts_minute t <= 59).
  { unfold ts_minute.
    pose proof (Z.mod_pos_bound (local_ns t / (60 * ns_per_second)) 60). lia. }
  assert (Hs : 0 <= ts_second t <= 59).
  { unfold ts_second.
    pose proof (Z.mod_pos_bound (local_ns t / ns_per_second) 60). lia. }
  unfold hms_float_of in E.
  destruct Hm as [Hm1 Hm2], Hs as [Hs1 Hs2].
  rewrite Zle_Qle in Hm1, Hm2, Hs1, Hs2.
  assert (L : (inject_Z (ts_hour t) <= inject_Z h)%Q).
  { rewrite <- E. unfold Qdiv.
    change (/ 60)%Q with (1 # 60)%Q. change (/ 3600)%Q with (1 # 3600)%Q.
    unfold inject_Z in Hm1, Hs1 |- *. 
    generalize dependent (ts_minute t # 1)%Q. generalize dependent (ts_second t # 1)%Q.
    intros. lra. }
  assert (U : (inject_Z h < inject_Z (ts_hour t + 1))%Q).
  { rewrite <- E. rewrite inject_Z_plus. unfold Qdiv.
    change (/ 60)%Q with (1 # 60)%Q. change (/ 3600)%Q with (1 # 3600)%Q.
    unfold inject_Z in Hm2, Hs2 |- *.
    generalize dependent (ts_minute t # 1)%Q. generalize dependent (ts_second t # 1)%Q.
    intros. lra. }
  rewrite <- Zle_Qle in L. rewrite <- Zlt_Qlt in U. lia.
Qed.

Lemma nth_error_zrange (a : Z) (len n : nat) :
  (n < len)%nat -> nth_error (zrange a len) n = Some (a + Z.of_nat n).
Proof.
  intros H. unfold zrange. rewrite nth_error_map, nth_error_seq.
  destruct (Nat.ltb_spec n len); [reflexivity|lia].
Qed.

Lemma day_eqb_of_mdh_eqb (m d h : Z) (k : mdh) :
  mdh_eqb (m, d, h) k = true -> day_eqb m d k = true.
Proof.
  destruct k as [[m' d'] h']. unfold mdh_eqb, day_eqb.
  rewrite !andb_true_iff, !Z.eqb_eq. intros [[-> ->] _]. auto.
Qed.

Lemma filter_key_within_day (rows : list (mdh * list Q)) (m d h : Z) :
  filter (fun r => mdh_eqb (m, d, h) (fst r)) rows
  = filter (fun r => mdh_eqb (m, d, h) (fst r))
      (filter (fun r => day_eqb m d (fst r)) rows).
Proof.
  induction rows as [|r rows IH]; cbn [filter]; [reflexivity|].
  destruct (mdh_eqb (m, d, h) (fst r)) eqn:E.
  - rewrite (day_eqb_of_mdh_eqb _ _ _ _ E). cbn [filter]. rewrite E. now f_equal.
  - destruct (day_eqb m d (fst r)); cbn [filter]; [rewrite E|]; exact IH.
Qed.

Lemma filter_keyed_rows (m d : Z) (rows : list (mdh * list Q)) :
  forall (hs : list Z) (n : nat) (h : Z) (row : mdh * list Q),
    map fst rows = map (fun h' => (m, d, h')) hs ->
    NoDup hs ->
    nth_error hs n = Some h ->
    nth_error rows n = Some row ->
    filter (fun r => mdh_eqb (m, d, h) (fst r)) rows = [row].
Proof.
  induction rows as [|r rows IH]; intros hs n h row Hk Hnd Hh Hr.
  - destruct n; discriminate.
  - destruct hs as [|h0 hs]; [discriminate|].
    simpl in Hk. injection Hk as Hk0 Hk.
    inversion Hnd as [|? ? Hnotin Hnd']; subst.
    destruct n as [|n]; simpl in Hh, Hr.
    + injection Hh as ->. injection Hr as ->. cbn [filter].
      rewrite Hk0, mdh_eqb_refl. f_equal.
      apply filter_nil_iff. intros r' Hr'.
      destruct (mdh_eqb (m, d, h) (fst r')) eqn:E; [|reflexivity].
      apply mdh_eqb_eq in E. exfalso. apply Hnotin.
      apply (in_map fst) in Hr'. rewrite Hk, <- E in Hr'.
      apply in_map_iff in Hr' as [h' [E' Hin]]. now inversion E'; subst.
    + cbn [filter]. rewrite Hk0.
      replace (mdh_eqb (m, d, h) (m, d, h0)) with false.
      * eapply IH; eauto.
      * symmetry. destruct (mdh_eqb (m, d, h) (m, d, h0)) eqn:E; [|reflexivity].
        apply mdh_eqb_eq in E. inversion E; subst. exfalso. apply Hnotin.
        eapply nth_error_In; eauto.
Qed.

Lemma zrange_NoDup (a : Z) (n : nat) : NoDup (zrange a n).
Proof.
  unfold zrange. apply Finite.Injective_map_NoDup.
  - intros i j. lia.
  - apply seq_NoDup.
Qed.

Lemma day_row_lookup (tmy : TMY) (m d h : Z) :
  map fst (filter (fun r => day_eqb m d (fst r)) (df_rows tmy)) = day_keys m d ->
  0 <= h <= 23 ->
  exists row,
    nth_error (filter (fun r => day_eqb m d (fst r)) (df_rows tmy)) (Z.to_nat h) = Some row
    /\ rows_keyed tmy (m, d, h) = [row].
Proof.
  intros Hk Hh.
  set (dayrows := filter (fun r => day_eqb m d (fst r)) (df_rows tmy)) in *.
  assert (Hlen : length dayrows = 24%nat).
  { rewrite <- (length_map fst), Hk. reflexivity. }
  destruct (nth_error dayrows (Z.to_nat h)) as [row|] eqn:R.
  - exists row. split; [reflexivity|].
    unfold rows_keyed. rewrite filter_key_within_day. fold dayrows.
    apply (filter_keyed_rows m d dayrows (zrange 0 24) (Z.to_nat h) h row).
    + exact Hk.
    + apply zrange_NoDup.
    + rewrite nth_error_zrange by lia. f_equal. lia.
    + exact R.
  - exfalso. apply nth_error_None in R. lia.
Qed.

(** X12. With the piecewise-linear interpolant and exact arithmetic, at a
    target timestamp whose fractional hour is exactly an integer h
    (necessarily one of 0..23) every climate column of the output holds the
    value of the TMY row keyed (month, lookup day, h), given that the
    lookup day has its 24 hourly rows in order. *)
Theorem linear_hour_marks_reproduce_tmy_rows
    (time_data : dict (list Timestamp)) (tmy : TMY)
    (out : dict DayTable) (year month day : Z) (ts : list Timestamp)
    (i : nat) (t : Timestamp) (h : Z) (col : string) :
  climate_data_from_pvgis_tmy_dataframe reference_interp1d time_data tmy linear = Ok out ->
  NoDup (dict_keys time_data) ->
  In ((year, month, day), ts) time_data ->
  nth_error ts i = Some t ->
  (hms_float_of t == inject_Z h)%Q ->
  In col (df_columns tmy) ->
  map fst (filter (fun r => day_eqb month (lookup_day month day) (fst r)) (df_rows tmy))
  = day_keys month (lookup_day month day) ->
  0 <= h <= 23
  /\ exists tbl vs v y,
       dict_get (year, month, day) out = Some tbl
       /\ get_column (dt_columns tbl) col = Some (Values vs)
       /\ nth_error vs i = Some v
       /\ loc_hour tmy (month, lookup_day month day, h) col = Ok (Scalar y)
       /\ (v == y)%Q.
Proof.
  intros Hrun Hnd Hin Ht Hx Hc Hday.
  assert (Hh : h = ts_hour t) by now apply hms_integer_hour.
  assert (Hrange : 0 <= h <= 23).
  { rewrite Hh. unfold ts_hour.
    pose proof (Z.mod_pos_bound (local_ns t / (3600 * ns_per_second)) 24). lia. }
  split; [exact Hrange|].
  destruct (run_column_nodes reference_interp1d time_data tmy linear out year month day
              ts col Hrun Hnd Hin Hc)
    as [tbl [vs [y_day [closing [Hget [Hvs [Hy [_ [f [Hf Hmap]]]]]]]]]].
  set (d_ := lookup_day month day) in *.
  destruct (day_row_lookup tmy month d_ h Hday Hrange) as [row [Hrow Hkeyed]].
  destruct (col_pos_In _ _ Hc) as [j Hj].
  assert (Hloc : loc_day tmy month d_ col
                 = Ok (map (fun r => cell_at j (snd r))
                         (filter (fun r => day_eqb month d_ (fst r)) (df_rows tmy)))).
  { unfold loc_day. rewrite Hj.
    destruct (filter (fun r => day_eqb month d_ (fst r)) (df_rows tmy)) eqn:F;
      [|reflexivity].
    destruct (Z.to_nat h); discriminate. }
  rewrite Hloc in Hy. injection Hy as <-.
  destruct (mapM_nth_error _ _ vs i (hms_float_of t) Hmap) as [v [Hv Hfx]].
  { rewrite nth_error_map, Ht. reflexivity. }
  destruct (f (hms_float_of t)) as [v'|] eqn:Hfv; [|discriminate].
  injection Hfx as ->.
  exists tbl, vs, v, (cell_at j (snd row)).
  split; [exact Hget|]. split; [exact Hvs|]. split; [exact Hv|]. split.
  - now apply loc_hour_single.
  - apply (reference_passes_through_nodes _ f (Z.to_nat h) (cell_at j (snd row))
             (hms_float_of t) v Hf).
    + rewrite nth_error_app1.
      * rewrite !nth_error_map, Hrow. reflexivity.
      * rewrite !length_map. apply nth_error_Some. congruence.
    + rewrite Z2Nat.id by lia. exact Hx.
    + exact Hfv.
Qed.

Lemma linear_hour_marks_reproduce_tmy_rows_witness :
  climate_data_from_pvgis_tmy_dataframe reference_interp1d
    sample_time_data excerpt_tmy linear = Ok sample_out
  /\ nth_error sample_grid 12 = Some (mk_timestamp 2023 6 15 7 0 0 (-18000))
  /\ (hms_float_of (mk_timestamp 2023 6 15 7 0 0 (-18000)) == inject_Z 7)%Q
  /\ map fst (filter (fun r => day_eqb 6 (lookup_day 6 15) (fst r)) (df_rows excerpt_tmy))
     = day_keys 6 (lookup_day 6 15)
  /\ exists tbl vs v y,
       dict_get (2023, 6, 15) sample_out = Some tbl
       /\ get_column (dt_columns tbl) "T2m" = Some (Values vs)
       /\ nth_error vs 12 = Some v
       /\ loc_hour excerpt_tmy (6, lookup_day 6 15, 7) "T2m" = Ok (Scalar y)
       /\ (v == y)%Q.
Proof.
  assert (H1 : climate_data_from_pvgis_tmy_dataframe reference_interp1d
                 sample_time_data excerpt_tmy linear = Ok sample_out)
    by (vm_compute; reflexivity).
  assert (H2 : NoDup (dict_keys sample_time_data)).
  { simpl. constructor; [intros []|constructor]. }
  assert (H3 : nth_error sample_grid 12 = Some (mk_timestamp 2023 6 15 7 0 0 (-18000)))
    by (vm_compute; reflexivity).
  assert (H4 : (hms_float_of (mk_timestamp 2023 6 15 7 0 0 (-18000)) == inject_Z 7)%Q)
    by (vm_compute; reflexivity).
  assert (H5 : In "T2m"%string (df_columns excerpt_tmy)) by (simpl; auto).
  assert (H6 : map fst (filter (fun r => day_eqb 6 (lookup_day 6 15) (fst r))
                          (df_rows excerpt_tmy))
               = day_keys 6 (lookup_day 6 15))
    by (vm_compute; reflexivity).
  split; [exact H1|]. split; [exact H3|]. split; [exact H4|]. split; [exact H6|].
  exact (proj2 (linear_hour_marks_reproduce_tmy_rows sample_time_data
                  excerpt_tmy sample_out 2023 6 15 sample_grid 12
                  (mk_timestamp 2023 6 15 7 0 0 (-18000)) 7 "T2m"
                  H1 H2 (or_introl eq_refl) H3 H4 H5 H6)).
Defined.

(** The specification's example: T2m is 20 at (6, 15, 10) and 21 at
    (6, 15, 11); linear interpolation at 10:30 gives 20.5.  The sample table
    holds 35 and 36 there, and the value at 10:30 is 35.5. *)
Example linear_half_past_ten :
  loc_hour excerpt_tmy (6, 15, 10) "T2m" = Ok (Scalar 35)
  /\ loc_hour excerpt_tmy (6, 15, 11) "T2m" = Ok (Scalar 36)
  /\ interp_column reference_interp1d excerpt_tmy linear 6 15
       [hms_float_of (mk_timestamp 2023 6 15 10 30 0 (-18000))] "T2m"
     = Ok [(71 # 2)%Q].
Proof. split; [|split]; vm_compute; reflexivity. Qed.

(* ===================================================================== *)
(** * Runs group by group *)
(* ===================================================================== *)

Section MoreRunFacts.

Variable interp1d : interp_kind -> list Q -> list cell -> option (Q -> option Q).

Lemma build_app tmy kind items1 :
  forall items2 cd,
    build interp1d tmy kind (items1 ++ items2) cd
    = rbind (build interp1d tmy kind items1 cd) (build interp1d tmy kind items2).
Proof.
  induction items1 as [|[key ts] items1 IH]; intros items2 cd; simpl; [reflexivity|].
  destruct (group_table interp1d tmy kind key ts) as [tbl|e]; simpl; [apply IH|reflexivity].
Qed.

Lemma build_ok_groups tmy kind items :
  forall cd out k ts,
    build interp1d tmy kind items cd = Ok out ->
    In (k, ts) items ->
    exists tbl, group_table interp1d tmy kind k ts = Ok tbl.
Proof.
  induction items as [|[key ts0] items IH]; intros cd out k ts; simpl; [tauto|].
  destruct (group_table interp1d tmy kind key ts0) as [tbl|e] eqn:G; simpl; [|discriminate].
  intros Hb [E|Hin].
  - inversion E; subst. eauto.
  - eapply IH; eauto.
Qed.

Lemma fill_columns_ok_columns tmy kind month day_ hms cols :
  forall tbl tbl' c,
    fill_columns interp1d tmy kind month day_ hms cols tbl = Ok tbl' ->
    In c cols ->
    exists vs, interp_column interp1d tmy kind month day_ hms c = Ok vs.
Proof.
  induction cols as [|col cols IH]; intros tbl tbl' c; simpl; [tauto|].
  destruct (interp_column interp1d tmy kind month day_ hms col) as [vals|e] eqn:E;
    simpl; [|discriminate].
  intros Hf [->|Hc]; [eauto|]. eapply IH; eauto.
Qed.

Lemma single_group_run tmy kind key ts :
  climate_data_from_pvgis_tmy_dataframe interp1d [(key, ts)] tmy kind
  = result_map (fun tbl => [(key, tbl)]) (group_table interp1d tmy kind key ts).
Proof.
  rewrite climate_data_eq_build. simpl.
  destruct (group_table interp1d tmy kind key ts); reflexivity.
Qed.

Lemma single_group_run_build tmy kind key ts :
  build interp1d tmy kind [(key, ts)] []
  = result_map (fun tbl => [(key, tbl)]) (group_table interp1d tmy kind key ts).
Proof.
  simpl. destruct (group_table interp1d tmy kind key ts); reflexivity.
Qed.

Lemma mapM_length {A B} (g : A -> result B) (l : list A) :
  forall vs, mapM g l = Ok vs -> length vs = length l.
Proof.
  induction l as [|a l IH]; intros vs; simpl.
  - now intros [= <-].
  - destruct (g a) as [b|e]; simpl; [|discriminate].
    destruct (mapM g l) as [bs|e]; simpl; [|discriminate].
    intros [= <-]. simpl. f_equal. now apply IH.
Qed.

Lemma interp_column_length tmy kind month day_ hms col vs :
  interp_column interp1d tmy kind month day_ hms col = Ok vs ->
  length vs = length hms.
Proof.
  unfold interp_column.
  destruct (loc_day tmy month day_ col) as [y|e]; simpl; [|discriminate].
  destruct (closing_node tmy month day_ col) as [c|e]; simpl; [|discriminate].
  destruct (interp1d kind x_interp _) as [f|]; simpl; [|discriminate].
  apply mapM_length.
Qed.

End MoreRunFacts.

(* ===================================================================== *)
(** * Further properties of the interpolator *)
(* ===================================================================== *)

Lemma reference_rejects_length_mismatch : rejects_length_mismatch reference_interp1d.
Proof.
  intros kind xs ys f Hf. unfold reference_interp1d in Hf.
  destruct kind; [|discriminate|discriminate].
  destruct (scalars ys) as [ys'|] eqn:S; [|discriminate].
  destruct ((length xs =? length ys')%nat && (1 <? length xs)%nat) eqn:C;
    [|discriminate].
  apply andb_true_iff in C as [C _]. apply Nat.eqb_eq in C.
  rewrite C. now apply scalars_length.
Qed.

Section FurtherProperties.

Variable interp1d : interp_kind -> list Q -> list cell -> option (Q -> option Q).

(** X1. The day lookup of line 252 is outside every [try]: when the TMY
    table has no row for (month, lookup day), the first group raises
    [KeyError((month, day_))] at its first column, and no run whose input
    contains such a group returns a dictionary. *)
Theorem missing_day_raises_key_error
    (tmy : TMY) (kind : interp_kind) (year month day : Z) (ts : list Timestamp)
    (rest : dict (list Timestamp)) (col : string) (cols : list string) :
  df_columns tmy = col :: cols ->
  day_rows tmy month (lookup_day month day) = [] ->
  climate_data_from_pvgis_tmy_dataframe interp1d
    (((year, month, day), ts) :: rest) tmy kind
  = Raise (KeyError (LTuple [month; lookup_day month day]))
  /\ forall time_data out,
       In ((year, month, day), ts) time_data ->
       climate_data_from_pvgis_tmy_dataframe interp1d time_data tmy kind <> Ok out.
Proof.
  intros Hcols Hday.
  assert (Hcol : interp_column interp1d tmy kind month (lookup_day month day)
                   (map hms_float_of ts) col
                 = Raise (KeyError (LTuple [month; lookup_day month day]))).
  { unfold interp_column, loc_day. rewrite Hcols. simpl col_pos.
    rewrite String.eqb_refl. fold (day_rows tmy month (lookup_day month day)).
    rewrite Hday. reflexivity. }
  split.
  - rewrite climate_data_eq_build. cbn [build]. rewrite group_table_unfold.
    rewrite Hcols. cbn [fill_columns]. rewrite Hcol. reflexivity.
  - intros time_data out Hin Hrun.
    destruct (group_raises interp1d tmy time_data kind year month day ts col _ Hin
                ltac:(rewrite Hcols; now left) Hcol) as [e He].
    congruence.
Qed.

(** X2. When [interp1d] refuses arrays of different lengths, a run can
    only succeed if every lookup day of its groups has exactly 24 rows in
    the TMY table (the 25 nodes are these rows plus the closing value). *)
Theorem successful_run_needs_24_rows
    (time_data : dict (list Timestamp)) (tmy : TMY) (kind : interp_kind)
    (out : dict DayTable) (year month day : Z) (ts : list Timestamp) :
  rejects_length_mismatch interp1d ->
  climate_data_from_pvgis_tmy_dataframe interp1d time_data tmy kind = Ok out ->
  In ((year, month, day), ts) time_data ->
  df_columns tmy <> [] ->
  length (day_rows tmy month (lookup_day month day)) = 24%nat.
Proof.
  intros Hlen Hrun Hin Hcols. rewrite climate_data_eq_build in Hrun.
  destruct (build_ok_groups interp1d tmy kind time_data [] out _ _ Hrun Hin) as [tbl Hg].
  rewrite group_table_unfold in Hg.
  destruct (df_columns tmy) as [|col cols] eqn:Ec; [contradiction|].
  destruct (fill_columns_ok_columns interp1d _ _ _ _ _ _ _ _ col Hg (or_introl eq_refl))
    as [vs Hvs].
  unfold interp_column, loc_day in Hvs. rewrite Ec in Hvs. simpl col_pos in Hvs.
  rewrite String.eqb_refl in Hvs.
  fold (day_rows tmy month (lookup_day month day)) in Hvs.
  destruct (day_rows tmy month (lookup_day month day)) as [|r rs] eqn:Ed;
    [discriminate|].
  cbn [rbind] in Hvs.
  destruct (closing_node tmy month (lookup_day month day) col) as [c|e];
    [|discriminate].
  cbn [rbind] in Hvs.
  destruct (interp1d kind x_interp _) as [f|] eqn:Hf; [|discriminate].
  apply Hlen in Hf. rewrite length_app, !length_map in Hf.
  change (length x_interp) with 25%nat in Hf. simpl in Hf. simpl. lia.
Qed.

Lemma set_column_filled (P : string -> Prop) n tbl c data :
  length data = n ->
  In c (dt_names tbl) ->
  Forall (fun p => P (fst p) -> filled n p) (dt_columns tbl) ->
  Forall (fun p => P (fst p) \/ fst p = c -> filled n p)
         (dt_columns (set_column tbl c data)).
Proof.
  intros Hlen Hin Hall. unfold set_column, dt_names in *.
  apply existsb_name_In in Hin. rewrite Hin. simpl.
  apply Forall_forall. intros p Hp. apply in_map_iff in Hp as [q [Hq Hin']].
  rewrite Forall_forall in Hall. specialize (Hall q Hin').
  destruct (String.eqb_spec (fst q) c) as [E|N]; subst p; simpl.
  - intros _. exists data. auto.
  - intros [H|H]; [auto|contradiction].
Qed.

Lemma fill_columns_filled tmy kind month day_ hms cols :
  forall (P : string -> Prop) tbl tbl',
    fill_columns interp1d tmy kind month day_ hms cols tbl = Ok tbl' ->
    incl cols (dt_names tbl) ->
    Forall (fun p => P (fst p) -> filled (length hms) p) (dt_columns tbl) ->
    Forall (fun p => P (fst p) \/ In (fst p) cols -> filled (length hms) p)
           (dt_columns tbl').
Proof.
  induction cols as [|col cols IH]; intros P tbl tbl'; simpl.
  - intros [= ->] _ H. eapply Forall_impl; [|exact H]. intros p Hp [H'|[]]. auto.
  - destruct (interp_column interp1d tmy kind month day_ hms col) as [vals|e] eqn:E;
      simpl; [|discriminate].
    intros Hf Hincl Hall.
    assert (Hcol : In col (dt_names tbl)) by (apply Hincl; now left).
    pose proof (set_column_filled P (length hms) tbl col vals
                  (interp_column_length interp1d _ _ _ _ _ _ _ E) Hcol Hall) as Hset.
    specialize (IH (fun c => P c \/ c = col) _ _ Hf).
    eapply Forall_impl; [|apply IH].
    + intros p Hp [H|[H|H]]; apply Hp; auto.
    + rewrite set_column_names by assumption.
      intros c Hc. apply Hincl. now right.
    + exact Hset.
Qed.

(** X3. After a successful run no column of any table is left unfilled:
    the fractional-hour column and every climate column hold an array with
    exactly one value per timestamp of the group. *)
Theorem tables_are_filled
    (time_data : dict (list Timestamp)) (tmy : TMY) (kind : interp_kind)
    (out : dict DayTable) (key : date_key) (tbl : DayTable) :
  climate_data_from_pvgis_tmy_dataframe interp1d time_data tmy kind = Ok out ->
  dict_get key out = Some tbl ->
  all_columns_filled tbl.
Proof.
  intros Hrun Hget. rewrite climate_data_eq_build in Hrun.
  destruct (build_get_any interp1d tmy kind time_data [] out key tbl Hrun Hget)
    as [Habs|[ts [_ Hg]]]; [discriminate|].
  destruct (group_table_shape interp1d tmy kind key ts tbl Hg) as [Hi Hn].
  destruct key as [[year month] day]. rewrite group_table_unfold in Hg.
  unfold all_columns_filled, dt_nrows. rewrite Hi.
  replace (length ts) with (length (map hms_float_of ts)) by apply length_map.
  pose proof (fill_columns_filled tmy kind month (lookup_day month day)
                (map hms_float_of ts) (df_columns tmy)
                (fun c => c = "hms_float"%string) _ _ Hg) as H.
  assert (Hall : Forall (fun p => In (fst p) (dt_names tbl)
                                  -> filled (length (map hms_float_of ts)) p)
                        (dt_columns tbl)).
  { eapply Forall_impl; [|apply H].
    - intros p Hp Hin. apply Hp. rewrite Hn in Hin. destruct Hin as [<-|Hin]; auto.
    - rewrite initial_table_names. intros c Hc. now right.
    - unfold initial_table.
      eapply Forall_impl;
        [|apply (set_column_filled (fun _ => False) (length (map hms_float_of ts))
                   (new_DataFrame ts ("hms_float"%string :: df_columns tmy))
                   "hms_float" (map hms_float_of ts) eq_refl)].
      + intros p Hp E. apply Hp. now right.
      + unfold dt_names, new_DataFrame. simpl. now left.
      + apply Forall_forall. intros p _ []. }
  apply Forall_forall. intros p Hp. rewrite Forall_forall in Hall.
  apply (Hall p Hp). unfold dt_names. now apply in_map.
Qed.

(** X4. The code never reads the year of a key nor the date of a target
    timestamp: two groups for the same (month, day) whose timestamps have
    the same times of day receive the same columns, and fail alike. *)
Theorem columns_depend_on_month_day_and_times
    (tmy : TMY) (kind : interp_kind) (year1 year2 month day : Z)
    (ts1 ts2 : list Timestamp) :
  map time_of_day ts1 = map time_of_day ts2 ->
  result_map (map (fun kv => dt_columns (snd kv)))
    (climate_data_from_pvgis_tmy_dataframe interp1d [((year1, month, day), ts1)] tmy kind)
  = result_map (map (fun kv => dt_columns (snd kv)))
      (climate_data_from_pvgis_tmy_dataframe interp1d [((year2, month, day), ts2)] tmy kind).
Proof.
  intros Htod. rewrite !single_group_run, !group_table_unfold.
  unfold initial_table. rewrite (hms_float_of_time_of_day _ _ Htod).
  pose proof (fill_columns_columns_ext interp1d tmy kind month (lookup_day month day)
                (map hms_float_of ts2) (df_columns tmy)
                (set_column (new_DataFrame ts1 ("hms_float"%string :: df_columns tmy))
                   "hms_float" (map hms_float_of ts2))
                (set_column (new_DataFrame ts2 ("hms_float"%string :: df_columns tmy))
                   "hms_float" (map hms_float_of ts2))
                (set_column_columns_ext _ _ _ _ eq_refl)) as H.
  destruct (fill_columns _ _ _ _ _ _ _ (set_column (new_DataFrame ts1 _) _ _)) as [t1|e1];
    destruct (fill_columns _ _ _ _ _ _ _ (set_column (new_DataFrame ts2 _) _ _)) as [t2|e2];
    simpl in *; congruence.
Qed.

(** X5. Groups are processed in the order of the dictionary and the first
    failure ends the call: when the groups before one succeed and that one
    fails alone with an exception, the whole call raises that exception,
    whatever follows it. *)
Theorem first_failing_group_decides
    (tmy : TMY) (kind : interp_kind) (before after : dict (list Timestamp))
    (out_before : dict DayTable) (key : date_key) (ts : list Timestamp) (e : exn) :
  climate_data_from_pvgis_tmy_dataframe interp1d before tmy kind = Ok out_before ->
  climate_data_from_pvgis_tmy_dataframe interp1d [(key, ts)] tmy kind = Raise e ->
  climate_data_from_pvgis_tmy_dataframe interp1d (before ++ (key, ts) :: after) tmy kind
  = Raise e.
Proof.
  rewrite !climate_data_eq_build, single_group_run_build. intros Hb Hg.
  rewrite build_app, Hb. cbn [rbind build].
  destruct (group_table interp1d tmy kind key ts) as [tbl|e']; [discriminate|].
  simpl in *. congruence.
Qed.

(** X6. Groups do not influence one another: in a successful run the
    table stored under a key is the table that a call on that group alone
    returns. *)
Theorem group_result_is_independent
    (time_data : dict (list Timestamp)) (tmy : TMY) (kind : interp_kind)
    (out : dict DayTable) (key : date_key) (ts : list Timestamp) :
  climate_data_from_pvgis_tmy_dataframe interp1d time_data tmy kind = Ok out ->
  NoDup (dict_keys time_data) ->
  In (key, ts) time_data ->
  exists tbl,
    dict_get key out = Some tbl
    /\ climate_data_from_pvgis_tmy_dataframe interp1d [(key, ts)] tmy kind
       = Ok [(key, tbl)].
Proof.
  intros Hrun Hnd Hin. rewrite climate_data_eq_build in Hrun.
  destruct (build_get interp1d tmy kind time_data [] out key ts Hrun Hnd Hin)
    as [tbl [Hg Hget]].
  exists tbl. split; [assumption|].
  rewrite single_group_run, Hg. reflexivity.
Qed.

End FurtherProperties.

(* ===================================================================== *)
(** * Sample runs for the further properties *)
(* ===================================================================== *)

Lemma missing_day_raises_key_error_witness :
  df_columns excerpt_tmy = "T2m"%string :: tl (df_columns excerpt_tmy)
  /\ day_rows excerpt_tmy 7 (lookup_day 7 4) = []
  /\ climate_data_from_pvgis_tmy_dataframe reference_interp1d
       [july4_group] excerpt_tmy linear
     = Raise (KeyError (LTuple [7; lookup_day 7 4])).
Proof.
  assert (H1 : df_columns excerpt_tmy = "T2m"%string :: tl (df_columns excerpt_tmy))
    by reflexivity.
  assert (H2 : day_rows excerpt_tmy 7 (lookup_day 7 4) = [])
    by (vm_compute; reflexivity).
  split; [exact H1|]. split; [exact H2|].
  exact (proj1 (missing_day_raises_key_error reference_interp1d excerpt_tmy linear
                  2023 7 4 (snd july4_group) [] "T2m" _ H1 H2)).
Defined.

Lemma successful_run_needs_24_rows_witness :
  rejects_length_mismatch reference_interp1d
  /\ climate_data_from_pvgis_tmy_dataframe reference_interp1d
       sample_time_data excerpt_tmy linear = Ok sample_out
  /\ df_columns excerpt_tmy <> []
  /\ length (day_rows excerpt_tmy 6 (lookup_day 6 15)) = 24%nat.
Proof.
  assert (H2 : climate_data_from_pvgis_tmy_dataframe reference_interp1d
                 sample_time_data excerpt_tmy linear = Ok sample_out)
    by (vm_compute; reflexivity).
  assert (H4 : df_columns excerpt_tmy <> []) by (simpl; discriminate).
  split; [exact reference_rejects_length_mismatch|]. split; [exact H2|].
  split; [exact H4|].
  exact (successful_run_needs_24_rows reference_interp1d sample_time_data excerpt_tmy
           linear sample_out 2023 6 15 sample_grid
           reference_rejects_length_mismatch H2 (or_introl eq_refl) H4).
Defined.

Lemma tables_are_filled_witness :
  climate_data_from_pvgis_tmy_dataframe reference_interp1d
    sample_time_data excerpt_tmy linear = Ok sample_out
  /\ dict_get (2023, 6, 15) sample_out = Some sample_table
  /\ all_columns_filled sample_table.
Proof.
  assert (H1 : climate_data_from_pvgis_tmy_dataframe reference_interp1d
                 sample_time_data excerpt_tmy linear = Ok sample_out)
    by (vm_compute; reflexivity).
  assert (H2 : dict_get (2023, 6, 15) sample_out = Some sample_table)
    by (vm_compute; reflexivity).
  split; [exact H1|]. split; [exact H2|].
  exact (tables_are_filled reference_interp1d sample_time_data excerpt_tmy linear
           sample_out (2023, 6, 15) sample_table H1 H2).
Defined.

Lemma columns_depend_on_month_day_and_times_witness :
  map time_of_day june15_2023 = map time_of_day june15_1999
  /\ result_map (map (fun kv => dt_columns (snd kv)))
       (climate_data_from_pvgis_tmy_dataframe reference_interp1d
          [((2023, 6, 15), june15_2023)] excerpt_tmy linear)
     = result_map (map (fun kv => dt_columns (snd kv)))
         (climate_data_from_pvgis_tmy_dataframe reference_interp1d
            [((1999, 6, 15), june15_1999)] excerpt_tmy linear).
Proof.
  assert (H : map time_of_day june15_2023 = map time_of_day june15_1999)
    by (vm_compute; reflexivity).
  split; [exact H|].
  exact (columns_depend_on_month_day_and_times reference_interp1d excerpt_tmy linear
           2023 1999 6 15 june15_2023 june15_1999 H).
Defined.

Lemma first_failing_group_decides_witness :
  climate_data_from_pvgis_tmy_dataframe reference_interp1d
    leap_time_data excerpt_tmy linear = Ok leap_out
  /\ climate_data_from_pvgis_tmy_dataframe reference_interp1d
       [july4_group] excerpt_tmy linear = Raise (KeyError (LTuple [7; 4]))
  /\ climate_data_from_pvgis_tmy_dataframe reference_interp1d
       (leap_time_data ++ july4_group :: sample_time_data) excerpt_tmy linear
     = Raise (KeyError (LTuple [7; 4])).
Proof.
  assert (H1 : climate_data_from_pvgis_tmy_dataframe reference_interp1d
                 leap_time_data excerpt_tmy linear = Ok leap_out)
    by (vm_compute; reflexivity).
  assert (H2 : climate_data_from_pvgis_tmy_dataframe reference_interp1d
                 [july4_group] excerpt_tmy linear = Raise (KeyError (LTuple [7; 4])))
    by (vm_compute; reflexivity).
  split; [exact H1|]. split; [exact H2|].
  exact (first_failing_group_decides reference_interp1d excerpt_tmy linear
           leap_time_data sample_time_data leap_out (fst july4_group) (snd july4_group)
           _ H1 H2).
Defined.

Lemma group_result_is_independent_witness :
  climate_data_from_pvgis_tmy_dataframe reference_interp1d
    leap_time_data excerpt_tmy linear = Ok leap_out
  /\ NoDup (dict_keys leap_time_data)
  /\ exists tbl,
       dict_get (2024, 2, 28) leap_out = Some tbl
       /\ climate_data_from_pvgis_tmy_dataframe reference_interp1d
            [((2024, 2, 28), [mk_timestamp 2024 2 28 10 30 0 (-18000);
                              mk_timestamp 2024 2 28 14 0 0 (-18000)])]
            excerpt_tmy linear
          = Ok [((2024, 2, 28), tbl)].
Proof.
  assert (H1 : climate_data_from_pvgis_tmy_dataframe reference_interp1d
                 leap_time_data excerpt_tmy linear = Ok leap_out)
    by (vm_compute; reflexivity).
  assert (H2 : NoDup (dict_keys leap_time_data)).
  { simpl. constructor; [|constructor; [intros []|constructor]].
    intros [H|[]]. discriminate H. }
  split; [exact H1|]. split; [exact H2|].
  exact (group_result_is_independent reference_interp1d leap_time_data excerpt_tmy
           linear leap_out (2024, 2, 28) _ H1 H2 (or_intror (or_introl eq_refl))).
Defined.


(* ===================================================================== *)
(** * Calendar days in a sorted table *)
(* ===================================================================== *)

Lemma days_in_month_bounds (m : Z) : 1 <= m <= 12 -> 28 <= days_in_month m <= 31.
Proof.
  intros H.
  assert (C : m = 1 \/ m = 2 \/ m = 3 \/ m = 4 \/ m = 5 \/ m = 6 \/ m = 7 \/ m = 8
              \/ m = 9 \/ m = 10 \/ m = 11 \/ m = 12) by lia.
  repeat (destruct C as [->|C]; [simpl; lia|]). subst; simpl; lia.
Qed.

Lemma calendar_date_lookup (month day : Z) :
  calendar_date month day -> valid_date month (lookup_day month day).
Proof.
  unfold calendar_date, valid_date, lookup_day. intros [Hm Hd].
  destruct (Z.eqb_spec month 2) as [->|N]; simpl.
  - destruct (Z.eqb_spec day 29) as [->|N']; simpl in *; lia.
  - split; [assumption|]. exact Hd.
Qed.

Lemma mdh_leb_antisym (a b : mdh) :
  mdh_leb a b = true -> mdh_leb b a = true -> a = b.
Proof.
  rewrite !mdh_leb_spec. destruct a as [[m1 d1] h1], b as [[m2 d2] h2].
  intros H1 H2. assert (m1 = m2 /\ d1 = d2 /\ h1 = h2) as (-> & -> & ->) by lia.
  reflexivity.
Qed.

Section SortedUnique.
Context {A : Type} (le : A -> A -> Prop).
Hypothesis le_antisym : forall a b, le a b -> le b a -> a = b.

Lemma sorted_same_elements_eq (l1 : list A) :
  forall l2,
    StronglySorted le l1 -> StronglySorted le l2 ->
    NoDup l1 -> NoDup l2 ->
    (forall x, In x l1 <-> In x l2) ->
    l1 = l2.
Proof.
  induction l1 as [|a t1 IH]; intros l2 S1 S2 N1 N2 Hmem.
  - destruct l2 as [|b t2]; [reflexivity|].
    exfalso. apply (proj2 (Hmem b)). now left.
  - destruct l2 as [|b t2].
    + exfalso. apply (proj1 (Hmem a)). now left.
    + inversion S1 as [|? ? S1' F1]; inversion S2 as [|? ? S2' F2]; subst.
      inversion N1 as [|? ? X1 N1']; inversion N2 as [|? ? X2 N2']; subst.
      rewrite Forall_forall in F1, F2.
      assert (a = b).
      { destruct (proj1 (Hmem a) (or_introl eq_refl)) as [E|Ha]; [now symmetry|].
        destruct (proj2 (Hmem b) (or_introl eq_refl)) as [E|Hb]; [assumption|].
        apply le_antisym; auto. }
      subst b. f_equal. apply IH; auto.
      intros x. split; intros Hx.
      * destruct (proj1 (Hmem x) (or_intror Hx)) as [E|H]; [|assumption].
        subst x. contradiction.
      * destruct (proj2 (Hmem x) (or_intror Hx)) as [E|H]; [|assumption].
        subst x. contradiction.
Qed.
End SortedUnique.

Lemma StronglySorted_filter {A} (R : A -> A -> Prop) (f : A -> bool) (l : list A) :
  StronglySorted R l -> StronglySorted R (filter f l).
Proof.
  induction 1 as [|a l S IH F]; simpl; [constructor|].
  destruct (f a); [|assumption]. constructor; [assumption|].
  rewrite Forall_forall in *. intros x Hx. apply filter_In in Hx as [Hx _]. auto.
Qed.

Lemma zrange_sorted (n : nat) : forall a, StronglySorted Z.le (zrange a n).
Proof.
  unfold zrange. induction n as [|n IH]; intros a; simpl; [constructor|].
  rewrite <- seq_shift, map_map. constructor.
  - specialize (IH (a + 1)).
    erewrite map_ext; [exact IH|]. intros i. simpl. lia.
  - apply Forall_forall. intros x Hx. apply in_map_iff in Hx as [i [<- _]]. lia.
Qed.

Lemma StronglySorted_impl {A} (R R' : A -> A -> Prop) (l : list A) :
  (forall a b, R a b -> R' a b) -> StronglySorted R l -> StronglySorted R' l.
Proof.
  intros H. induction 1 as [|a l S IH F]; constructor; [assumption|].
  eapply Forall_impl; [|exact F]. auto.
Qed.

Lemma day_keys_sorted (m d : Z) :
  StronglySorted (fun a b => mdh_leb a b = true) (day_keys m d).
Proof.
  unfold day_keys.
  apply (StronglySorted_map (fun h => (m, d, h)) (fun a b => mdh_leb a b = true)).
  eapply StronglySorted_impl; [|apply (zrange_sorted 24 0)].
  intros h1 h2 H. apply mdh_leb_spec. lia.
Qed.

Lemma day_keys_NoDup (m d : Z) : NoDup (day_keys m d).
Proof.
  unfold day_keys. apply Finite.Injective_map_NoDup.
  - intros h1 h2 E. now inversion E.
  - apply zrange_NoDup.
Qed.

Lemma in_day_keys (m d : Z) (k : mdh) :
  In k (day_keys m d) <-> exists h, k = (m, d, h) /\ 0 <= h <= 23.
Proof.
  unfold day_keys. rewrite in_map_iff. split.
  - intros [h [<- Hh]]. apply in_zrange in Hh. exists h. split; [reflexivity|]. lia.
  - intros [h [-> Hh]]. exists h. split; [reflexivity|]. apply in_zrange. simpl. lia.
Qed.

Lemma rows_NoDup_of_single (rows : list (mdh * list Q)) :
  (forall k, (length (filter (fun r => mdh_eqb k (fst r)) rows) <= 1)%nat) ->
  NoDup (map fst rows).
Proof.
  induction rows as [|r rows IH]; intros H; simpl; constructor.
  - intros Hin. specialize (H (fst r)). cbn [filter] in H.
    rewrite mdh_eqb_refl in H. simpl in H.
    apply in_map_iff in Hin as [r' [E Hr']].
    assert (Hf : In r' (filter (fun r0 => mdh_eqb (fst r) (fst r0)) rows)).
    { apply filter_In. split; [assumption|]. rewrite E. apply mdh_eqb_refl. }
    destruct (filter (fun r0 => mdh_eqb (fst r) (fst r0)) rows); [contradiction|].
    simpl in H. lia.
  - apply IH. intros k. specialize (H k). cbn [filter] in H.
    destruct (mdh_eqb k (fst r)); simpl in H; lia.
Qed.

Lemma one_row_NoDup (tmy : TMY) : one_row_per_valid_mdh tmy -> NoDup (df_index tmy).
Proof.
  intros H. apply rows_NoDup_of_single. intros k. specialize (H k).
  unfold rows_keyed in H. rewrite H. destruct (valid_mdhb k); lia.
Qed.

Lemma one_row_In_iff (tmy : TMY) (k : mdh) :
  one_row_per_valid_mdh tmy -> (In k (df_index tmy) <-> valid_mdh k).
Proof.
  intros H. split.
  - intros Hin. apply valid_mdhb_spec.
    destruct (valid_mdhb k) eqn:V; [reflexivity|].
    exfalso. revert Hin. now apply one_row_invalid_absent.
  - intros V. apply valid_mdhb_spec in V.
    destruct (one_row_valid_single tmy k H V) as [r Hr].
    eapply rows_keyed_cons_In; eauto.
Qed.

Lemma map_fst_filter {B} (f : mdh -> bool) (rows : list (mdh * B)) :
  map fst (filter (fun r => f (fst r)) rows) = filter f (map fst rows).
Proof.
  induction rows as [|r rows IH]; simpl; [reflexivity|].
  destruct (f (fst r)); simpl; now rewrite IH.
Qed.

Lemma day_eqb_spec (m d : Z) (k : mdh) :
  day_eqb m d k = true <-> exists h, k = (m, d, h).
Proof.
  destruct k as [[m' d'] h']. unfold day_eqb.
  rewrite andb_true_iff, !Z.eqb_eq. split.
  - intros [-> ->]. eauto.
  - intros [h E]. inversion E. auto.
Qed.

(** On a sorted table with one row per valid triple, the rows of a valid
    day are its 24 hours in order. *)
Lemma sorted_day_rows (tmy : TMY) (m d : Z) :
  sorted_by_mdh tmy ->
  one_row_per_valid_mdh tmy ->
  valid_date m d ->
  map fst (day_rows tmy m d) = day_keys m d.
Proof.
  intros Hs Ho [Hm Hd]. unfold day_rows.
  rewrite (map_fst_filter (day_eqb m d)).
  apply (sorted_same_elements_eq (fun a b => mdh_leb a b = true) mdh_leb_antisym).
  - apply StronglySorted_filter. exact Hs.
  - apply day_keys_sorted.
  - apply NoDup_filter. now apply one_row_NoDup.
  - apply day_keys_NoDup.
  - intros k. rewrite filter_In, in_day_keys, (one_row_In_iff tmy k Ho), day_eqb_spec.
    split.
    + intros [V [h ->]]. exists h. split; [reflexivity|].
      unfold valid_mdh in V. lia.
    + intros [h [-> Hh]]. split; [|eauto]. unfold valid_mdh. lia.
Qed.

Lemma loc_hour_valid_scalar (tmy : TMY) (k : mdh) (col : string) :
  one_row_per_valid_mdh tmy -> valid_mdh k -> In col (df_columns tmy) ->
  exists v, loc_hour tmy k col = Ok (Scalar v).
Proof.
  intros Ho V Hc. apply valid_mdhb_spec in V.
  destruct (one_row_valid_single tmy k Ho V) as [r Hr].
  destruct (col_pos_In _ _ Hc) as [j Hj].
  exists (cell_at j (snd r)). now apply loc_hour_single.
Qed.

Lemma loc_hour_invalid_missing (tmy : TMY) (k : mdh) (col : string) :
  one_row_per_valid_mdh tmy -> ~ valid_mdh k -> In col (df_columns tmy) ->
  loc_hour tmy k col = Raise (KeyError (LTuple [fst (fst k); snd (fst k); snd k])).
Proof.
  intros Ho V Hc. apply loc_hour_missing; [assumption|].
  apply one_row_invalid_absent; [assumption|].
  destruct (valid_mdhb k) eqn:E; [|reflexivity].
  apply valid_mdhb_spec in E. contradiction.
Qed.

Lemma closing_node_next_day (tmy : TMY) (month day_ : Z) (col : string) :
  one_row_per_valid_mdh tmy ->
  valid_date month day_ ->
  In col (df_columns tmy) ->
  exists v,
    loc_hour tmy (next_day_key month day_) col = Ok (Scalar v)
    /\ closing_node tmy month day_ col = Ok (Scalar v).
Proof.
  intros Ho [Hm Hd] Hc. unfold next_day_key, closing_node.
  pose proof (days_in_month_bounds month Hm) as Hb.
  destruct (Z.ltb_spec day_ (days_in_month month)) as [L|L].
  - destruct (loc_hour_valid_scalar tmy (month, day_ + 1, 0) col Ho) as [v Hv];
      [unfold valid_mdh; lia|assumption|].
    exists v. rewrite Hv. auto.
  - rewrite (loc_hour_invalid_missing tmy (month, day_ + 1, 0) col Ho)
      by (try assumption; unfold valid_mdh; lia).
    cbn [try_except_KeyError].
    destruct (Z.ltb_spec month 12) as [M|M].
    + pose proof (days_in_month_bounds (month + 1) ltac:(lia)) as Hb'.
      destruct (loc_hour_valid_scalar tmy (month + 1, 1, 0) col Ho) as [v Hv];
        [unfold valid_mdh; lia|assumption|].
      exists v. rewrite Hv. auto.
    + rewrite (loc_hour_invalid_missing tmy (month + 1, 1, 0) col Ho)
        by (try assumption; unfold valid_mdh; lia).
      cbn [try_except_KeyError].
      destruct (loc_hour_valid_scalar tmy (1, 1, 0) col Ho) as [v Hv];
        [unfold valid_mdh; simpl; lia|assumption|].
      exists v. rewrite Hv. auto.
Qed.

Lemma loc_day_sorted (tmy : TMY) (month day_ : Z) (col : string) :
  sorted_by_mdh tmy ->
  one_row_per_valid_mdh tmy ->
  valid_date month day_ ->
  In col (df_columns tmy) ->
  exists ys,
    loc_day tmy month day_ col = Ok ys
    /\ length ys = 24%nat
    /\ forall h, 0 <= h <= 23 ->
         loc_hour tmy (month, day_, h) col = Ok (Scalar (nth (Z.to_nat h) ys 0%Q)).
Proof.
  intros Hs Ho Hv Hc.
  pose proof (sorted_day_rows tmy month day_ Hs Ho Hv) as Hk.
  destruct (col_pos_In _ _ Hc) as [j Hj].
  assert (Hlen : length (day_rows tmy month day_) = 24%nat).
  { rewrite <- (length_map fst), Hk. reflexivity. }
  exists (map (fun r => cell_at j (snd r)) (day_rows tmy month day_)).
  split; [|split].
  - unfold loc_day. rewrite Hj. fold (day_rows tmy month day_).
    destruct (day_rows tmy month day_); [discriminate|reflexivity].
  - now rewrite length_map.
  - intros h Hh.
    destruct (day_row_lookup tmy month day_ h Hk Hh) as [row [Hrow Hkeyed]].
    rewrite (loc_hour_single tmy _ col j row Hj Hkeyed). do 2 f_equal.
    fold (day_rows tmy month day_) in Hrow.
    erewrite nth_error_nth; [reflexivity|].
    rewrite nth_error_map, Hrow. reflexivity.
Qed.

Lemma mapM_ok {A B} (g : A -> result B) (l : list A) :
  (forall x, In x l -> exists v, g x = Ok v) -> exists vs, mapM g l = Ok vs.
Proof.
  induction l as [|a l IH]; intros H; simpl; [eauto|].
  destruct (H a (or_introl eq_refl)) as [b ->]. simpl.
  destruct IH as [bs ->]; [intros x Hx; apply H; now right|]. simpl. eauto.
Qed.

Section Totality.

Variable interp1d : interp_kind -> list Q -> list cell -> option (Q -> option Q).
Variable kind : interp_kind.
Hypothesis interp1d_evaluates : evaluates_on_day interp1d kind.

Lemma interp_column_ok tmy month day (ts : list Timestamp) col :
  sorted_by_mdh tmy ->
  one_row_per_valid_mdh tmy ->
  calendar_date month day ->
  In col (df_columns tmy) ->
  exists vs,
    interp_column interp1d tmy kind month (lookup_day month day)
      (map hms_float_of ts) col = Ok vs.
Proof.
  intros Hs Ho Hd Hc. apply calendar_date_lookup in Hd.
  destruct (loc_day_sorted tmy month _ col Hs Ho Hd Hc) as [ys [Hy [Hlen _]]].
  destruct (closing_node_next_day tmy month _ col Ho Hd Hc) as [v [_ Hv]].
  unfold interp_column. rewrite Hy, Hv. cbn [rbind].
  change [Scalar v] with (map Scalar [v]). rewrite <- map_app.
  destruct (interp1d_evaluates (ys ++ [v])) as [f [Hf Hev]].
  { rewrite length_app, Hlen. reflexivity. }
  rewrite Hf. cbn [of_option rbind].
  apply mapM_ok. intros x Hx. apply in_map_iff in Hx as [t [<- _]].
  destruct (hms_float_range t) as [H0 H24].
  destruct (Hev (hms_float_of t) H0 (Qlt_le_weak _ _ H24)) as [w ->]. simpl. eauto.
Qed.

Lemma fill_columns_ok tmy month day_ hms cols :
  (forall c, In c cols ->
     exists vs, interp_column interp1d tmy kind month day_ hms c = Ok vs) ->
  forall tbl, exists tbl',
    fill_columns interp1d tmy kind month day_ hms cols tbl = Ok tbl'.
Proof.
  induction cols as [|col cols IH]; intros H tbl; simpl; [eauto|].
  destruct (H col (or_introl eq_refl)) as [vs ->]. simpl.
  apply IH. intros c Hc. apply H. now right.
Qed.

Lemma build_ok tmy items :
  (forall k ts, In (k, ts) items ->
     exists tbl, group_table interp1d tmy kind k ts = Ok tbl) ->
  forall cd, exists out, build interp1d tmy kind items cd = Ok out.
Proof.
  induction items as [|[key ts] items IH]; intros H cd; simpl; [eauto|].
  destruct (H key ts (or_introl eq_refl)) as [tbl ->]. simpl.
  apply IH. intros k ts' Hin. apply H. now right.
Qed.

Lemma well_formed_run_succeeds (time_data : dict (list Timestamp)) tmy :
  sorted_by_mdh tmy ->
  one_row_per_valid_mdh tmy ->
  (forall year month day ts,
      In ((year, month, day), ts) time_data -> calendar_date month day) ->
  exists out,
    climate_data_from_pvgis_tmy_dataframe interp1d time_data tmy kind = Ok out.
Proof.
  intros Hs Ho Hdates. rewrite climate_data_eq_build. apply build_ok.
  intros [[year month] day] ts Hin. rewrite group_table_unfold.
  apply fill_columns_ok. intros c Hc.
  apply interp_column_ok; auto. eapply Hdates; eauto.
Qed.

End Totality.

Lemma scalars_map_Scalar (ys : list Q) : scalars (map Scalar ys) = Some ys.
Proof. induction ys as [|y ys IH]; simpl; [reflexivity|]. now rewrite IH. Qed.

Lemma reference_evaluates_on_day : evaluates_on_day reference_interp1d linear.
Proof.
  intros ys Hlen. unfold reference_interp1d.
  rewrite scalars_map_Scalar, Hlen.
  change (length x_interp) with 25%nat.
  change ((25 =? 25)%nat && (1 <? 25)%nat) with true.
  eexists. split; [reflexivity|].
  intros x H0 H24. unfold reference_call.
  change (hd 0%Q x_interp) with 0%Q. change (last x_interp 0%Q) with 24%Q.
  apply Qle_bool_iff in H0. apply Qle_bool_iff in H24. rewrite H0, H24. simpl. eauto.
Qed.

(* ===================================================================== *)
(** * Properties of well-formed tables *)
(* ===================================================================== *)

(** X7. On a sorted table with one row per valid triple, the day lookup of
    every calendar date (29 February included, through its lookup day)
    returns 24 values, and the value at position h is the value of the row
    keyed (month, lookup day, h). *)
Theorem day_lookup_returns_the_24_hours (tmy : TMY) (month day : Z) (col : string) :
  sorted_by_mdh tmy ->
  one_row_per_valid_mdh tmy ->
  calendar_date month day ->
  In col (df_columns tmy) ->
  exists ys,
    loc_day tmy month (lookup_day month day) col = Ok ys
    /\ length ys = 24%nat
    /\ forall h, 0 <= h <= 23 ->
         loc_hour tmy (month, lookup_day month day, h) col
         = Ok (Scalar (nth (Z.to_nat h) ys 0%Q)).
Proof.
  intros Hs Ho Hd Hc. apply loc_day_sorted; auto. now apply calendar_date_lookup.
Qed.

Lemma day_lookup_returns_the_24_hours_witness :
  sorted_by_mdh sample_tmy
  /\ one_row_per_valid_mdh sample_tmy
  /\ calendar_date 2 29
  /\ In "WS10m"%string (df_columns sample_tmy)
  /\ exists ys,
       loc_day sample_tmy 2 (lookup_day 2 29) "WS10m" = Ok ys /\ length ys = 24%nat.
Proof.
  assert (H1 : sorted_by_mdh sample_tmy) by apply normalised_sorted.
  assert (H3 : calendar_date 2 29) by (unfold calendar_date; simpl; lia).
  assert (H4 : In "WS10m"%string (df_columns sample_tmy)) by (simpl; tauto).
  split; [exact H1|]. split; [exact sample_tmy_one_row|].
  split; [exact H3|]. split; [exact H4|].
  destruct (day_lookup_returns_the_24_hours sample_tmy 2 29 "WS10m"
              H1 sample_tmy_one_row H3 H4) as [ys [Hy [Hl _]]].
  exists ys. auto.
Defined.

(** X8. On a table with one row per valid triple, the closing node of
    every calendar date is the value at hour 0 of the next calendar day:
    the next day of the month, else the first day of the next month, else
    1 January; for 29 February it is hour 0 of 1 March.  That value is the
    last element of the node list the code hands to [interp1d], and the
    column stored in the output is that interpolant evaluated at the
    group's times. *)
Theorem closing_node_is_next_day_hour_0 (tmy : TMY) (month day : Z) (col : string) :
  one_row_per_valid_mdh tmy ->
  calendar_date month day ->
  In col (df_columns tmy) ->
  (exists v,
      loc_hour tmy (next_day_key month (lookup_day month day)) col = Ok (Scalar v)
      /\ closing_node tmy month (lookup_day month day) col = Ok (Scalar v))
  /\ next_day_key 2 (lookup_day 2 29) = (3, 1, 0)
  /\ next_day_key 12 (lookup_day 12 31) = (1, 1, 0)
  /\ (forall interp1d kind (hms vs : list Q),
        interp_column interp1d tmy kind month (lookup_day month day) hms col = Ok vs ->
        exists y_day v,
          loc_day tmy month (lookup_day month day) col = Ok y_day
          /\ loc_hour tmy (next_day_key month (lookup_day month day)) col = Ok (Scalar v)
          /\ interpolates_nodes interp1d kind (map Scalar y_day ++ [Scalar v]) hms vs)
  /\ (forall interp1d (time_data : dict (list Timestamp)) kind (out : dict DayTable)
             (year : Z) (ts : list Timestamp),
        climate_data_from_pvgis_tmy_dataframe interp1d time_data tmy kind = Ok out ->
        NoDup (dict_keys time_data) ->
        In ((year, month, day), ts) time_data ->
        exists tbl vs y_day v,
          dict_get (year, month, day) out = Some tbl
          /\ get_column (dt_columns tbl) col = Some (Values vs)
          /\ loc_day tmy month (lookup_day month day) col = Ok y_day
          /\ loc_hour tmy (next_day_key month (lookup_day month day)) col = Ok (Scalar v)
          /\ interpolates_nodes interp1d kind (map Scalar y_day ++ [Scalar v])
               (map hms_float_of ts) vs).
Proof.
  intros Ho Hd Hc.
  destruct (closing_node_next_day tmy month (lookup_day month day) col Ho
              (calendar_date_lookup _ _ Hd) Hc) as [v [Hv Hcl]].
  split; [exists v; split; assumption|].
  split; [reflexivity|]. split; [reflexivity|]. split.
  - intros interp1d kind hms vs H.
    destruct (interp_column_nodes _ _ _ _ _ _ _ _ H) as [y_day [closing [Hy [Hcl' Hn]]]].
    rewrite Hcl in Hcl'. injection Hcl' as <-.
    exists y_day, v. auto.
  - intros interp1d time_data kind out year ts Hrun Hnd Hin.
    destruct (run_column_nodes interp1d time_data tmy kind out year month day ts col
                Hrun Hnd Hin Hc) as [tbl [vs [y_day [closing [G1 [G2 [G3 [G4 G5]]]]]]]].
    rewrite Hcl in G4. injection G4 as <-.
    exists tbl, vs, y_day, v. auto.
Qed.

Lemma closing_node_is_next_day_hour_0_witness :
  one_row_per_valid_mdh sample_tmy
  /\ calendar_date 4 30
  /\ In "T2m"%string (df_columns sample_tmy)
  /\ exists v,
       loc_hour sample_tmy (next_day_key 4 (lookup_day 4 30)) "T2m" = Ok (Scalar v)
       /\ closing_node sample_tmy 4 (lookup_day 4 30) "T2m" = Ok (Scalar v).
Proof.
  assert (H2 : calendar_date 4 30) by (unfold calendar_date; simpl; lia).
  assert (H3 : In "T2m"%string (df_columns sample_tmy)) by (simpl; tauto).
  split; [exact sample_tmy_one_row|]. split; [exact H2|]. split; [exact H3|].
  exact (proj1 (closing_node_is_next_day_hour_0 sample_tmy 4 30 "T2m"
                  sample_tmy_one_row H2 H3)).
Defined.

(** X9. With an interpolator that, for the requested kind, accepts 25
    nodes and evaluates between them, a call on a sorted table with one row
    per valid triple and distinct column labels returns a dictionary for
    every input whose keys are calendar dates: no lookup fails and no
    target time leaves the range of the nodes. *)
Theorem valid_input_never_raises
    (interp1d : interp_kind -> list Q -> list cell -> option (Q -> option Q))
    (time_data : dict (list Timestamp)) (tmy : TMY) (kind : interp_kind) :
  evaluates_on_day interp1d kind ->
  distinct_labels (df_columns tmy) ->
  sorted_by_mdh tmy ->
  one_row_per_valid_mdh tmy ->
  (forall year month day ts,
      In ((year, month, day), ts) time_data -> calendar_date month day) ->
  exists out,
    climate_data_from_pvgis_tmy_dataframe interp1d time_data tmy kind = Ok out.
Proof. intros He _ Hs Ho Hd. now apply (well_formed_run_succeeds interp1d kind He). Qed.

Lemma sample_time_data_dates :
  forall year month day ts,
    In ((year, month, day), ts) sample_time_data -> calendar_date month day.
Proof.
  intros year month day ts [E|[]]. injection E as _ <- <- _.
  unfold calendar_date. simpl. lia.
Qed.

Lemma sample_tmy_distinct_labels : distinct_labels (df_columns sample_tmy).
Proof.
  unfold distinct_labels.
  change (df_columns sample_tmy) with documented_columns.
  unfold documented_columns.
  repeat (apply NoDup_cons; [simpl; intuition discriminate|]).
  apply NoDup_nil.
Qed.

Lemma valid_input_never_raises_witness :
  evaluates_on_day reference_interp1d linear
  /\ distinct_labels (df_columns sample_tmy)
  /\ sorted_by_mdh sample_tmy
  /\ one_row_per_valid_mdh sample_tmy
  /\ exists out,
       climate_data_from_pvgis_tmy_dataframe reference_interp1d
         sample_time_data sample_tmy linear = Ok out.
Proof.
  assert (H2 : sorted_by_mdh sample_tmy) by apply normalised_sorted.
  split; [exact reference_evaluates_on_day|].
  split; [exact sample_tmy_distinct_labels|]. split; [exact H2|].
  split; [exact sample_tmy_one_row|].
  exact (valid_input_never_raises reference_interp1d sample_time_data sample_tmy linear
           reference_evaluates_on_day sample_tmy_distinct_labels H2 sample_tmy_one_row
           sample_time_data_dates).
Defined.

(** X10. The two functions compose: for a response of 8760 rows at
    distinct instants whose local labels are pairwise distinct valid
    triples, whose column labels stay distinct under the renaming and
    include none of the helper columns, the table returned by
    [get_pvgis_tmy_dataframe] makes [climate_data_from_pvgis_tmy_dataframe]
    succeed on every input whose keys are calendar dates. *)
Theorem fetched_table_serves_every_date
    (interp1d : interp_kind -> list Q -> list cell -> option (Q -> option Q))
    (response : Response) (tz : TimeZone)
    (time_data : dict (list Timestamp)) (kind : interp_kind) :
  evaluates_on_day interp1d kind ->
  distinct_labels (map rename_column (df_columns response)) ->
  (forall c, In c helper_columns -> ~ In c (df_columns response)) ->
  length (df_rows response) = (24 * 365)%nat ->
  NoDup (map ts_value (df_index response)) ->
  NoDup (local_labels tz response) ->
  Forall valid_mdh (local_labels tz response) ->
  (forall year month day ts,
      In ((year, month, day), ts) time_data -> calendar_date month day) ->
  exists tmy out,
    get_pvgis_tmy_dataframe response tz = Ok tmy
    /\ distinct_labels (df_columns tmy)
    /\ climate_data_from_pvgis_tmy_dataframe interp1d time_data tmy kind = Ok out.
Proof.
  intros He Hcols _ Hlen Hnd Hl Hv Hdates.
  exists (normalised response tz).
  destruct (well_formed_run_succeeds interp1d kind He time_data (normalised response tz))
    as [out Hout]; auto.
  - apply normalised_sorted.
  - apply (one_row_of_labels _ (local_labels tz response)); auto.
    + apply normalised_index_Permutation.
    + unfold local_labels. now rewrite length_map.
  - exists out. split; [|split; assumption].
    apply get_pvgis_tmy_dataframe_normalised. now apply has_duplicates_NoDup.
Qed.

Lemma fetched_table_serves_every_date_witness :
  distinct_labels (map rename_column (df_columns sample_response))
  /\ length (df_rows sample_response) = (24 * 365)%nat
  /\ NoDup (map ts_value (df_index sample_response))
  /\ exists tmy out,
       get_pvgis_tmy_dataframe sample_response tz_minus5 = Ok tmy
       /\ distinct_labels (df_columns tmy)
       /\ climate_data_from_pvgis_tmy_dataframe reference_interp1d
            sample_time_data tmy linear = Ok out.
Proof.
  assert (H0 : distinct_labels (map rename_column (df_columns sample_response)))
    by exact sample_tmy_distinct_labels.
  assert (H0' : forall c, In c helper_columns -> ~ In c (df_columns sample_response)).
  { intros c Hc Hin. simpl in Hc, Hin.
    repeat (destruct Hc as [<-|Hc]; [intuition discriminate|]). exact Hc. }
  assert (H1 : length (df_rows sample_response) = (24 * 365)%nat)
    by (vm_compute; reflexivity).
  assert (H2 : NoDup (map ts_value (df_index sample_response)))
    by (apply has_duplicates_false, sample_response_no_duplicates).
  split; [exact H0|]. split; [exact H1|]. split; [exact H2|].
  exact (fetched_table_serves_every_date reference_interp1d sample_response tz_minus5
           sample_time_data linear reference_evaluates_on_day H0 H0' H1 H2
           sample_labels_NoDup sample_labels_valid sample_time_data_dates).
Defined.

(* ===================================================================== *)
(** * The exceptions of a call *)
(* ===================================================================== *)

Lemma loc_hour_raise_inv (tmy : TMY) (k : mdh) (col : string) (e : exn) :
  In col (df_columns tmy) ->
  loc_hour tmy k col = Raise e ->
  ~ In k (df_index tmy)
  /\ e = KeyError (LTuple [fst (fst k); snd (fst k); snd k]).
Proof.
  intros Hc H.
  destruct (key_present tmy k) eqn:K.
  - apply key_present_In in K.
    destruct (loc_hour_present tmy k col Hc K) as [c Hok]. congruence.
  - apply key_absent_not_In in K. split; [assumption|].
    rewrite (loc_hour_missing tmy k col Hc K) in H. congruence.
Qed.

Lemma closing_node_raise_inv (tmy : TMY) (month day_ : Z) (col : string) (e : exn) :
  In col (df_columns tmy) ->
  closing_node tmy month day_ col = Raise e ->
  e = MissingClosingNode
  /\ ~ In (month, day_ + 1, 0) (df_index tmy)
  /\ ~ In (month + 1, 1, 0) (df_index tmy)
  /\ ~ In (1, 1, 0) (df_index tmy).
Proof.
  intros Hc. unfold closing_node.
  destruct (loc_hour tmy (month, day_ + 1, 0) col) as [c|e1] eqn:E1; [discriminate|].
  apply (loc_hour_raise_inv tmy _ col e1 Hc) in E1 as [N1 ->]. cbn [try_except_KeyError].
  destruct (loc_hour tmy (month + 1, 1, 0) col) as [c|e2] eqn:E2; [discriminate|].
  apply (loc_hour_raise_inv tmy _ col e2 Hc) in E2 as [N2 ->]. cbn [try_except_KeyError].
  destruct (loc_hour tmy (1, 1, 0) col) as [c|e3] eqn:E3; [discriminate|].
  apply (loc_hour_raise_inv tmy _ col e3 Hc) in E3 as [N3 ->].
  simpl. intros [= <-]. auto.
Qed.

Section ExceptionSources.

Variable interp1d : interp_kind -> list Q -> list cell -> option (Q -> option Q).

(** X11. The exceptions of a call: it can only raise
    [KeyError((month, day_))], when the lookup day of a group has no row in
    the table; [KeyError((1, 1, 0))], when none of the three keys of the
    fallback chain of a group is present; or the interpolator's
    [ValueError]. *)
Theorem exceptions_of_a_call
    (time_data : dict (list Timestamp)) (tmy : TMY) (kind : interp_kind) (e : exn) :
  climate_data_from_pvgis_tmy_dataframe interp1d time_data tmy kind = Raise e ->
  exists year month day ts col,
    In ((year, month, day), ts) time_data
    /\ In col (df_columns tmy)
    /\ ((e = KeyError (LTuple [month; lookup_day month day])
         /\ day_rows tmy month (lookup_day month day) = [])
        \/ (e = MissingClosingNode
            /\ day_rows tmy month (lookup_day month day) <> []
            /\ ~ In (month, lookup_day month day + 1, 0) (df_index tmy)
            /\ ~ In (month + 1, 1, 0) (df_index tmy)
            /\ ~ In (1, 1, 0) (df_index tmy))
        \/ (e = ValueError
            /\ day_rows tmy month (lookup_day month day) <> []
            /\ exists c, closing_node tmy month (lookup_day month day) col = Ok c)).
Proof.
  intros Hrun. rewrite climate_data_eq_build in Hrun.
  apply build_error_source in Hrun as [[[year month] day] [ts [Hin G]]].
  rewrite group_table_unfold in G.
  apply fill_columns_error_source in G as [col [Hc G]].
  exists year, month, day, ts, col. split; [assumption|]. split; [assumption|].
  set (d_ := lookup_day month day) in *.
  unfold interp_column in G.
  destruct (col_pos_In _ _ Hc) as [j Hj].
  unfold loc_day in G. rewrite Hj in G. fold (day_rows tmy month d_) in G.
  destruct (day_rows tmy month d_) as [|r rs] eqn:Ed.
  - left. simpl in G. split; [congruence|reflexivity].
  - right. cbn [rbind] in G.
    destruct (closing_node tmy month d_ col) as [c|e'] eqn:Ec.
    + right. cbn [rbind] in G. split; [|split; [discriminate|eauto]].
      destruct (interp1d kind x_interp _) as [f|]; simpl in G; [|congruence].
      now apply mapM_of_option_error in G.
    + left. simpl in G. injection G as ->.
      destruct (closing_node_raise_inv tmy month d_ col e Hc Ec) as (-> & N1 & N2 & N3).
      split; [reflexivity|]. split; [discriminate|]. auto.
Qed.

End ExceptionSources.

Lemma exceptions_of_a_call_witness :
  climate_data_from_pvgis_tmy_dataframe reference_interp1d
    (leap_time_data ++ [july4_group]) excerpt_tmy linear
  = Raise (KeyError (LTuple [7; 4]))
  /\ exists year month day ts col,
       In ((year, month, day), ts) (leap_time_data ++ [july4_group])
       /\ In col (df_columns excerpt_tmy).
Proof.
  assert (H : climate_data_from_pvgis_tmy_dataframe reference_interp1d
                (leap_time_data ++ [july4_group]) excerpt_tmy linear
              = Raise (KeyError (LTuple [7; 4])))
    by (vm_compute; reflexivity).
  split; [exact H|].
  destruct (exceptions_of_a_call reference_interp1d _ _ _ _ H)
    as (year & month & day & ts & col & Hin & Hc & _).
  exists year, month, day, ts, col. auto.
Defined.
